(** * whoop-mcp: the multi-day trend and pattern-detection logic

    A shallow embedding of the numeric core of the recovery, sleep and
    strain tools (src/tools/recovery.ts, src/tools/sleep.ts and the strain
    tool), followed by the properties of the aggregates and of the pattern
    rules.

    Conventions of the embedding.
    - A JSON number is an exact rational ([Q]); a field that may be missing
      or null is an [option Q].  Sums of JSON numbers stay in [Q].
    - The result of a JavaScript division is a [JS.number], which can be
      NaN or infinite, so that "never divides by zero" is a statement and
      not a convention.  Signed zeros and binary rounding are not modelled.
    - A template literal is kept as the list of its pieces: literal text
      and interpolated numbers.
    - Dates ([shortDate]), durations printed as hours ([msToHours]) and
      the per-day lines of a report are display only and are left out; of
      [formatSingleDay] the stage percentages are modelled. *)

From Stdlib Require Import List String Ascii ZArith QArith Qround Lia Lqa Bool Arith.
From Stdlib Require Import DecimalString.
Import ListNotations.

Local Open Scope Q_scope.

(* ------------------------------------------------------------------ *)
(** ** JavaScript values used by the tools *)

Module JS.

(** A JavaScript number: finite, or one of the three special values. *)
Inductive number : Type :=
| Num (q : Q)
| PosInfinity
| NegInfinity
| NaN.

Definition Qltb (x y : Q) : bool := negb (Qle_bool y x).

Definition ofNat (n : nat) : Q := inject_Z (Z.of_nat n).

(** [x / y] *)
Definition div (a b : number) : number :=
  match a, b with
  | NaN, _ => NaN
  | _, NaN => NaN
  | Num x, Num y =>
      if Qeq_bool y 0
      then (if Qeq_bool x 0 then NaN
            else if Qltb 0 x then PosInfinity else NegInfinity)
      else Num (x / y)
  | Num _, _ => Num 0
  | PosInfinity, Num y => if Qltb y 0 then NegInfinity else PosInfinity
  | NegInfinity, Num y => if Qltb y 0 then PosInfinity else NegInfinity
  | _, _ => NaN
  end.

(** [x * y] *)
Definition mul (a b : number) : number :=
  match a, b with
  | NaN, _ => NaN
  | _, NaN => NaN
  | Num x, Num y => Num (x * y)
  | Num x, PosInfinity | PosInfinity, Num x =>
      if Qeq_bool x 0 then NaN
      else if Qltb 0 x then PosInfinity else NegInfinity
  | Num x, NegInfinity | NegInfinity, Num x =>
      if Qeq_bool x 0 then NaN
      else if Qltb 0 x then NegInfinity else PosInfinity
  | PosInfinity, PosInfinity | NegInfinity, NegInfinity => PosInfinity
  | _, _ => NegInfinity
  end.

(** [Math.round(x)] on a finite [x]: the nearest integer, ties towards
    plus infinity. *)
Definition roundQ (x : Q) : Q := inject_Z (Qfloor (x + (1 # 2))).

(** [Math.round(x)] *)
Definition round (a : number) : number :=
  match a with
  | Num x => Num (roundQ x)
  | _ => a
  end.

(** [x < y]; every comparison with NaN is false. *)
Definition lt (a b : number) : bool :=
  match a, b with
  | NaN, _ => false
  | _, NaN => false
  | Num x, Num y => Qltb x y
  | PosInfinity, _ => false
  | _, PosInfinity => true
  | NegInfinity, NegInfinity => false
  | NegInfinity, _ => true
  | Num _, NegInfinity => false
  end.


(** [v || d] on a numeric field: null, undefined and 0 are falsy. *)
Definition orElse (v : option Q) (d : Q) : Q :=
  match v with
  | Some q => if Qeq_bool q 0 then d else q
  | None => d
  end.

(** Truthiness of a numeric field, as tested by [filter(r => r.x)]. *)
Definition truthy (v : option Q) : bool :=
  match v with
  | Some q => negb (Qeq_bool q 0)
  | None => false
  end.

(** [v == null] *)
Definition isNull (v : option Q) : bool :=
  match v with
  | Some _ => false
  | None => true
  end.

(** [xs.reduce((a, b) => a + b, 0)] *)
Definition sum (xs : list Q) : Q := fold_left Qplus xs 0.

(** [xs.filter(keep).map(get)], where [f] answers [None] for an element
    that the filter drops and [Some] of the mapped value otherwise. *)
Fixpoint filterMap {A B : Type} (f : A -> option B) (xs : list A) : list B :=
  match xs with
  | [] => []
  | x :: rest =>
      match f x with
      | Some y => y :: filterMap f rest
      | None => filterMap f rest
      end
  end.

(** One piece of a template literal. *)
Inductive Piece : Type :=
| Text (s : string)          (* literal text *)
| Count (n : nat)            (* [${n}] for a counter *)
| Value (x : number)         (* [${x}] *)
| Fixed1 (x : number).       (* [${num(x)}], that is [x.toFixed(1)] *)

Definition Message : Type := list Piece.

(** What a tool handler answers. *)
Inductive Response (R : Type) : Type :=
| Info (text : string)       (* [toolResult] of a fixed sentence *)
| Trend (report : R)         (* [toolResult] of the rendered report *)
| ToolError (msg : string).  (* [toolError], from the [catch] *)

Arguments Info {R} text.
Arguments Trend {R} report.
Arguments ToolError {R} msg.

(** The loop shared by the two streak rules:
    [if (hit) { consec++; max = Math.max(max, consec); } else consec = 0;] *)
Definition streakStep (hit : Q -> bool) (st : nat * nat) (s : Q) : nat * nat :=
  let '(consec, maxConsec) := st in
  if hit s then (S consec, Nat.max maxConsec (S consec)) else (O, maxConsec).

Definition maxStreak (hit : Q -> bool) (xs : list Q) : nat :=
  snd (fold_left (streakStep hit) xs (O, O)).

End JS.

Import JS.

(* ------------------------------------------------------------------ *)
(** ** The recovery tool, multi-day branch (src/tools/recovery.ts) *)

Module Recovery.

Record Score : Type := {
  recovery_score : option Q;
  hrv_rmssd_milli : option Q;
  resting_heart_rate : option Q;
  spo2_percentage : option Q;
  skin_temp_celsius : option Q
}.

Record DailyRecord : Type := {
  score : option Score;
  created_at : string
}.

(** [{}] *)
Definition emptyScore : Score :=
  {| recovery_score := None; hrv_rmssd_milli := None;
     resting_heart_rate := None; spo2_percentage := None;
     skin_temp_celsius := None |}.

(** [rec.score || {}] *)
Definition scoreOf (rec : DailyRecord) : Score :=
  match score rec with
  | Some s => s
  | None => emptyScore
  end.

(** The variables of the aggregation loop. *)
Record Totals : Type := {
  totalRec : Q;
  totalHrv : Q;
  totalRhr : Q;
  totalSpo2 : Q;
  count : nat;
  minRec : Q;
  maxRec : Q
}.

Definition initTotals : Totals :=
  {| totalRec := 0; totalHrv := 0; totalRhr := 0; totalSpo2 := 0;
     count := O; minRec := 100; maxRec := 0 |}.

(** One iteration of [for (const rec of records)]. *)
Definition accumulate (t : Totals) (rec : DailyRecord) : Totals :=
  let s := scoreOf rec in
  match recovery_score s with
  | None => t
  | Some r =>
      {| totalRec := totalRec t + r;
         totalHrv := totalHrv t + orElse (hrv_rmssd_milli s) 0;
         totalRhr := totalRhr t + orElse (resting_heart_rate s) 0;
         totalSpo2 := totalSpo2 t + orElse (spo2_percentage s) 0;
         count := S (count t);
         minRec := if Qltb r (minRec t) then r else minRec t;
         maxRec := if Qltb (maxRec t) r then r else maxRec t |}
  end.

Inductive Pattern : Type :=
| LowRecoveryDays (lowDays total : nat)
| HrvTrendingDown (avgFirst avgSecond : number)
| HrvTrendingUp (avgFirst avgSecond : number)
| ConsecutiveLow (run : nat).

(** The sentence pushed for each pattern. *)
Definition message (p : Pattern) : Message :=
  match p with
  | LowRecoveryDays lowDays total =>
      [Text "Recovery below 50% on "; Count lowDays; Text " of "; Count total;
       Text " days — possible overreaching."]
  | HrvTrendingDown avgFirst avgSecond =>
      [Text "HRV trending down: earlier avg "; Fixed1 avgFirst;
       Text "ms → recent "; Fixed1 avgSecond; Text "ms."]
  | HrvTrendingUp avgFirst avgSecond =>
      [Text "HRV trending up: earlier avg "; Fixed1 avgFirst;
       Text "ms → recent "; Fixed1 avgSecond; Text "ms."]
  | ConsecutiveLow run =>
      [Count run; Text " consecutive days below 50% recovery."]
  end.

(** [records.filter(r => r.score?.recovery_score != null)
            .map(r => r.score.recovery_score)] *)
Definition recScores (records : list DailyRecord) : list Q :=
  filterMap (fun r =>
    match score r with
    | Some s => recovery_score s
    | None => None
    end) records.

(** [records.filter(r => r.score?.hrv_rmssd_milli)
            .map(r => r.score.hrv_rmssd_milli)] *)
Definition hrvValues (records : list DailyRecord) : list Q :=
  filterMap (fun r =>
    match score r with
    | Some s => if truthy (hrv_rmssd_milli s) then hrv_rmssd_milli s else None
    | None => None
    end) records.

Definition isLow (r : Q) : bool := Qltb r 50.

(** [recScores.filter(r => r < 50).length] *)
Definition lowDays (scores : list Q) : nat :=
  List.length (filter isLow scores).

(** [if (lowDays >= 3) patterns.push(...)] *)
Definition lowRecoveryRule (scores : list Q) (cnt : nat) : list Pattern :=
  if (3 <=? lowDays scores)%nat
  then [LowRecoveryDays (lowDays scores) cnt]
  else [].

(** [xs.reduce((a, b) => a + b, 0) / xs.length] *)
Definition average (xs : list Q) : number :=
  div (Num (sum xs)) (Num (ofNat (List.length xs))).

(** The block guarded by [if (hrvValues.length >= 3)]. *)
Definition hrvTrendRule (hrv : list Q) : list Pattern :=
  if (3 <=? List.length hrv)%nat then
    let mid := (List.length hrv / 2)%nat in
    let firstHalf := skipn mid hrv in
    let secondHalf := firstn mid hrv in
    let avgFirst := average firstHalf in
    let avgSecond := average secondHalf in
    (if lt avgSecond (mul avgFirst (Num (9 # 10)))
     then [HrvTrendingDown avgFirst avgSecond] else [])
    ++
    (if lt (mul avgFirst (Num (11 # 10))) avgSecond
     then [HrvTrendingUp avgFirst avgSecond] else [])
  else [].

Definition maxConsecLow (scores : list Q) : nat := maxStreak isLow scores.

(** [if (maxConsecLow >= 3) patterns.push(...)] *)
Definition consecutiveLowRule (scores : list Q) : list Pattern :=
  if (3 <=? maxConsecLow scores)%nat
  then [ConsecutiveLow (maxConsecLow scores)]
  else [].

(** [patterns], in the order the rules push. *)
Definition detect (records : list DailyRecord) (cnt : nat) : list Pattern :=
  lowRecoveryRule (recScores records) cnt
  ++ hrvTrendRule (hrvValues records)
  ++ consecutiveLowRule (recScores records).

Record Report : Type := {
  rangeStart : string;         (* [records[records.length - 1].created_at] *)
  rangeEnd : string;           (* [records[0].created_at] *)
  days : nat;                  (* [count] *)
  avgRec : number;
  rangeLow : number;           (* [Math.round(minRec)] *)
  rangeHigh : number;          (* [Math.round(maxRec)] *)
  avgHrv : number;
  avgRhr : number;
  avgSpo2 : number;
  patterns : list Pattern
}.

(** What follows [if (count === 0) return ...]: the averages, the header
    and the patterns. *)
Definition summarize (records : list DailyRecord) (t : Totals)
    (oldest newest : DailyRecord) : Report :=
  let n := Num (ofNat (count t)) in
  {| rangeStart := created_at oldest;
     rangeEnd := created_at newest;
     days := count t;
     avgRec := round (div (Num (totalRec t)) n);
     rangeLow := round (Num (minRec t));
     rangeHigh := round (Num (maxRec t));
     avgHrv := div (round (mul (div (Num (totalHrv t)) n) (Num 10))) (Num 10);
     avgRhr := round (div (Num (totalRhr t)) n);
     avgSpo2 := div (round (mul (div (Num (totalSpo2 t)) n) (Num 10))) (Num 10);
     patterns := detect records (count t) |}.

(** The handler for [days > 1], given the records the client fetched.
    Reading [.created_at] of a missing array element throws, and the
    [catch] turns that into a [toolError]. *)
Definition trend (records : list DailyRecord) : Response Report :=
  match records with
  | [] => Info "No recovery data available."
  | _ :: _ =>
      let t := fold_left accumulate records initTotals in
      if (count t =? 0)%nat then Info "No scored recovery data in this range."
      else
        match nth_error records (List.length records - 1), nth_error records 0 with
        | Some oldest, Some newest => Trend (summarize records t oldest newest)
        | _, _ => ToolError "Cannot read properties of undefined"
        end
  end.

(** The patterns a response carries; a sentence carries none. *)
Definition patternsOf (r : Response Report) : list Pattern :=
  match r with
  | Trend rep => patterns rep
  | _ => []
  end.

(** A day from the numbers of its score. *)
Definition day (rec hrv rhr spo2 : option Q) : DailyRecord :=
  {| score := Some {| recovery_score := rec; hrv_rmssd_milli := hrv;
                      resting_heart_rate := rhr; spo2_percentage := spo2;
                      skin_temp_celsius := None |};
     created_at := "2026-02-26T06:00:00.000Z" |}.

(** A day that carries a recovery score and an HRV value only. *)
Definition scoredDay (rec hrv : Q) : DailyRecord :=
  day (Some rec) (Some hrv) None None.

End Recovery.

(* ------------------------------------------------------------------ *)
(** ** The sleep tool (src/tools/sleep.ts) *)

Module Sleep.

Record StageSummary : Type := {
  total_in_bed_time_milli : option Q;
  total_awake_time_milli : option Q;
  total_light_sleep_time_milli : option Q;
  total_slow_wave_sleep_time_milli : option Q;
  total_rem_sleep_time_milli : option Q
}.

Record Score : Type := {
  stage_summary : option StageSummary;
  sleep_performance_percentage : option Q;
  sleep_consistency_percentage : option Q;
  sleep_efficiency_percentage : option Q
}.

Record DailyRecord : Type := {
  score : option Score;
  start : string
}.

(** [{}] *)
Definition emptyStages : StageSummary :=
  {| total_in_bed_time_milli := None; total_awake_time_milli := None;
     total_light_sleep_time_milli := None;
     total_slow_wave_sleep_time_milli := None;
     total_rem_sleep_time_milli := None |}.

Definition emptyScore : Score :=
  {| stage_summary := None; sleep_performance_percentage := None;
     sleep_consistency_percentage := None;
     sleep_efficiency_percentage := None |}.

(** [rec.score || {}] *)
Definition scoreOf (rec : DailyRecord) : Score :=
  match score rec with
  | Some s => s
  | None => emptyScore
  end.

(** [score.stage_summary || {}] *)
Definition stagesOf (s : Score) : StageSummary :=
  match stage_summary s with
  | Some st => st
  | None => emptyStages
  end.

(** *** formatSingleDay: the stage percentages *)

(** [(stages.total_in_bed_time_milli || 0) - (stages.total_awake_time_milli || 0)] *)
Definition sleepMs (st : StageSummary) : Q :=
  orElse (total_in_bed_time_milli st) 0 - orElse (total_awake_time_milli st) 0.

Definition totalSleep (rec : DailyRecord) : Q := sleepMs (stagesOf (scoreOf rec)).

(** [totalSleep || 1] *)
Definition totalMs (rec : DailyRecord) : Q := orElse (Some (totalSleep rec)) 1.

(** [Math.round((stage || 0) / denominator * 100)] *)
Definition stagePct (stage : option Q) (denominator : Q) : number :=
  round (mul (div (Num (orElse stage 0)) (Num denominator)) (Num 100)).

Record StagePercentages : Type := {
  lightPct : number;
  deepPct : number;
  remPct : number;
  awakePct : number
}.

Definition formatSingleDay (rec : DailyRecord) : StagePercentages :=
  let stages := stagesOf (scoreOf rec) in
  {| lightPct := stagePct (total_light_sleep_time_milli stages) (totalMs rec);
     deepPct := stagePct (total_slow_wave_sleep_time_milli stages) (totalMs rec);
     remPct := stagePct (total_rem_sleep_time_milli stages) (totalMs rec);
     awakePct := stagePct (total_awake_time_milli stages)
                          (orElse (total_in_bed_time_milli stages) 1) |}.

(** *** The multi-day branch *)

Record Totals : Type := {
  totalPerf : Q;
  totalEff : Q;
  totalConsist : Q;
  totalLightMs : Q;
  totalDeepMs : Q;
  totalRemMs : Q;
  totalAwakeMs : Q;
  totalSleepMs : Q;
  count : nat
}.

Definition initTotals : Totals :=
  {| totalPerf := 0; totalEff := 0; totalConsist := 0; totalLightMs := 0;
     totalDeepMs := 0; totalRemMs := 0; totalAwakeMs := 0; totalSleepMs := 0;
     count := O |}.

(** One iteration of [for (const rec of records)]. *)
Definition accumulate (t : Totals) (rec : DailyRecord) : Totals :=
  let s := scoreOf rec in
  let st := stagesOf s in
  if isNull (sleep_performance_percentage s) then t
  else
    {| totalPerf := totalPerf t + orElse (sleep_performance_percentage s) 0;
       totalEff := totalEff t + orElse (sleep_efficiency_percentage s) 0;
       totalConsist := totalConsist t + orElse (sleep_consistency_percentage s) 0;
       totalLightMs := totalLightMs t + orElse (total_light_sleep_time_milli st) 0;
       totalDeepMs := totalDeepMs t + orElse (total_slow_wave_sleep_time_milli st) 0;
       totalRemMs := totalRemMs t + orElse (total_rem_sleep_time_milli st) 0;
       totalAwakeMs := totalAwakeMs t + orElse (total_awake_time_milli st) 0;
       totalSleepMs := totalSleepMs t + sleepMs st;
       count := S (count t) |}.

Inductive Pattern : Type :=
| LowPerformanceNights (lowPerfDays total : nat)
| DeepSleepLow (avgDeepPct : number).

(** The sentence pushed for each pattern. *)
Definition message (p : Pattern) : Message :=
  match p with
  | LowPerformanceNights lowPerfDays total =>
      [Text "Sleep performance below 70% on "; Count lowPerfDays; Text " of ";
       Count total; Text " nights."]
  | DeepSleepLow avgDeepPct =>
      [Text "Deep sleep averaging only "; Value avgDeepPct;
       Text "% — below typical 15-20% range."]
  end.

(** [records.filter(r => r.score?.sleep_performance_percentage != null)
            .map(r => r.score.sleep_performance_percentage)] *)
Definition perfs (records : list DailyRecord) : list Q :=
  filterMap (fun r =>
    match score r with
    | Some s => sleep_performance_percentage s
    | None => None
    end) records.

Definition isLowPerf (p : Q) : bool := Qltb p 70.

(** [perfs.filter(p => p < 70).length] *)
Definition lowPerfDays (ps : list Q) : nat :=
  List.length (filter isLowPerf ps).

(** [if (lowPerfDays >= 3) patterns.push(...)] *)
Definition lowPerformanceRule (ps : list Q) (cnt : nat) : list Pattern :=
  if (3 <=? lowPerfDays ps)%nat
  then [LowPerformanceNights (lowPerfDays ps) cnt]
  else [].

(** [totalSleepMs > 0 ? Math.round(stageMs / totalSleepMs * 100) : 0] *)
Definition windowPct (stageMs sleepTotal : Q) : number :=
  if Qltb 0 sleepTotal
  then round (mul (div (Num stageMs) (Num sleepTotal)) (Num 100))
  else Num 0.

(** [if (avgDeepPct < 15) patterns.push(...)] *)
Definition deepSleepRule (avgDeepPct : number) : list Pattern :=
  if lt avgDeepPct (Num 15) then [DeepSleepLow avgDeepPct] else [].

(** [msToHoursDecimal(ms)], for [ms] the result of a division. *)
Definition msToHoursDecimal (ms : number) : number :=
  div (round (mul (div ms (Num 3600000)) (Num 10))) (Num 10).

Record Report : Type := {
  rangeStart : string;         (* [records[records.length - 1].start] *)
  rangeEnd : string;           (* [records[0].start] *)
  days : nat;                  (* [count] *)
  avgSleepH : number;
  avgPerf : number;
  avgEff : number;
  avgConsist : number;
  avgLightPct : number;
  avgDeepPct : number;
  avgRemPct : number;
  patterns : list Pattern
}.

(** [patterns], in the order the rules push. *)
Definition detect (records : list DailyRecord) (cnt : nat) (deep : number)
  : list Pattern :=
  lowPerformanceRule (perfs records) cnt ++ deepSleepRule deep.

(** What follows [if (count === 0) return ...]. *)
Definition summarize (records : list DailyRecord) (t : Totals)
    (oldest newest : DailyRecord) : Report :=
  let n := Num (ofNat (count t)) in
  let deep := windowPct (totalDeepMs t) (totalSleepMs t) in
  {| rangeStart := start oldest;
     rangeEnd := start newest;
     days := count t;
     avgSleepH := msToHoursDecimal (div (Num (totalSleepMs t)) n);
     avgPerf := round (div (Num (totalPerf t)) n);
     avgEff := round (div (Num (totalEff t)) n);
     avgConsist := round (div (Num (totalConsist t)) n);
     avgLightPct := windowPct (totalLightMs t) (totalSleepMs t);
     avgDeepPct := deep;
     avgRemPct := windowPct (totalRemMs t) (totalSleepMs t);
     patterns := detect records (count t) deep |}.

(** The handler for [days > 1], given the records the client fetched. *)
Definition trend (records : list DailyRecord) : Response Report :=
  match records with
  | [] => Info "No sleep data available."
  | _ :: _ =>
      let t := fold_left accumulate records initTotals in
      if (count t =? 0)%nat then Info "No scored sleep data in this range."
      else
        match nth_error records (List.length records - 1), nth_error records 0 with
        | Some oldest, Some newest => Trend (summarize records t oldest newest)
        | _, _ => ToolError "Cannot read properties of undefined"
        end
  end.

(** The patterns a response carries; a sentence carries none. *)
Definition patternsOf (r : Response Report) : list Pattern :=
  match r with
  | Trend rep => patterns rep
  | _ => []
  end.

(** A night from its performance score and its stage durations. *)
Definition night (perf : option Q) (inBed awake light deep rem : option Q)
  : DailyRecord :=
  {| score := Some {|
       stage_summary := Some {|
         total_in_bed_time_milli := inBed;
         total_awake_time_milli := awake;
         total_light_sleep_time_milli := light;
         total_slow_wave_sleep_time_milli := deep;
         total_rem_sleep_time_milli := rem |};
       sleep_performance_percentage := perf;
       sleep_consistency_percentage := None;
       sleep_efficiency_percentage := None |};
     start := "2026-02-26T22:30:00.000Z" |}.

End Sleep.

(* ------------------------------------------------------------------ *)
(** ** The strain tool, multi-day branch *)

Module Strain.

Record Score : Type := {
  strain : option Q
}.

Record Cycle : Type := {
  score : option Score;
  start : string
}.

(** [c.score || {}] *)
Definition scoreOf (c : Cycle) : Score :=
  match score c with
  | Some s => s
  | None => {| strain := None |}
  end.

Record Totals : Type := {
  totalStrain : Q;
  count : nat
}.

Definition initTotals : Totals := {| totalStrain := 0; count := O |}.

(** One iteration of [for (const c of cycles)]. *)
Definition accumulate (t : Totals) (c : Cycle) : Totals :=
  match strain (scoreOf c) with
  | None => t
  | Some s => {| totalStrain := totalStrain t + s; count := S (count t) |}
  end.

Inductive Pattern : Type :=
| HighStrainStreak (run : nat)
| NoRestDays.

(** The sentence pushed for each pattern. *)
Definition message (p : Pattern) : Message :=
  match p with
  | HighStrainStreak run =>
      [Count run;
       Text " consecutive high-strain days (>14). Consider active recovery."]
  | NoRestDays => [Text "No rest days in this period."]
  end.

(** [cycles.filter(c => c.score?.strain != null).map(c => c.score.strain)] *)
Definition strains (cycles : list Cycle) : list Q :=
  filterMap (fun c =>
    match score c with
    | Some s => strain s
    | None => None
    end) cycles.

Definition isHigh (s : Q) : bool := Qltb 14 s.

Definition isRest (s : Q) : bool := Qltb s 4.

Definition maxConsecHigh (ss : list Q) : nat := maxStreak isHigh ss.

(** [strains.filter(s => s < 4).length] *)
Definition restDays (ss : list Q) : nat := List.length (filter isRest ss).

(** [if (maxConsecHigh >= 3) patterns.push(...)] *)
Definition highStrainRule (ss : list Q) : list Pattern :=
  if (3 <=? maxConsecHigh ss)%nat
  then [HighStrainStreak (maxConsecHigh ss)]
  else [].

(** [if (restDays === 0 && count >= 7) patterns.push(...)] *)
Definition noRestRule (ss : list Q) (cnt : nat) : list Pattern :=
  if ((restDays ss =? 0) && (7 <=? cnt))%nat then [NoRestDays] else [].

(** [Math.max(...xs)] *)
Definition maxOf (xs : list Q) : number :=
  fold_left (fun m x => if lt m (Num x) then Num x else m) xs NegInfinity.

(** [Math.min(...xs)] *)
Definition minOf (xs : list Q) : number :=
  fold_left (fun m x => if lt (Num x) m then Num x else m) xs PosInfinity.

Record Report : Type := {
  rangeStart : string;         (* [cycles[cycles.length - 1].start] *)
  rangeEnd : string;           (* [cycles[0].start] *)
  days : nat;                  (* [count] *)
  avgStrain : number;          (* before [toFixed(1)] *)
  maxStrain : number;
  minStrain : number;
  patterns : list Pattern
}.

(** [patterns], in the order the rules push. *)
Definition detect (cycles : list Cycle) (cnt : nat) : list Pattern :=
  highStrainRule (strains cycles) ++ noRestRule (strains cycles) cnt.

(** What follows [if (count === 0) return ...]. *)
Definition summarize (cycles : list Cycle) (t : Totals)
    (oldest newest : Cycle) : Report :=
  {| rangeStart := start oldest;
     rangeEnd := start newest;
     days := count t;
     avgStrain := div (Num (totalStrain t)) (Num (ofNat (count t)));
     maxStrain := maxOf (strains cycles);
     minStrain := minOf (strains cycles);
     patterns := detect cycles (count t) |}.

(** The handler for [days > 1], given the cycles the client fetched. *)
Definition trend (cycles : list Cycle) : Response Report :=
  match cycles with
  | [] => Info "No strain data available."
  | _ :: _ =>
      let t := fold_left accumulate cycles initTotals in
      if (count t =? 0)%nat then Info "No scored cycles in this range."
      else
        match nth_error cycles (List.length cycles - 1), nth_error cycles 0 with
        | Some oldest, Some newest => Trend (summarize cycles t oldest newest)
        | _, _ => ToolError "Cannot read properties of undefined"
        end
  end.

(** The patterns a response carries; a sentence carries none. *)
Definition patternsOf (r : Response Report) : list Pattern :=
  match r with
  | Trend rep => patterns rep
  | _ => []
  end.

(** A scored cycle. *)
Definition scored (s : Q) : Cycle :=
  {| score := Some {| strain := Some s |};
     start := "2026-02-26T05:00:00.000Z" |}.

End Strain.

(* ------------------------------------------------------------------ *)
(** ** The formatting helpers (src/tools/helpers.ts) *)

Module Helpers.

(** [Math.round(x)] as an integer. *)
Definition roundZ (x : Q) : Z := Qfloor (x + (1 # 2)).

(** [Math.trunc(x)] *)
Definition truncZ (x : Q) : Z :=
  if Qltb x 0 then (- Qfloor (- x))%Z else Qfloor x.

(** [a % b] for a divisor other than 0: the remainder takes the sign of
    the dividend. *)
Definition remQ (a b : Q) : Q := a - b * inject_Z (truncZ (a / b)).

(** [String(n)] for an integer [n] (below the size where JavaScript
    switches to exponent notation). *)
Definition showZ (z : Z) : string := NilZero.string_of_int (Z.to_int z).

(** [s.padStart(2, c)] *)
Definition padStart2 (c : ascii) (s : string) : string :=
  match String.length s with
  | O => String c (String c s)
  | S O => String c s
  | _ => s
  end.

(** [const h = Math.floor(ms / 3600000)] *)
Definition hoursField (ms : Q) : Z := Qfloor (ms / 3600000).

(** [const m = Math.round((ms % 3600000) / 60000)] *)
Definition minutesField (ms : Q) : Z := roundZ (remQ ms 3600000 / 60000).

Definition msToHours (ms : Q) : string :=
  showZ (hoursField ms) ++ ":" ++ padStart2 "0" (showZ (minutesField ms)).

Definition msToHoursDecimal (ms : Q) : Q := roundQ (ms / 3600000 * 10) / 10.

Definition pct (n : option Q) : string :=
  match n with
  | None => "—"
  | Some q => showZ (roundZ q) ++ "%"
  end.

(** [score >= k], for a score that may be undefined or null: both compare
    false against a positive [k]. *)
Definition atLeast (score : option Q) (k : Q) : bool :=
  match score with
  | Some s => Qle_bool k s
  | None => false
  end.

Definition recoveryColor (score : option Q) : string :=
  if atLeast score 67 then "green"
  else if atLeast score 34 then "yellow"
  else "red".

Definition recoveryEmoji (score : option Q) : string :=
  if atLeast score 67 then "🟢"
  else if atLeast score 34 then "🟡"
  else "🔴".



End Helpers.

(* ------------------------------------------------------------------ *)
(** ** Heart-rate zones of a workout (the strain tool) *)

Module Zones.

(** A property of a JSON object: absent, null, or a number. *)
Inductive Field : Type :=
| Undefined
| Null
| Val (q : Q).

Record ZoneDurations : Type := {
  zone_zero_milli : Field;
  zone_one_milli : Field;
  zone_two_milli : Field;
  zone_three_milli : Field;
  zone_four_milli : Field;
  zone_five_milli : Field
}.

(** [f || 0] *)
Definition orZero (f : Field) : Q :=
  match f with
  | Val q => if Qeq_bool q 0 then 0 else q
  | _ => 0
  end.


(** [(z.zone_zero_milli || 0) + ... + (z.zone_five_milli || 0)] *)
Definition total (z : ZoneDurations) : Q :=
  orZero (zone_zero_milli z) + orZero (zone_one_milli z)
  + orZero (zone_two_milli z) + orZero (zone_three_milli z)
  + orZero (zone_four_milli z) + orZero (zone_five_milli z).







End Zones.

(* ------------------------------------------------------------------ *)
(** ** The paginated fetch of the client ([WhoopClient.fetchPaginated]) *)

Module Client.

(** Truthiness of a string that may be missing: the empty string is
    falsy. *)
Definition truthyString (s : option string) : bool :=
  match s with
  | Some EmptyString => false
  | Some _ => true
  | None => false
  end.

(** What the path of a request carries: [limit=] and, when the variable
    [nextToken] is truthy, [nextToken=]. *)
Record Request : Type := {
  batchSize : nat;
  nextToken : option string
}.

(** The body of an answer: [records] and [next_token], either of which may
    be missing. *)
Record Page (T : Type) : Type := {
  records : option (list T);
  next_token : option string
}.

Arguments records {T} _.
Arguments next_token {T} _.

(** What [this.request] does: it resolves to the body or throws. *)
Inductive Reply (T : Type) : Type :=
| Body (data : Page T)
| Throws (msg : string).

Arguments Body {T} data.
Arguments Throws {T} msg.

Inductive Outcome (T : Type) : Type :=
| Returned (items : list T)
| Threw (msg : string)
| OutOfFuel.

Arguments Returned {T} items.
Arguments Threw {T} msg.
Arguments OutOfFuel {T}.

Section Paginated.

Variable T : Type.

(** The answer of the server to the request number [n] (from 0). *)
Variable serve : nat -> Request -> Reply T.

(** [data.records || []] *)
Definition recordsOf (data : Page T) : list T :=
  match records data with
  | Some rs => rs
  | None => []
  end.

(** The [while] loop: [sent] are the requests made so far, [all] the
    records collected, [token] the variable [nextToken].  Reading [.length]
    of missing [records] throws. *)
Fixpoint fetchLoop (fuel limit : nat) (sent : list Request) (all : list T)
    (token : option string) : Outcome T * list Request :=
  if (limit <=? List.length all)%nat then (Returned (firstn limit all), sent)
  else
    match fuel with
    | O => (OutOfFuel, sent)
    | S fuel' =>
        let req :=
          {| batchSize := Nat.min (limit - List.length all) 25;
             nextToken := if truthyString token then token else None |} in
        match serve (List.length sent) req with
        | Throws msg => (Threw msg, sent ++ [req])
        | Body data =>
            let all' := all ++ recordsOf data in
            if negb (truthyString (next_token data))
            then (Returned (firstn limit all'), sent ++ [req])
            else
              match records data with
              | None =>
                  (Threw "Cannot read properties of undefined (reading 'length')",
                   sent ++ [req])
              | Some rs =>
                  if (List.length rs =? 0)%nat
                  then (Returned (firstn limit all'), sent ++ [req])
                  else fetchLoop fuel' limit (sent ++ [req]) all' (next_token data)
              end
        end
    end.

(** [fetchPaginated(basePath, limit)]: every turn of the loop that goes on
    adds a record, so [limit] turns are enough. *)
Definition fetchPaginated (limit : nat) : Outcome T * list Request :=
  fetchLoop limit limit [] [] None.

End Paginated.

Arguments recordsOf {T} data.
Arguments fetchLoop {T} serve fuel limit sent all token.
Arguments fetchPaginated {T} serve limit.

(** The requests [reqs], the first of them number [n], follow one another:
    each carries the truthy value of the variable [nextToken], which is the
    [next_token] of the answer before. *)
Fixpoint chained {T : Type} (serve : nat -> Request -> Reply T) (n : nat)
    (token : option string) (reqs : list Request) : Prop :=
  match reqs with
  | [] => True
  | req :: rest =>
      nextToken req = (if truthyString token then token else None)
      /\ (rest = []
          \/ exists data,
               serve n req = Body data
               /\ truthyString (next_token data) = true
               /\ chained serve (S n) (next_token data) rest)
  end.

(** A server that honours the batch size and always offers a next page. *)
Definition honoursBatchSize {T : Type} (serve : nat -> Request -> Reply T)
  : Prop :=
  forall n req,
    exists rs tok,
      serve n req = Body {| records := Some rs; next_token := Some tok |}
      /\ List.length rs = batchSize req
      /\ truthyString (Some tok) = true.

(** A server that answers every request with as many records as asked for
    and a token for the next page. *)
Definition fullPages (n : nat) (req : Request) : Reply nat :=
  Body {| records := Some (repeat n (batchSize req)); next_token := Some "next"%string |}.

(** A server whose second page has a token and no [records]. *)
Definition brokenSecondPage (n : nat) (req : Request) : Reply nat :=
  match n with
  | O => Body {| records := Some (repeat n (batchSize req)); next_token := Some "next"%string |}
  | _ => Body {| records := None; next_token := Some "next"%string |}
  end.

End Client.

(* ------------------------------------------------------------------ *)
(** ** The recovery calendar (src/tools/calendar.ts) *)

Module Calendar.

Record Day : Type := {
  date_value_display : string;
  has_data : bool;
  day_state : string;
  cycle_id : Z
}.

(** A value of [dayMap]. *)
Record Entry : Type := {
  state : string;
  cycleId : Z
}.

(** [dayMap], a [Map] from day numbers, as its lookup function. *)
Definition DayMap : Type := Z -> option Entry.

Definition emptyMap : DayMap := fun _ => None.

(** [dayMap.set(k, v)] *)
Definition setDay (m : DayMap) (k : Z) (v : Entry) : DayMap :=
  fun k' => if (k' =? k)%Z then Some v else m k'.

(** One cell of a week line. *)
Inductive Cell : Type :=
| Pad                                   (* four spaces *)
| Marked (state : string) (dayNum : nat) (* emoji, day number, space *)
| Plain (dayNum : nat).                  (* space, day number, space *)

Definition stateEmoji (st : string) : string :=
  if String.eqb st "HIGH_RECOVERY" then "🟢"
  else if String.eqb st "MEDIUM_RECOVERY" then "🟡"
  else if String.eqb st "LOW_RECOVERY" then "🔴"
  else "  ".

(** One entry of [weekdayStats]. *)
Record Stat : Type := {
  total : nat;
  low : nat;
  medium : nat;
  high : nat;
  count : nat
}.

Definition emptyStat : Stat :=
  {| total := O; low := O; medium := O; high := O; count := O |}.

Definition flag (st name : string) : nat :=
  if String.eqb st name then 1%nat else O.

(** The four statements that count a day with data under its weekday. *)
Definition countDay (st : string) (ws : Stat) : Stat :=
  {| total := total ws;
     low := (low ws + flag st "LOW_RECOVERY")%nat;
     medium := (medium ws + flag st "MEDIUM_RECOVERY")%nat;
     high := (high ws + flag st "HIGH_RECOVERY")%nat;
     count := S (count ws) |}.

(** [xs[idx] = f(xs[idx])] *)
Fixpoint updateAt {A : Type} (idx : nat) (f : A -> A) (xs : list A) : list A :=
  match xs, idx with
  | [], _ => []
  | x :: rest, O => f x :: rest
  | x :: rest, S k => x :: updateAt k f rest
  end.

(** [firstDayOfWeek === 0 ? 6 : firstDayOfWeek - 1] *)
Definition monBased (firstDayOfWeek : nat) : nat :=
  match firstDayOfWeek with
  | O => 6%nat
  | S k => k
  end.

(** One entry of [weekdayScores]. *)
Record WeekdayScore : Type := {
  name : string;
  score : Z;
  scoreCount : nat;
  scoreLow : nat
}.

Definition weekdayNames : list string :=
  ["Mon"; "Tue"; "Wed"; "Thu"; "Fri"; "Sat"; "Sun"]%string.

(** [(ws.high * 100 + ws.medium * 50 + ws.low * 17) / ws.count], rounded. *)
Definition weekdayScore (ws : Stat) : Z :=
  Helpers.roundZ ((ofNat (high ws) * 100 + ofNat (medium ws) * 50
                   + ofNat (low ws) * 17) / ofNat (count ws)).

(** [weekdayStats.map(...).filter(Boolean)], from the weekday [i] on. *)
Fixpoint scoresFrom (i : nat) (stats : list Stat) : list WeekdayScore :=
  match stats with
  | [] => []
  | ws :: rest =>
      if (count ws =? 0)%nat then scoresFrom (S i) rest
      else {| name := nth i weekdayNames EmptyString;
              score := weekdayScore ws;
              scoreCount := count ws;
              scoreLow := low ws |} :: scoresFrom (S i) rest
  end.

(** [sort((a, b) => a.score - b.score)]: ascending by score, entries of
    equal score kept in their order. *)
Fixpoint insertByScore (x : WeekdayScore) (xs : list WeekdayScore)
  : list WeekdayScore :=
  match xs with
  | [] => [x]
  | y :: rest =>
      if (score x <=? score y)%Z then x :: y :: rest
      else y :: insertByScore x rest
  end.

Fixpoint sortByScore (xs : list WeekdayScore) : list WeekdayScore :=
  match xs with
  | [] => []
  | x :: rest => insertByScore x (sortByScore rest)
  end.

(** The lines "Best" and "Worst", when they are printed. *)
Record Pattern : Type := {
  best : WeekdayScore;
  worst : WeekdayScore
}.

Definition weekdayPattern (scores : list WeekdayScore) : option Pattern :=
  if (5 <=? List.length scores)%nat then
    let sorted := sortByScore scores in
    match nth_error sorted 0, nth_error sorted (List.length sorted - 1) with
    | Some w, Some b =>
        if (15 <? score b - score w)%Z then Some {| best := b; worst := w |}
        else None
    | _, _ => None
    end
  else None.

(** The counters of the summary line. *)
Record Summary : Type := {
  greenCount : nat;
  yellowCount : nat;
  redCount : nat;
  totalDays : nat
}.

Definition summaryStep (sm : Summary) (day : Day) : Summary :=
  if has_data day then
    {| greenCount := (greenCount sm + flag (day_state day) "HIGH_RECOVERY")%nat;
       yellowCount := (yellowCount sm + flag (day_state day) "MEDIUM_RECOVERY")%nat;
       redCount := (redCount sm + flag (day_state day) "LOW_RECOVERY")%nat;
       totalDays := S (totalDays sm) |}
  else sm.

Definition summarize (days : list Day) : Summary :=
  fold_left summaryStep days
    {| greenCount := O; yellowCount := O; redCount := O; totalDays := O |}.

Section WithParseInt.

(** [parseInt] of the standard library, [None] for NaN. *)
Variable parseInt : string -> option Z.

(** The loop that fills [dayMap]. *)
Definition mapStep (m : DayMap) (day : Day) : DayMap :=
  match parseInt (date_value_display day) with
  | Some num =>
      if has_data day
      then setDay m num {| state := day_state day; cycleId := cycle_id day |}
      else m
  | None => m
  end.

Definition buildDayMap (days : list Day) : DayMap :=
  fold_left mapStep days emptyMap.

(** The state of the loop over the days of the month. *)
Record Grid : Type := {
  weekLine : list Cell;
  lines : list (list Cell);
  weekdayStats : list Stat
}.

(** The loop [for (let i = monBasedFirst; dayNum <= daysInMonth; i++)]:
    [remaining] is the number of day numbers from [dayNum] to
    [daysInMonth]. *)
Fixpoint gridLoop (dayMap : DayMap) (daysInMonth remaining i dayNum : nat)
    (g : Grid) : Grid :=
  match remaining with
  | O => g
  | S remaining' =>
      let weekdayIdx := (i mod 7)%nat in
      let g1 :=
        match dayMap (Z.of_nat dayNum) with
        | Some d =>
            {| weekLine := weekLine g ++ [Marked (state d) dayNum];
               lines := lines g;
               weekdayStats := updateAt weekdayIdx (countDay (state d)) (weekdayStats g) |}
        | None =>
            {| weekLine := weekLine g ++ [Plain dayNum];
               lines := lines g;
               weekdayStats := weekdayStats g |}
        end in
      let g2 :=
        if ((weekdayIdx =? 6) || (daysInMonth <? S dayNum))%nat
        then {| weekLine := [];
                lines := lines g1 ++ [weekLine g1];
                weekdayStats := weekdayStats g1 |}
        else g1 in
      gridLoop dayMap daysInMonth remaining' (S i) (S dayNum) g2
  end.

Record Report : Type := {
  rows : list (list Cell);
  stats : list Stat;
  summary : Summary;
  pattern : option Pattern
}.

(** The handler, from the days of the answer, the number of days of the
    month and the weekday of its first day (0 for Sunday), both of which
    the code asks [Date] for. *)
Definition calendar (days : list Day) (daysInMonth firstDayOfWeek : nat)
  : Report :=
  let dayMap := buildDayMap days in
  let monBasedFirst := monBased firstDayOfWeek in
  let g := gridLoop dayMap daysInMonth daysInMonth monBasedFirst 1
             {| weekLine := repeat Pad monBasedFirst;
                lines := [];
                weekdayStats := repeat emptyStat 7 |} in
  {| rows := lines g;
     stats := weekdayStats g;
     summary := summarize days;
     pattern := weekdayPattern (scoresFrom 0 (weekdayStats g)) |}.

End WithParseInt.

(** The cell of a day number. *)
Definition cellOf (dayMap : DayMap) (dayNum : nat) : Cell :=
  match dayMap (Z.of_nat dayNum) with
  | Some d => Marked (state d) dayNum
  | None => Plain dayNum
  end.

(** The weekday (0 for Monday) of a day number. *)
Definition weekdayOf (monBasedFirst dayNum : nat) : nat :=
  ((monBasedFirst + dayNum - 1) mod 7)%nat.

(** The day numbers of the month that have an entry in the map. *)
Definition daysWithData (dayMap : DayMap) (daysInMonth : nat) : list nat :=
  filter (fun d => match dayMap (Z.of_nat d) with Some _ => true | None => false end)
         (seq 1 daysInMonth).

(** The day numbers with data that fall on the weekday [w]. *)
Definition daysOnWeekday (dayMap : DayMap) (daysInMonth monBasedFirst w : nat)
  : list nat :=
  filter (fun d => (weekdayOf monBasedFirst d =? w)%nat)
         (daysWithData dayMap daysInMonth).

(** The day numbers on the weekday [w] whose state is [st]. *)
Definition daysInState (dayMap : DayMap) (daysInMonth monBasedFirst w : nat)
    (st : string) : list nat :=
  filter (fun d => match dayMap (Z.of_nat d) with
                   | Some e => String.eqb (state e) st
                   | None => false
                   end)
         (daysOnWeekday dayMap daysInMonth monBasedFirst w).

(** [w] is the first entry of [scores] with the lowest score. *)
Definition isWorst (scores : list WeekdayScore) (w : WeekdayScore) : Prop :=
  exists before after,
    scores = before ++ w :: after
    /\ (forall y, In y before -> (score w < score y)%Z)
    /\ (forall y, In y after -> (score w <= score y)%Z).

(** [b] is the last entry of [scores] with the highest score. *)
Definition isBest (scores : list WeekdayScore) (b : WeekdayScore) : Prop :=
  exists before after,
    scores = before ++ b :: after
    /\ (forall y, In y before -> (score y <= score b)%Z)
    /\ (forall y, In y after -> (score y < score b)%Z).

(** The first entry with the lowest score of [x :: xs]. *)
Fixpoint firstMin (x : WeekdayScore) (xs : list WeekdayScore) : WeekdayScore :=
  match xs with
  | [] => x
  | y :: rest =>
      let m := firstMin y rest in
      if (score x <=? score m)%Z then x else m
  end.

(** The last entry with the highest score of [x :: xs]. *)
Fixpoint lastMax (x : WeekdayScore) (xs : list WeekdayScore) : WeekdayScore :=
  match xs with
  | [] => x
  | y :: rest =>
      let m := lastMax y rest in
      if (score m <? score x)%Z then x else m
  end.

(** The entry of [weekdayScores] for the weekday [w]. *)
Definition scoreEntry (w : nat) (ws : Stat) : WeekdayScore :=
  {| name := nth w weekdayNames EmptyString;
     score := weekdayScore ws;
     scoreCount := count ws;
     scoreLow := low ws |}.

(** The day number has an entry in the map. *)
Definition hasEntry (m : DayMap) (d : nat) : bool :=
  match m (Z.of_nat d) with
  | Some _ => true
  | None => false
  end.

(** The day has data, falls on the weekday [w] and is in a state that
    [counts] selects. *)
Definition tallied (dayMap : DayMap) (blanks : nat) (counts : string -> bool)
    (w d : nat) : bool :=
  match dayMap (Z.of_nat d) with
  | Some e => (weekdayOf blanks d =? w)%nat && counts (state e)
  | None => false
  end.

(** The entries of the answer that have data and are in the state [st]. *)
Definition withState (st : string) (days : list Day) : list Day :=
  filter (fun day => has_data day && String.eqb (day_state day) st) days.

(** The entry is one that the loop puts into the map under [k]. *)
Definition feeds (parseInt : string -> option Z) (k : Z) (day : Day) : Prop :=
  has_data day = true /\ parseInt (date_value_display day) = Some k.

(** A day display that is a number of one or two decimal digits, as
    [parseInt] reads it. *)
Definition parseDay (s : string) : option Z :=
  match s with
  | String a EmptyString =>
      if ((48 <=? nat_of_ascii a) && (nat_of_ascii a <=? 57))%nat
      then Some (Z.of_nat (nat_of_ascii a - 48)) else None
  | String a (String b EmptyString) =>
      if ((48 <=? nat_of_ascii a) && (nat_of_ascii a <=? 57)
          && (48 <=? nat_of_ascii b) && (nat_of_ascii b <=? 57))%nat
      then Some (Z.of_nat ((nat_of_ascii a - 48) * 10 + (nat_of_ascii b - 48)))
      else None
  | _ => None
  end.

Definition dayOf (display st : string) : Day :=
  {| date_value_display := display; has_data := true; day_state := st;
     cycle_id := 0 |}.

(** Days 1 to 10 of a month, green on weekdays and red on the two days of
    the weekend, day 3 without data. *)
Definition sampleDays : list Day :=
  [ dayOf "1" "HIGH_RECOVERY"; dayOf "2" "HIGH_RECOVERY";
    {| date_value_display := "3"; has_data := false; day_state := EmptyString;
       cycle_id := 0 |};
    dayOf "4" "LOW_RECOVERY"; dayOf "5" "LOW_RECOVERY";
    dayOf "6" "HIGH_RECOVERY"; dayOf "7" "MEDIUM_RECOVERY";
    dayOf "8" "HIGH_RECOVERY"; dayOf "9" "HIGH_RECOVERY";
    dayOf "10" "MEDIUM_RECOVERY" ]%string.

End Calendar.

(* ------------------------------------------------------------------ *)
(** ** The multi-day handlers on top of the client *)

Module Handlers.

(** What a handler does with the outcome of the fetch: a thrown error
    reaches the [catch] of the handler. *)
Definition onRecords {A R : Type} (fetched : Client.Outcome A * list Client.Request)
    (body : list A -> Response R) : Response R :=
  match fst fetched with
  | Client.Returned records => body records
  | Client.Threw msg => ToolError msg
  | Client.OutOfFuel => ToolError "out of fuel"
  end.

(** The recovery handler for [days = n], [n] other than 1:
    [const records = await client.getRecoveryV2(n)] and the trend. *)
Definition recovery (serve : nat -> Client.Request -> Client.Reply Recovery.DailyRecord)
    (n : nat) : Response Recovery.Report :=
  onRecords (Client.fetchPaginated serve n) Recovery.trend.

(** The sleep handler for [days = n], [n] other than 1. *)
Definition sleep (serve : nat -> Client.Request -> Client.Reply Sleep.DailyRecord)
    (n : nat) : Response Sleep.Report :=
  onRecords (Client.fetchPaginated serve n) Sleep.trend.

(** A server with three scored recovery days on its only page. *)
Definition threeDays (k : nat) (req : Client.Request)
  : Client.Reply Recovery.DailyRecord :=
  Client.Body {| Client.records :=
                   Some [Recovery.scoredDay 40 50; Recovery.scoredDay 55 48;
                         Recovery.scoredDay 70 61];
                 Client.next_token := None |}.

End Handlers.

(* ------------------------------------------------------------------ *)
(** ** The journal tool: behaviours that help or hurt recovery *)

Module Journal.

Local Open Scope string_scope.

(** An impact card of the behaviour-impact reply; each display field may
    be absent. *)
Record Card := {
  impact_card_title_display : option string;
  impact_percentage_display : option string
}.

(** A tile of the reply: its [type] and [content?.impact_cards]. *)
Record Tile := {
  type : string;
  impact_cards : option (list Card)
}.

(** [s || d] on a string that may be absent: the empty string is falsy. *)
Definition orString (s : option string) (d : string) : string :=
  match s with
  | Some (String a rest) => String a rest
  | _ => d
  end.

(** [s.startsWith(c)] for a one-character prefix. *)
Definition startsWith (c : ascii) (s : string) : bool :=
  match s with
  | String a _ => Ascii.eqb a c
  | EmptyString => false
  end.

(** [card.impact_card_title_display || "?"]. *)
Definition cardName (card : Card) : string :=
  orString (impact_card_title_display card) "?".

(** [card.impact_percentage_display || (empty string)]. *)
Definition pctDisplay (card : Card) : string :=
  orString (impact_percentage_display card) EmptyString.

(** The line of a card that helps or hurts. *)
Definition impactLine (card : Card) : string :=
  "  " ++ cardName card ++ ": " ++ pctDisplay card ++ " recovery".

(** The three arrays the loop fills. *)
Record Lists := {
  positive : list string;
  negative : list string;
  insufficient : list string
}.

Definition emptyLists : Lists :=
  {| positive := []; negative := []; insufficient := [] |}.

(** The body of the loop over the cards of an [IMPACT_TILE]. *)
Definition cardStep (acc : Lists) (card : Card) : Lists :=
  if startsWith "+" (pctDisplay card) then
    {| positive := positive acc ++ [impactLine card];
       negative := negative acc;
       insufficient := insufficient acc |}
  else if startsWith "-" (pctDisplay card) then
    {| positive := positive acc;
       negative := negative acc ++ [impactLine card];
       insufficient := insufficient acc |}
  else acc.

(** The body of the loop over the cards of an [INSUFFICIENT_IMPACT_TILE]. *)
Definition insufficientStep (acc : Lists) (card : Card) : Lists :=
  {| positive := positive acc;
     negative := negative acc;
     insufficient := insufficient acc ++ [cardName card] |}.

(** [tile.content?.impact_cards || []]. *)
Definition cardsOf (tile : Tile) : list Card :=
  match impact_cards tile with
  | Some cards => cards
  | None => []
  end.

Definition isImpact (tile : Tile) : bool := String.eqb (type tile) "IMPACT_TILE".

Definition isInsufficient (tile : Tile) : bool :=
  String.eqb (type tile) "INSUFFICIENT_IMPACT_TILE".

(** The body of the loop over the tiles: two [if]s in a row. *)
Definition tileStep (acc : Lists) (tile : Tile) : Lists :=
  let acc1 :=
    if isImpact tile then fold_left cardStep (cardsOf tile) acc else acc in
  if isInsufficient tile then fold_left insufficientStep (cardsOf tile) acc1
  else acc1.

(** [for (const tile of data.tiles || [])]. *)
Definition classify (tiles : option (list Tile)) : Lists :=
  fold_left tileStep (match tiles with Some ts => ts | None => [] end) emptyLists.

Definition nonEmpty {A : Type} (l : list A) : bool :=
  match l with
  | [] => false
  | _ :: _ => true
  end.

Definition notEnough : string :=
  "Not enough journal data yet. Keep logging to unlock insights.".

(** The lines of the answer, before [join]. *)
Definition report (refresh : option string) (tiles : option (list Tile))
  : list string :=
  let l := classify tiles in
  [ "Journal behavior impact on recovery";
    "(" ++ orString refresh EmptyString ++ ")";
    EmptyString ]
  ++ (if nonEmpty (positive l)
      then ["Helps recovery:"] ++ positive l ++ [EmptyString] else [])
  ++ (if nonEmpty (negative l)
      then ["Hurts recovery:"] ++ negative l ++ [EmptyString] else [])
  ++ (if nonEmpty (insufficient l)
      then ["Need more data: " ++ String.concat ", " (insufficient l)] else [])
  ++ (if negb (nonEmpty (positive l)) && negb (nonEmpty (negative l))
      then [notEnough] else []).

(** The cards of the impact tiles, in the order of the reply. *)
Definition impactCards (tiles : option (list Tile)) : list Card :=
  flat_map cardsOf
    (filter isImpact (match tiles with Some ts => ts | None => [] end)).

(** The cards of the tiles without enough data, in the order of the reply. *)
Definition insufficientCards (tiles : option (list Tile)) : list Card :=
  flat_map cardsOf
    (filter isInsufficient (match tiles with Some ts => ts | None => [] end)).

(** The percentage of the card starts with the sign [c]. *)
Definition signed (c : ascii) (card : Card) : bool :=
  startsWith c (pctDisplay card).

Definition card (title pct : string) : Card :=
  {| impact_card_title_display := Some title;
     impact_percentage_display := Some pct |}.

(** A reply with one helping, one hurting and one neutral behaviour. *)
Definition sampleTiles : option (list Tile) :=
  Some [ {| type := "IMPACT_TILE";
            impact_cards := Some [card "Magnesium" "+4%"; card "Alcohol" "-9%";
                                  card "Reading" "0%"] |};
         {| type := "INSUFFICIENT_IMPACT_TILE";
            impact_cards := Some [card "Sauna" "+1%"] |} ].

End Journal.

(* ------------------------------------------------------------------ *)
(** ** Vocabulary of the properties *)

Module Spec.

(** [n] is the length of a block of consecutive entries of [xs] that all
    satisfy [hit]. *)
Definition isRun (hit : Q -> bool) (xs : list Q) (n : nat) : Prop :=
  exists before run after,
    xs = before ++ run ++ after /\ forallb hit run = true /\ List.length run = n.

(** [n] is the length of the longest such block. *)
Definition longestRun (hit : Q -> bool) (xs : list Q) (n : nat) : Prop :=
  isRun hit xs n /\ forall m, isRun hit xs m -> (m <= n)%nat.

(** The length of the block of hits that [xs] starts with. *)
Fixpoint leading (hit : Q -> bool) (xs : list Q) : nat :=
  match xs with
  | x :: rest => if hit x then S (leading hit rest) else O
  | [] => O
  end.

(** The longest block of hits, by recursion on the list. *)
Fixpoint best (hit : Q -> bool) (xs : list Q) : nat :=
  match xs with
  | _ :: rest => Nat.max (leading hit xs) (best hit rest)
  | [] => O
  end.





(** The days of a recovery window that carry a recovery score. *)
Definition scoredRecoveryDays (records : list Recovery.DailyRecord)
  : list Recovery.DailyRecord :=
  filter (fun r => negb (isNull (Recovery.recovery_score (Recovery.scoreOf r))))
         records.

(** The non-absent samples of a recovery metric over the scored days. *)
Definition recoverySamples (metric : Recovery.Score -> option Q)
    (records : list Recovery.DailyRecord) : list Q :=
  filterMap (fun r => metric (Recovery.scoreOf r)) (scoredRecoveryDays records).

(** The nights of a sleep window that carry a performance score. *)
Definition scoredNights (records : list Sleep.DailyRecord)
  : list Sleep.DailyRecord :=
  filter (fun r => negb (isNull (Sleep.sleep_performance_percentage (Sleep.scoreOf r))))
         records.

(** The non-absent samples of a sleep metric over the scored nights. *)
Definition sleepSamples (metric : Sleep.Score -> option Q)
    (records : list Sleep.DailyRecord) : list Q :=
  filterMap (fun r => metric (Sleep.scoreOf r)) (scoredNights records).

(** Per-night deep-sleep and total-sleep milliseconds of the scored nights,
    a missing duration counting as 0. *)
Definition deepMsPerNight (records : list Sleep.DailyRecord) : list Q :=
  map (fun r => orElse (Sleep.total_slow_wave_sleep_time_milli
                          (Sleep.stagesOf (Sleep.scoreOf r))) 0)
      (scoredNights records).

Definition sleepMsPerNight (records : list Sleep.DailyRecord) : list Q :=
  map (fun r => Sleep.sleepMs (Sleep.stagesOf (Sleep.scoreOf r)))
      (scoredNights records).


(** Which rule a pattern comes from. *)
Definition isHrvDown (p : Recovery.Pattern) : bool :=
  match p with Recovery.HrvTrendingDown _ _ => true | _ => false end.

Definition isHrvUp (p : Recovery.Pattern) : bool :=
  match p with Recovery.HrvTrendingUp _ _ => true | _ => false end.

Definition isDeepSleepLow (p : Sleep.Pattern) : bool :=
  match p with Sleep.DeepSleepLow _ => true | _ => false end.



(** The sentence a handler answers for a window without a scored day. *)
Definition noDataText (empty unscored : string) {A : Type} (window : list A)
  : string :=
  match window with
  | [] => empty
  | _ :: _ => unscored
  end.

(** A night whose time in bed is the sum of the awake time and the three
    sleep stages. *)
Definition stagesAddUp (r : Sleep.DailyRecord) : Prop :=
  let st := Sleep.stagesOf (Sleep.scoreOf r) in
  Sleep.sleepMs st
  == orElse (Sleep.total_light_sleep_time_milli st) 0
     + orElse (Sleep.total_slow_wave_sleep_time_milli st) 0
     + orElse (Sleep.total_rem_sleep_time_milli st) 0.

End Spec.

Import Spec.

(* ------------------------------------------------------------------ *)
(** ** Sample windows *)

Module Samples.

(** A recovery day whose score object is missing, and one whose score
    object lacks the recovery score. *)
Definition unscoredRecoveryWindow : list Recovery.DailyRecord :=
  [ {| Recovery.score := None; Recovery.created_at := "2026-02-26T06:00:00.000Z" |};
    Recovery.day None (Some 55) (Some 52) None ].

Definition unscoredSleepWindow : list Sleep.DailyRecord :=
  [ {| Sleep.score := None; Sleep.start := "2026-02-26T22:30:00.000Z" |};
    Sleep.night None (Some 28800000) (Some 1800000) None (Some 3600000) None ].



(** Scored days, newest first, from their recovery scores and their HRV
    values. *)
Definition recoveryWindow (days : list (Q * Q)) : list Recovery.DailyRecord :=
  map (fun d => Recovery.scoredDay (fst d) (snd d)) days.

(** Recovery 0 on every day; the newest day has HRV 0. *)
Definition zeroHrvWindow : list Recovery.DailyRecord :=
  recoveryWindow [(0, 0); (0, 40); (0, 60)].

(** The same window with HRV 1 on the newest day. *)
Definition lowHrvWindow : list Recovery.DailyRecord :=
  recoveryWindow [(0, 1); (0, 40); (0, 60)].







(** A night of 8 hours in bed: 30 minutes awake, 4 hours of light sleep,
    1.5 hours of deep sleep and 2 hours of REM sleep. *)
Definition typicalNight : Sleep.DailyRecord :=
  Sleep.night (Some 85) (Some 28800000) (Some 1800000) (Some 14400000)
              (Some 5400000) (Some 7200000).

(** A night of 7 hours in bed: 1 hour awake, 3 hours of light sleep,
    1 hour of deep sleep and 2 hours of REM sleep. *)
Definition shortNight : Sleep.DailyRecord :=
  Sleep.night (Some 72) (Some 25200000) (Some 3600000) (Some 10800000)
              (Some 3600000) (Some 7200000).

End Samples.

Import Samples.

(* ------------------------------------------------------------------ *)
(** ** Rational comparisons and sums *)

Lemma Qltb_lt (x y : Q) : Qltb x y = true <-> x < y.
Proof.
  unfold Qltb. rewrite negb_true_iff. split; intro H.
  - apply Qnot_le_lt. intro L. apply Qle_bool_iff in L. congruence.
  - destruct (Qle_bool y x) eqn:E; [|reflexivity].
    apply Qle_bool_iff in E. exfalso. exact (Qlt_not_le _ _ H E).
Qed.

Lemma Qltb_ge (x y : Q) : Qltb x y = false <-> y <= x.
Proof.
  unfold Qltb. rewrite negb_false_iff. apply Qle_bool_iff.
Qed.

Lemma Qeq_bool_false (x y : Q) : Qeq_bool x y = false <-> ~ x == y.
Proof.
  split.
  - apply Qeq_bool_neq.
  - intro H. destruct (Qeq_bool x y) eqn:E; [|reflexivity].
    apply Qeq_bool_iff in E. contradiction.
Qed.

Lemma orElse_zero (v : option Q) :
  orElse v 0 == match v with Some q => q | None => 0 end.
Proof.
  destruct v as [q|]; simpl; [|reflexivity].
  destruct (Qeq_bool q 0) eqn:E; [|reflexivity].
  apply Qeq_bool_iff in E. symmetry. exact E.
Qed.

Lemma fold_Qplus_shift (xs : list Q) (a : Q) :
  fold_left Qplus xs a == a + sum xs.
Proof.
  unfold sum. revert a. induction xs as [|x xs IH]; intro a; simpl.
  - ring.
  - rewrite IH. rewrite (IH (0 + x)). ring.
Qed.

Lemma sum_cons (x : Q) (xs : list Q) : sum (x :: xs) == x + sum xs.
Proof.
  unfold sum at 1. simpl. rewrite fold_Qplus_shift. ring.
Qed.

Lemma sum_nil : sum [] == 0.
Proof. reflexivity. Qed.

Lemma ofNat_pos (n : nat) : n <> O -> 0 < ofNat n.
Proof.
  intro H. unfold ofNat, Qlt. simpl. lia.
Qed.





(* ------------------------------------------------------------------ *)
(** ** The streak loop computes the longest run *)

Section Streaks.

Variable hit : Q -> bool.

Lemma leading_le_best (xs : list Q) : (leading hit xs <= best hit xs)%nat.
Proof.
  destruct xs as [|x xs]; simpl; lia.
Qed.

(** The loop started with [consec = c] and [max = m], for [c <= m]. *)
Lemma streak_loop (xs : list Q) :
  forall c m, (c <= m)%nat ->
    snd (fold_left (streakStep hit) xs (c, m))
    = Nat.max m (Nat.max (c + leading hit xs) (best hit xs)).
Proof.
  induction xs as [|x xs IH]; intros c m Hcm.
  - simpl. lia.
  - pose proof (leading_le_best xs) as Hl.
    cbn [fold_left streakStep]. destruct (hit x) eqn:Hx.
    + rewrite IH by lia. cbn [leading best]. rewrite Hx. lia.
    + rewrite IH by lia. cbn [leading best]. rewrite Hx. lia.
Qed.

Lemma maxStreak_best (xs : list Q) : maxStreak hit xs = best hit xs.
Proof.
  unfold maxStreak. rewrite streak_loop by lia.
  pose proof (leading_le_best xs). lia.
Qed.

Lemma leading_split (xs : list Q) :
  exists run after,
    xs = run ++ after /\ forallb hit run = true
    /\ List.length run = leading hit xs.
Proof.
  induction xs as [|x xs (run & after & E & A & L)]; simpl.
  - exists [], []. auto.
  - destruct (hit x) eqn:Hx.
    + exists (x :: run), after. simpl. rewrite Hx, A, L, <- E. auto.
    + exists [], (x :: xs). auto.
Qed.

Lemma run_at_front (run : list Q) :
  forall after, forallb hit run = true ->
    (List.length run <= leading hit (run ++ after))%nat.
Proof.
  induction run as [|x run IH]; intros after A; simpl.
  - lia.
  - simpl in A. apply andb_prop in A. destruct A as [Hx A].
    rewrite Hx. specialize (IH after A). lia.
Qed.

Lemma best_is_run (xs : list Q) : isRun hit xs (best hit xs).
Proof.
  induction xs as [|x xs IH].
  - exists [], [], []. auto.
  - cbn [best].
    destruct (Nat.max_spec (leading hit (x :: xs)) (best hit xs))
      as [[_ ->] | [_ ->]].
    + destruct IH as (before & run & after & E & A & L).
      exists (x :: before), run, after. simpl. rewrite <- E. auto.
    + destruct (leading_split (x :: xs)) as (run & after & E & A & L).
      exists [], run, after. auto.
Qed.

Lemma run_le_best (xs : list Q) (m : nat) : isRun hit xs m -> (m <= best hit xs)%nat.
Proof.
  intros (before & run & after & E & A & L). subst m. revert xs E.
  induction before as [|b before IH]; intros xs E.
  - simpl in E. subst xs.
    pose proof (run_at_front run after A).
    pose proof (leading_le_best (run ++ after)). lia.
  - destruct xs as [|x xs]; [discriminate|].
    injection E as _ E. specialize (IH xs E). cbn [best]. lia.
Qed.

(** The value the loop leaves in [max] is the length of the longest run. *)
Lemma maxStreak_longest (xs : list Q) : longestRun hit xs (maxStreak hit xs).
Proof.
  rewrite maxStreak_best. split.
  - apply best_is_run.
  - intros m. apply run_le_best.
Qed.

Lemma longestRun_unique (xs : list Q) (n m : nat) :
  longestRun hit xs n -> longestRun hit xs m -> n = m.
Proof.
  intros [Rn Mn] [Rm Mm]. specialize (Mn m Rm). specialize (Mm n Rn). lia.
Qed.

(** The longest run does not depend on the direction of the series. *)
Lemma isRun_rev (xs : list Q) (n : nat) : isRun hit xs n -> isRun hit (rev xs) n.
Proof.
  intros (before & run & after & E & A & L).
  exists (rev after), (rev run), (rev before). subst xs. repeat split.
  - rewrite !rev_app_distr, app_assoc. reflexivity.
  - rewrite forallb_forall in *. intros y Hy. apply A. now apply in_rev.
  - now rewrite length_rev.
Qed.

Lemma maxStreak_rev (xs : list Q) : maxStreak hit (rev xs) = maxStreak hit xs.
Proof.
  apply longestRun_unique with (xs := xs).
  - destruct (maxStreak_longest (rev xs)) as [R M]. split.
    + apply isRun_rev in R. now rewrite rev_involutive in R.
    + intros m Hm. apply M. now apply isRun_rev.
  - apply maxStreak_longest.
Qed.

End Streaks.

(* ------------------------------------------------------------------ *)
(** ** The aggregation loops *)

Lemma sum_sample_step (v : option Q) (xs : list Q) :
  sum (match v with Some q => q :: xs | None => xs end) == orElse v 0 + sum xs.
Proof.
  rewrite orElse_zero. destruct v as [q|].
  - apply sum_cons.
  - ring.
Qed.

Lemma filterMap_length_le {A B : Type} (f : A -> option B) (xs : list A) :
  (List.length (filterMap f xs) <= List.length xs)%nat.
Proof.
  induction xs as [|x xs IH]; simpl; [lia|].
  destruct (f x); simpl; lia.
Qed.

(** The oldest and the newest record of a non-empty window exist. *)
Lemma window_ends {A : Type} (x : A) (xs : list A) :
  exists oldest newest,
    nth_error (x :: xs) (List.length (x :: xs) - 1) = Some oldest
    /\ nth_error (x :: xs) 0 = Some newest.
Proof.
  destruct (nth_error (x :: xs) (List.length (x :: xs) - 1)) as [o|] eqn:E.
  - exists o, x. auto.
  - apply nth_error_None in E. simpl in E. lia.
Qed.

(** *** Recovery *)

Lemma recovery_recScores_cons (r : Recovery.DailyRecord) (rs : list Recovery.DailyRecord) :
  Recovery.recScores (r :: rs)
  = match Recovery.recovery_score (Recovery.scoreOf r) with
    | Some v => v :: Recovery.recScores rs
    | None => Recovery.recScores rs
    end.
Proof.
  unfold Recovery.recScores, Recovery.scoreOf. simpl.
  destruct (Recovery.score r); reflexivity.
Qed.

Lemma recovery_samples_cons (metric : Recovery.Score -> option Q)
    (r : Recovery.DailyRecord) (rs : list Recovery.DailyRecord) :
  recoverySamples metric (r :: rs)
  = match Recovery.recovery_score (Recovery.scoreOf r) with
    | Some _ =>
        match metric (Recovery.scoreOf r) with
        | Some q => q :: recoverySamples metric rs
        | None => recoverySamples metric rs
        end
    | None => recoverySamples metric rs
    end.
Proof.
  unfold recoverySamples, scoredRecoveryDays. simpl.
  destruct (Recovery.recovery_score (Recovery.scoreOf r)); reflexivity.
Qed.

(** The scores the rules see are the scores of the days the loop counts. *)
Lemma recovery_recScores_samples (records : list Recovery.DailyRecord) :
  Recovery.recScores records = recoverySamples Recovery.recovery_score records.
Proof.
  induction records as [|r rs IH]; [reflexivity|].
  rewrite recovery_recScores_cons, recovery_samples_cons, IH.
  destruct (Recovery.recovery_score (Recovery.scoreOf r)); reflexivity.
Qed.


(** What the loop leaves in its variables, from any starting values. *)
Lemma recovery_loop (records : list Recovery.DailyRecord) :
  forall t,
    let t' := fold_left Recovery.accumulate records t in
    Recovery.count t'
    = (Recovery.count t + List.length (Recovery.recScores records))%nat
    /\ Recovery.totalRec t'
       == Recovery.totalRec t + sum (Recovery.recScores records)
    /\ Recovery.totalHrv t'
       == Recovery.totalHrv t + sum (recoverySamples Recovery.hrv_rmssd_milli records)
    /\ Recovery.totalRhr t'
       == Recovery.totalRhr t + sum (recoverySamples Recovery.resting_heart_rate records)
    /\ Recovery.totalSpo2 t'
       == Recovery.totalSpo2 t + sum (recoverySamples Recovery.spo2_percentage records).
Proof.
  induction records as [|r rs IH]; intro t.
  - simpl. repeat split; try lia; unfold recoverySamples; simpl; rewrite sum_nil; ring.
  - cbn zeta. cbn [fold_left].
    destruct (IH (Recovery.accumulate t r)) as (C & R & H & B & S).
    rewrite recovery_recScores_cons, !recovery_samples_cons.
    rewrite C, R, H, B, S. unfold Recovery.accumulate.
    destruct (Recovery.recovery_score (Recovery.scoreOf r)) as [v|];
      cbn [Recovery.count Recovery.totalRec Recovery.totalHrv
           Recovery.totalRhr Recovery.totalSpo2].
    + rewrite !sum_sample_step, sum_cons.
      repeat split; [simpl List.length; lia | ring ..].
    + repeat split; reflexivity.
Qed.

Lemma recovery_count (records : list Recovery.DailyRecord) :
  Recovery.count (fold_left Recovery.accumulate records Recovery.initTotals)
  = List.length (Recovery.recScores records).
Proof.
  destruct (recovery_loop records Recovery.initTotals) as (C & _). exact C.
Qed.

(** The three ways the handler can answer. *)
Lemma recovery_trend_cases (records : list Recovery.DailyRecord) :
  (records = [] /\ Recovery.trend records = Info "No recovery data available.")
  \/ (records <> [] /\ Recovery.recScores records = []
      /\ Recovery.trend records = Info "No scored recovery data in this range.")
  \/ (Recovery.recScores records <> []
      /\ exists oldest newest,
           Recovery.trend records
           = Trend (Recovery.summarize records
                      (fold_left Recovery.accumulate records Recovery.initTotals)
                      oldest newest)).
Proof.
  destruct records as [|r rs]; [left; auto|right].
  unfold Recovery.trend. rewrite recovery_count.
  destruct (Recovery.recScores (r :: rs)) as [|v vs] eqn:E.
  - left. repeat split; try reflexivity. discriminate.
  - right. split; [discriminate|].
    destruct (window_ends r rs) as (o & n & Ho & Hn).
    exists o, n. cbv zeta. rewrite Ho, Hn. reflexivity.
Qed.

Lemma recovery_patterns (records : list Recovery.DailyRecord) :
  Recovery.patternsOf (Recovery.trend records)
  = match Recovery.recScores records with
    | [] => []
    | _ :: _ => Recovery.detect records (List.length (Recovery.recScores records))
    end.
Proof.
  destruct (recovery_trend_cases records)
    as [[E T] | [(N & E & T) | (N & o & n & T)]]; rewrite T.
  - subst records. reflexivity.
  - rewrite E. reflexivity.
  - simpl. rewrite recovery_count.
    destruct (Recovery.recScores records); [contradiction|reflexivity].
Qed.

(** *** Sleep *)

Lemma sleep_perfs_cons (r : Sleep.DailyRecord) (rs : list Sleep.DailyRecord) :
  Sleep.perfs (r :: rs)
  = match Sleep.sleep_performance_percentage (Sleep.scoreOf r) with
    | Some v => v :: Sleep.perfs rs
    | None => Sleep.perfs rs
    end.
Proof.
  unfold Sleep.perfs, Sleep.scoreOf. simpl.
  destruct (Sleep.score r); reflexivity.
Qed.

Lemma sleep_scoredNights_cons (r : Sleep.DailyRecord) (rs : list Sleep.DailyRecord) :
  scoredNights (r :: rs)
  = match Sleep.sleep_performance_percentage (Sleep.scoreOf r) with
    | Some _ => r :: scoredNights rs
    | None => scoredNights rs
    end.
Proof.
  unfold scoredNights. simpl.
  destruct (Sleep.sleep_performance_percentage (Sleep.scoreOf r)); reflexivity.
Qed.

Lemma sleep_perfs_length (records : list Sleep.DailyRecord) :
  List.length (Sleep.perfs records) = List.length (scoredNights records).
Proof.
  induction records as [|r rs IH]; [reflexivity|].
  rewrite sleep_perfs_cons, sleep_scoredNights_cons.
  destruct (Sleep.sleep_performance_percentage (Sleep.scoreOf r)); simpl; lia.
Qed.

(** What the loop leaves in its variables, from any starting values. *)
Lemma sleep_loop (records : list Sleep.DailyRecord) :
  forall t,
    let t' := fold_left Sleep.accumulate records t in
    Sleep.count t' = (Sleep.count t + List.length (Sleep.perfs records))%nat
    /\ Sleep.totalPerf t' == Sleep.totalPerf t + sum (Sleep.perfs records)
    /\ Sleep.totalEff t'
       == Sleep.totalEff t + sum (sleepSamples Sleep.sleep_efficiency_percentage records)
    /\ Sleep.totalConsist t'
       == Sleep.totalConsist t + sum (sleepSamples Sleep.sleep_consistency_percentage records)
    /\ Sleep.totalDeepMs t' == Sleep.totalDeepMs t + sum (deepMsPerNight records)
    /\ Sleep.totalSleepMs t' == Sleep.totalSleepMs t + sum (sleepMsPerNight records).
Proof.
  induction records as [|r rs IH]; intro t.
  - simpl. repeat split; try lia;
      unfold sleepSamples, deepMsPerNight, sleepMsPerNight; simpl;
      rewrite sum_nil; ring.
  - cbn zeta. cbn [fold_left].
    destruct (IH (Sleep.accumulate t r)) as (C & P & E & K & D & S).
    rewrite C, P, E, K, D, S. clear C P E K D S.
    unfold sleepSamples, deepMsPerNight, sleepMsPerNight.
    rewrite sleep_perfs_cons, !sleep_scoredNights_cons.
    unfold Sleep.accumulate.
    destruct (Sleep.sleep_performance_percentage (Sleep.scoreOf r)) as [v|] eqn:V;
      cbn [isNull Sleep.count Sleep.totalPerf Sleep.totalEff Sleep.totalConsist
           Sleep.totalDeepMs Sleep.totalSleepMs map filterMap].
    + rewrite !sum_cons.
      pose proof (sum_sample_step (Sleep.sleep_efficiency_percentage (Sleep.scoreOf r))
                    (filterMap (fun r0 => Sleep.sleep_efficiency_percentage (Sleep.scoreOf r0))
                               (scoredNights rs))) as SE.
      pose proof (sum_sample_step (Sleep.sleep_consistency_percentage (Sleep.scoreOf r))
                    (filterMap (fun r0 => Sleep.sleep_consistency_percentage (Sleep.scoreOf r0))
                               (scoredNights rs))) as SK.
      pose proof (orElse_zero (Some v)) as OV. cbv beta iota in OV.
      repeat split; [simpl List.length; lia | | | | ring | ring].
      * rewrite OV. ring.
      * rewrite SE. ring.
      * rewrite SK. ring.
    + repeat split; reflexivity.
Qed.

Lemma sleep_count (records : list Sleep.DailyRecord) :
  Sleep.count (fold_left Sleep.accumulate records Sleep.initTotals)
  = List.length (Sleep.perfs records).
Proof.
  destruct (sleep_loop records Sleep.initTotals) as (C & _). exact C.
Qed.

(** The three ways the handler can answer. *)
Lemma sleep_trend_cases (records : list Sleep.DailyRecord) :
  (records = [] /\ Sleep.trend records = Info "No sleep data available.")
  \/ (records <> [] /\ Sleep.perfs records = []
      /\ Sleep.trend records = Info "No scored sleep data in this range.")
  \/ (Sleep.perfs records <> []
      /\ exists oldest newest,
           Sleep.trend records
           = Trend (Sleep.summarize records
                      (fold_left Sleep.accumulate records Sleep.initTotals)
                      oldest newest)).
Proof.
  destruct records as [|r rs]; [left; auto|right].
  unfold Sleep.trend. rewrite sleep_count.
  destruct (Sleep.perfs (r :: rs)) as [|v vs] eqn:E.
  - left. repeat split; try reflexivity. discriminate.
  - right. split; [discriminate|].
    destruct (window_ends r rs) as (o & n & Ho & Hn).
    exists o, n. cbv zeta. rewrite Ho, Hn. reflexivity.
Qed.

Lemma sleep_patterns (records : list Sleep.DailyRecord) :
  Sleep.patternsOf (Sleep.trend records)
  = match Sleep.perfs records with
    | [] => []
    | _ :: _ =>
        let t := fold_left Sleep.accumulate records Sleep.initTotals in
        Sleep.detect records (List.length (Sleep.perfs records))
          (Sleep.windowPct (Sleep.totalDeepMs t) (Sleep.totalSleepMs t))
    end.
Proof.
  destruct (sleep_trend_cases records)
    as [[E T] | [(N & E & T) | (N & o & n & T)]]; rewrite T.
  - subst records. reflexivity.
  - rewrite E. reflexivity.
  - simpl. rewrite sleep_count.
    destruct (Sleep.perfs records); [contradiction|reflexivity].
Qed.

(** *** Strain *)

Lemma strain_strains_cons (c : Strain.Cycle) (cs : list Strain.Cycle) :
  Strain.strains (c :: cs)
  = match Strain.strain (Strain.scoreOf c) with
    | Some v => v :: Strain.strains cs
    | None => Strain.strains cs
    end.
Proof.
  unfold Strain.strains, Strain.scoreOf. simpl.
  destruct (Strain.score c); reflexivity.
Qed.

Lemma strain_loop (cycles : list Strain.Cycle) :
  forall t,
    let t' := fold_left Strain.accumulate cycles t in
    Strain.count t' = (Strain.count t + List.length (Strain.strains cycles))%nat
    /\ Strain.totalStrain t' == Strain.totalStrain t + sum (Strain.strains cycles).
Proof.
  induction cycles as [|c cs IH]; intro t.
  - simpl. split; [lia | rewrite sum_nil; ring].
  - cbn zeta. cbn [fold_left].
    destruct (IH (Strain.accumulate t c)) as (C & S). rewrite C, S.
    rewrite strain_strains_cons. unfold Strain.accumulate.
    destruct (Strain.strain (Strain.scoreOf c)) as [v|];
      cbn [Strain.count Strain.totalStrain].
    + rewrite sum_cons. split; [simpl List.length; lia | ring].
    + split; reflexivity.
Qed.

Lemma strain_count (cycles : list Strain.Cycle) :
  Strain.count (fold_left Strain.accumulate cycles Strain.initTotals)
  = List.length (Strain.strains cycles).
Proof.
  destruct (strain_loop cycles Strain.initTotals) as (C & _). exact C.
Qed.

(** The three ways the handler can answer. *)
Lemma strain_trend_cases (cycles : list Strain.Cycle) :
  (cycles = [] /\ Strain.trend cycles = Info "No strain data available.")
  \/ (cycles <> [] /\ Strain.strains cycles = []
      /\ Strain.trend cycles = Info "No scored cycles in this range.")
  \/ (Strain.strains cycles <> []
      /\ exists oldest newest,
           Strain.trend cycles
           = Trend (Strain.summarize cycles
                      (fold_left Strain.accumulate cycles Strain.initTotals)
                      oldest newest)).
Proof.
  destruct cycles as [|c cs]; [left; auto|right].
  unfold Strain.trend. rewrite strain_count.
  destruct (Strain.strains (c :: cs)) as [|v vs] eqn:E.
  - left. repeat split; try reflexivity. discriminate.
  - right. split; [discriminate|].
    destruct (window_ends c cs) as (o & n & Ho & Hn).
    exists o, n. cbv zeta. rewrite Ho, Hn. reflexivity.
Qed.

Lemma strain_patterns (cycles : list Strain.Cycle) :
  Strain.patternsOf (Strain.trend cycles)
  = match Strain.strains cycles with
    | [] => []
    | _ :: _ => Strain.detect cycles (List.length (Strain.strains cycles))
    end.
Proof.
  destruct (strain_trend_cases cycles)
    as [[E T] | [(N & E & T) | (N & o & n & T)]]; rewrite T.
  - subst cycles. reflexivity.
  - rewrite E. reflexivity.
  - simpl. rewrite strain_count.
    destruct (Strain.strains cycles); [contradiction|reflexivity].
Qed.

(* ------------------------------------------------------------------ *)
(** ** What each rule pushes *)

Lemma hrvTrendRule_kinds (hrv : list Q) (p : Recovery.Pattern) :
  In p (Recovery.hrvTrendRule hrv) -> isHrvDown p = true \/ isHrvUp p = true.
Proof.
  unfold Recovery.hrvTrendRule.
  destruct (3 <=? List.length hrv)%nat; [|intros []].
  cbv zeta. rewrite in_app_iff.
  intros [H | H];
    match type of H with
    | In _ (if ?b then _ else _) => destruct b
    end; simpl in H; try contradiction;
    destruct H as [<- | []]; auto.
Qed.

Lemma recovery_detect_low (records : list Recovery.DailyRecord) (cnt l c : nat) :
  In (Recovery.LowRecoveryDays l c) (Recovery.detect records cnt)
  <-> (3 <= Recovery.lowDays (Recovery.recScores records))%nat
      /\ l = Recovery.lowDays (Recovery.recScores records) /\ c = cnt.
Proof.
  unfold Recovery.detect, Recovery.lowRecoveryRule, Recovery.consecutiveLowRule.
  rewrite !in_app_iff. split.
  - intros [H | [H | H]].
    + destruct (3 <=? _)%nat eqn:E in H; simpl in H; [|contradiction].
      destruct H as [H | []]. injection H as <- <-.
      apply Nat.leb_le in E. auto.
    + apply hrvTrendRule_kinds in H. simpl in H. destruct H; discriminate.
    + destruct (3 <=? _)%nat in H; simpl in H; [|contradiction].
      destruct H as [H | []]. discriminate.
  - intros (G & -> & ->). left. apply Nat.leb_le in G. rewrite G. left. reflexivity.
Qed.

Lemma recovery_detect_consecutive (records : list Recovery.DailyRecord) (cnt n : nat) :
  In (Recovery.ConsecutiveLow n) (Recovery.detect records cnt)
  <-> (3 <= n)%nat /\ n = Recovery.maxConsecLow (Recovery.recScores records).
Proof.
  unfold Recovery.detect, Recovery.lowRecoveryRule, Recovery.consecutiveLowRule.
  rewrite !in_app_iff. split.
  - intros [H | [H | H]].
    + destruct (3 <=? _)%nat in H; simpl in H; [|contradiction].
      destruct H as [H | []]. discriminate.
    + apply hrvTrendRule_kinds in H. simpl in H. destruct H; discriminate.
    + destruct (3 <=? _)%nat eqn:E in H; simpl in H; [|contradiction].
      destruct H as [H | []]. injection H as <-.
      apply Nat.leb_le in E. auto.
  - intros (G & ->). right. right. apply Nat.leb_le in G. rewrite G. left. reflexivity.
Qed.

Lemma sleep_detect_low (records : list Sleep.DailyRecord) (cnt : nat)
    (deep : number) (l c : nat) :
  In (Sleep.LowPerformanceNights l c) (Sleep.detect records cnt deep)
  <-> (3 <= Sleep.lowPerfDays (Sleep.perfs records))%nat
      /\ l = Sleep.lowPerfDays (Sleep.perfs records) /\ c = cnt.
Proof.
  unfold Sleep.detect, Sleep.lowPerformanceRule, Sleep.deepSleepRule.
  rewrite in_app_iff. split.
  - intros [H | H].
    + destruct (3 <=? _)%nat eqn:E in H; simpl in H; [|contradiction].
      destruct H as [H | []]. injection H as <- <-.
      apply Nat.leb_le in E. auto.
    + destruct (lt deep (Num 15)); simpl in H; [|contradiction].
      destruct H as [H | []]. discriminate.
  - intros (G & -> & ->). left. apply Nat.leb_le in G. rewrite G. left. reflexivity.
Qed.

Lemma strain_detect_streak (cycles : list Strain.Cycle) (cnt n : nat) :
  In (Strain.HighStrainStreak n) (Strain.detect cycles cnt)
  <-> (3 <= n)%nat /\ n = Strain.maxConsecHigh (Strain.strains cycles).
Proof.
  unfold Strain.detect, Strain.highStrainRule, Strain.noRestRule.
  rewrite in_app_iff. split.
  - intros [H | H].
    + destruct (3 <=? _)%nat eqn:E in H; simpl in H; [|contradiction].
      destruct H as [H | []]. injection H as <-.
      apply Nat.leb_le in E. auto.
    + destruct (_ && _)%bool in H; simpl in H; [|contradiction].
      destruct H as [H | []]. discriminate.
  - intros (G & ->). left. apply Nat.leb_le in G. rewrite G. left. reflexivity.
Qed.

Lemma strain_detect_norest (cycles : list Strain.Cycle) (cnt : nat) :
  In Strain.NoRestDays (Strain.detect cycles cnt)
  <-> Strain.restDays (Strain.strains cycles) = O /\ (7 <= cnt)%nat.
Proof.
  unfold Strain.detect, Strain.highStrainRule, Strain.noRestRule.
  rewrite in_app_iff. split.
  - intros [H | H].
    + destruct (3 <=? _)%nat in H; simpl in H; [|contradiction].
      destruct H as [H | []]. discriminate.
    + destruct (_ && _)%bool eqn:E in H; simpl in H; [|contradiction].
      apply andb_prop in E. destruct E as [E1 E2].
      apply Nat.eqb_eq in E1. apply Nat.leb_le in E2. auto.
  - intros (E1 & E2). right.
    apply Nat.eqb_eq in E1. apply Nat.leb_le in E2. rewrite E1, E2. left. reflexivity.
Qed.

(** No entry passes a filter exactly when every entry fails its test. *)
Lemma filter_length_zero {A : Type} (f : A -> bool) (xs : list A) :
  List.length (filter f xs) = O <-> forall x, In x xs -> f x = false.
Proof.
  induction xs as [|x xs IH]; simpl.
  - split; [intros _ y [] | reflexivity].
  - destruct (f x) eqn:E; simpl.
    + split; [discriminate|]. intro H. specialize (H x (or_introl eq_refl)). congruence.
    + rewrite IH. split.
      * intros H y [<- | Hy]; auto.
      * intros H y Hy. apply H. auto.
Qed.

Lemma longestRun_nil (hit : Q -> bool) (n : nat) : longestRun hit [] n -> n = O.
Proof.
  intros [(before & run & after & E & _ & L) _]. subst n.
  destruct before; [|discriminate]. destruct run; [reflexivity|discriminate].
Qed.

(* ------------------------------------------------------------------ *)
(** ** The streak and count rules *)

(** C4. Over the recovery scores of the scored days, the variable the
    consecutive-low loop ends with is the length of the longest run of
    consecutive scores below 50; the handler reports a run of [n] days
    exactly when [n] is that longest run and is at least 3.  The series
    80,40,30,20,90,45,40,35 has longest run 3, read in either direction,
    and the handler reports 3 for it. *)
Theorem consecutive_low_recovery_longest_run :
  (forall q, Recovery.isLow q = true <-> q < 50)
  /\ (forall records,
        longestRun Recovery.isLow (Recovery.recScores records)
          (Recovery.maxConsecLow (Recovery.recScores records)))
  /\ (forall records n,
        In (Recovery.ConsecutiveLow n) (Recovery.patternsOf (Recovery.trend records))
        <-> longestRun Recovery.isLow (Recovery.recScores records) n /\ (3 <= n)%nat)
  /\ (forall n, In (Count n) (Recovery.message (Recovery.ConsecutiveLow n)))
  /\ Recovery.maxConsecLow [80; 40; 30; 20; 90; 45; 40; 35] = 3%nat
  /\ Recovery.maxConsecLow (rev [80; 40; 30; 20; 90; 45; 40; 35]) = 3%nat
  /\ Recovery.patternsOf
       (Recovery.trend
          (map (fun s => Recovery.day (Some s) None None None)
               (rev [80; 40; 30; 20; 90; 45; 40; 35])))
     = [Recovery.LowRecoveryDays 6 8; Recovery.ConsecutiveLow 3].
Proof.
  split; [|split; [|split; [|split; [|split; [|split]]]]].
  - intro q. apply Qltb_lt.
  - intro records. apply maxStreak_longest.
  - intros records n. rewrite recovery_patterns.
    pose proof (maxStreak_longest Recovery.isLow (Recovery.recScores records)) as L.
    fold (Recovery.maxConsecLow (Recovery.recScores records)) in L.
    destruct (Recovery.recScores records) as [|v vs] eqn:E.
    + split; [intros []|]. intros [R G]. apply longestRun_nil in R. lia.
    + rewrite <- E in *. rewrite recovery_detect_consecutive. split.
      * intros [G ->]. auto.
      * intros [R G]. split; [assumption|].
        eapply longestRun_unique; eassumption.
  - intro n. simpl. auto.
  - reflexivity.
  - reflexivity.
  - vm_compute. reflexivity.
Qed.

(** C7. Over the strains of the scored cycles, the variable the high-strain
    loop ends with is the length of the longest run of consecutive strains
    strictly above 14; the handler reports a streak of [n] days exactly when
    [n] is that longest run and is at least 3. *)
Theorem high_strain_streak_longest_run :
  (forall s, Strain.isHigh s = true <-> 14 < s)
  /\ (forall cycles,
        longestRun Strain.isHigh (Strain.strains cycles)
          (Strain.maxConsecHigh (Strain.strains cycles)))
  /\ (forall cycles n,
        In (Strain.HighStrainStreak n) (Strain.patternsOf (Strain.trend cycles))
        <-> longestRun Strain.isHigh (Strain.strains cycles) n /\ (3 <= n)%nat)
  /\ (forall n, In (Count n) (Strain.message (Strain.HighStrainStreak n)))
  /\ Strain.patternsOf
       (Strain.trend (map Strain.scored [15; 16; 14; 15; 16; 17; 18; 3]))
     = [Strain.HighStrainStreak 4].
Proof.
  split; [|split; [|split; [|split]]].
  - intro s. apply Qltb_lt.
  - intro cycles. apply maxStreak_longest.
  - intros cycles n. rewrite strain_patterns.
    pose proof (maxStreak_longest Strain.isHigh (Strain.strains cycles)) as L.
    fold (Strain.maxConsecHigh (Strain.strains cycles)) in L.
    destruct (Strain.strains cycles) as [|v vs] eqn:E.
    + split; [intros []|]. intros [R G]. apply longestRun_nil in R. lia.
    + rewrite <- E in *. rewrite strain_detect_streak. split.
      * intros [G ->]. auto.
      * intros [R G]. split; [assumption|].
        eapply longestRun_unique; eassumption.
  - intro n. simpl. auto.
  - vm_compute. reflexivity.
Qed.

(** C6. The handler pushes "No rest days in this period." exactly when no
    scored cycle has strain below 4 and at least 7 cycles are scored; with
    exactly 5 scored cycles it never pushes it, as on five days of strain
    10. *)
Theorem no_rest_days_rule :
  (forall s, Strain.isRest s = true <-> s < 4)
  /\ (forall cycles,
        In Strain.NoRestDays (Strain.patternsOf (Strain.trend cycles))
        <-> (forall s, In s (Strain.strains cycles) -> ~ s < 4)
            /\ (7 <= List.length (Strain.strains cycles))%nat)
  /\ (forall cycles,
        List.length (Strain.strains cycles) = 5%nat ->
        ~ In Strain.NoRestDays (Strain.patternsOf (Strain.trend cycles)))
  /\ Strain.patternsOf (Strain.trend (map Strain.scored [10; 10; 10; 10; 10])) = []
  /\ Strain.patternsOf
       (Strain.trend (map Strain.scored [10; 10; 10; 10; 10; 10; 10]))
     = [Strain.NoRestDays].
Proof.
  assert (R : forall cycles,
        In Strain.NoRestDays (Strain.patternsOf (Strain.trend cycles))
        <-> (forall s, In s (Strain.strains cycles) -> ~ s < 4)
            /\ (7 <= List.length (Strain.strains cycles))%nat).
  { intro cycles. rewrite strain_patterns.
    destruct (Strain.strains cycles) as [|v vs] eqn:E.
    - split; [intros []|]. intros [_ G]. simpl in G. lia.
    - rewrite <- E. rewrite strain_detect_norest.
      unfold Strain.restDays. rewrite filter_length_zero.
      split; intros [H G]; (split; [|assumption]); intros s Hs.
      + intro L. apply Qltb_lt in L. specialize (H s Hs).
        unfold Strain.isRest in H. congruence.
      + destruct (Strain.isRest s) eqn:I; [|reflexivity].
        apply Qltb_lt in I. exfalso. exact (H s Hs I). }
  split; [|split; [|split; [|split]]].
  - intro s. apply Qltb_lt.
  - exact R.
  - intros cycles L H. apply R in H. lia.
  - vm_compute. reflexivity.
  - vm_compute. reflexivity.
Qed.

(** C8. The handler pushes the low-recovery sentence exactly when at least
    3 of the scored days have a recovery score below 50, and the
    low-sleep-performance sentence exactly when at least 3 of the scored
    nights have a performance below 70.  The sentence carries the number of
    such days and the number of scored days; both are counts over the same
    list, the scores of the days the aggregation loop counted. *)
Theorem low_count_rules :
  (forall q, Recovery.isLow q = true <-> q < 50)
  /\ (forall p, Sleep.isLowPerf p = true <-> p < 70)
  /\ (forall records l c,
        In (Recovery.LowRecoveryDays l c) (Recovery.patternsOf (Recovery.trend records))
        <-> (3 <= l)%nat
            /\ l = List.length (filter Recovery.isLow (Recovery.recScores records))
            /\ c = List.length (Recovery.recScores records))
  /\ (forall records l c,
        In (Sleep.LowPerformanceNights l c) (Sleep.patternsOf (Sleep.trend records))
        <-> (3 <= l)%nat
            /\ l = List.length (filter Sleep.isLowPerf (Sleep.perfs records))
            /\ c = List.length (Sleep.perfs records))
  /\ (forall records,
        Recovery.count (fold_left Recovery.accumulate records Recovery.initTotals)
        = List.length (Recovery.recScores records)
        /\ Recovery.recScores records
           = recoverySamples Recovery.recovery_score records)
  /\ (forall records,
        Sleep.count (fold_left Sleep.accumulate records Sleep.initTotals)
        = List.length (Sleep.perfs records)
        /\ Sleep.perfs records
           = sleepSamples Sleep.sleep_performance_percentage records)
  /\ (forall l c,
        Recovery.message (Recovery.LowRecoveryDays l c)
        = [Text "Recovery below 50% on "; Count l; Text " of "; Count c;
           Text " days — possible overreaching."])
  /\ (forall l c,
        Sleep.message (Sleep.LowPerformanceNights l c)
        = [Text "Sleep performance below 70% on "; Count l; Text " of "; Count c;
           Text " nights."]).
Proof.
  split; [|split; [|split; [|split; [|split; [|split; [|split]]]]]].
  - intro q. apply Qltb_lt.
  - intro p. apply Qltb_lt.
  - intros records l c. rewrite recovery_patterns.
    destruct (Recovery.recScores records) as [|v vs] eqn:E.
    + split; [intros []|]. intros (G & -> & _). simpl in G. lia.
    + rewrite <- E. rewrite recovery_detect_low. unfold Recovery.lowDays.
      split; intros (G & -> & ->); auto.
  - intros records l c. rewrite sleep_patterns.
    destruct (Sleep.perfs records) as [|v vs] eqn:E.
    + split; [intros []|]. intros (G & -> & _). simpl in G. lia.
    + rewrite <- E. cbv zeta. rewrite sleep_detect_low. unfold Sleep.lowPerfDays.
      split; intros (G & -> & ->); auto.
  - intro records. split; [apply recovery_count | apply recovery_recScores_samples].
  - intro records. split; [apply sleep_count|].
    induction records as [|r rs IH]; [reflexivity|].
    rewrite sleep_perfs_cons. unfold sleepSamples in *.
    rewrite sleep_scoredNights_cons.
    destruct (Sleep.sleep_performance_percentage (Sleep.scoreOf r)) eqn:V;
      simpl; rewrite ?V, IH; reflexivity.
  - reflexivity.
  - reflexivity.
Qed.

(* ------------------------------------------------------------------ *)
(** ** Windows without data *)

Lemma filterMap_nil {A B : Type} (f : A -> option B) (xs : list A) :
  filterMap f xs = [] <-> forall x, In x xs -> f x = None.
Proof.
  induction xs as [|x xs IH]; simpl.
  - split; [intros _ y [] | reflexivity].
  - destruct (f x) eqn:E.
    + split; [discriminate|]. intro H. specialize (H x (or_introl eq_refl)). congruence.
    + rewrite IH. split.
      * intros H y [<- | Hy]; auto.
      * intros H y Hy. apply H. auto.
Qed.

Lemma recovery_unscored (records : list Recovery.DailyRecord) :
  Recovery.recScores records = []
  <-> forall r, In r records -> Recovery.recovery_score (Recovery.scoreOf r) = None.
Proof.
  unfold Recovery.recScores. rewrite filterMap_nil.
  split; intros H r Hr; specialize (H r Hr);
    unfold Recovery.scoreOf in *; destruct (Recovery.score r); auto.
Qed.

Lemma sleep_unscored (records : list Sleep.DailyRecord) :
  Sleep.perfs records = []
  <-> forall r, In r records ->
        Sleep.sleep_performance_percentage (Sleep.scoreOf r) = None.
Proof.
  unfold Sleep.perfs. rewrite filterMap_nil.
  split; intros H r Hr; specialize (H r Hr);
    unfold Sleep.scoreOf in *; destruct (Sleep.score r); auto.
Qed.

Lemma strain_unscored (cycles : list Strain.Cycle) :
  Strain.strains cycles = []
  <-> forall c, In c cycles -> Strain.strain (Strain.scoreOf c) = None.
Proof.
  unfold Strain.strains. rewrite filterMap_nil.
  split; intros H c Hc; specialize (H c Hc);
    unfold Strain.scoreOf in *; destruct (Strain.score c); auto.
Qed.

(** C5. A window with no record, or with records none of which carries the
    score of the domain, is answered by a fixed sentence: it is neither a
    report (so no average, and no pattern) nor an error.  No window at all
    makes a handler answer an error. *)
Theorem window_without_scored_day :
  (forall records,
      (forall r, In r records ->
         Recovery.recovery_score (Recovery.scoreOf r) = None) ->
      Recovery.trend records
      = Info (noDataText "No recovery data available."
                         "No scored recovery data in this range." records)
      /\ Recovery.patternsOf (Recovery.trend records) = [])
  /\ (forall records,
      (forall r, In r records ->
         Sleep.sleep_performance_percentage (Sleep.scoreOf r) = None) ->
      Sleep.trend records
      = Info (noDataText "No sleep data available."
                         "No scored sleep data in this range." records)
      /\ Sleep.patternsOf (Sleep.trend records) = [])
  /\ (forall cycles,
      (forall c, In c cycles -> Strain.strain (Strain.scoreOf c) = None) ->
      Strain.trend cycles
      = Info (noDataText "No strain data available."
                         "No scored cycles in this range." cycles)
      /\ Strain.patternsOf (Strain.trend cycles) = [])
  /\ (forall records msg, Recovery.trend records <> ToolError msg)
  /\ (forall records msg, Sleep.trend records <> ToolError msg)
  /\ (forall cycles msg, Strain.trend cycles <> ToolError msg).
Proof.
  split; [|split; [|split; [|split; [|split]]]].
  - intros records H. apply recovery_unscored in H.
    destruct (recovery_trend_cases records)
      as [[E T] | [(N & E & T) | (N & _)]]; [| |contradiction]; rewrite T.
    + subst records. auto.
    + destruct records; [contradiction|]. auto.
  - intros records H. apply sleep_unscored in H.
    destruct (sleep_trend_cases records)
      as [[E T] | [(N & E & T) | (N & _)]]; [| |contradiction]; rewrite T.
    + subst records. auto.
    + destruct records; [contradiction|]. auto.
  - intros cycles H. apply strain_unscored in H.
    destruct (strain_trend_cases cycles)
      as [[E T] | [(N & E & T) | (N & _)]]; [| |contradiction]; rewrite T.
    + subst cycles. auto.
    + destruct cycles; [contradiction|]. auto.
  - intros records msg.
    destruct (recovery_trend_cases records)
      as [[E T] | [(N & E & T) | (N & o & n & T)]]; rewrite T; discriminate.
  - intros records msg.
    destruct (sleep_trend_cases records)
      as [[E T] | [(N & E & T) | (N & o & n & T)]]; rewrite T; discriminate.
  - intros cycles msg.
    destruct (strain_trend_cases cycles)
      as [[E T] | [(N & E & T) | (N & o & n & T)]]; rewrite T; discriminate.
Qed.

Lemma window_without_scored_day_witness :
  Recovery.trend [] = Info "No recovery data available."
  /\ Recovery.trend unscoredRecoveryWindow
     = Info "No scored recovery data in this range."
  /\ Sleep.trend [] = Info "No sleep data available."
  /\ Sleep.trend unscoredSleepWindow = Info "No scored sleep data in this range.".
Proof.
  destruct window_without_scored_day as (R & S & _).
  split; [|split; [|split]].
  - apply (R []). intros r [].
  - apply (R unscoredRecoveryWindow).
    intros r [<- | [<- | []]]; reflexivity.
  - apply (S []). intros r [].
  - apply (S unscoredSleepWindow).
    intros r [<- | [<- | []]]; reflexivity.
Defined.

(* ------------------------------------------------------------------ *)
(** ** Presence of a value: truthiness against the null check *)

Lemma filterMap_app {A B : Type} (f : A -> option B) (xs ys : list A) :
  filterMap f (xs ++ ys) = filterMap f xs ++ filterMap f ys.
Proof.
  induction xs as [|x xs IH]; simpl; [reflexivity|].
  destruct (f x); simpl; rewrite IH; reflexivity.
Qed.

Lemma recovery_hrvValues_cons (r : Recovery.DailyRecord) (rs : list Recovery.DailyRecord) :
  Recovery.hrvValues (r :: rs)
  = if truthy (Recovery.hrv_rmssd_milli (Recovery.scoreOf r))
    then match Recovery.hrv_rmssd_milli (Recovery.scoreOf r) with
         | Some v => v :: Recovery.hrvValues rs
         | None => Recovery.hrvValues rs
         end
    else Recovery.hrvValues rs.
Proof.
  unfold Recovery.hrvValues, Recovery.scoreOf. simpl.
  destruct (Recovery.score r) as [s|]; [|reflexivity].
  destruct (Recovery.hrv_rmssd_milli s) as [v|]; simpl; [|reflexivity].
  destruct (Qeq_bool v 0); reflexivity.
Qed.

(** C9. A day whose HRV is the number 0 is dropped from the HRV samples,
    exactly as a day without HRV, so it does not count towards the three
    samples the trend rule needs; a day whose recovery score is the number 0
    is kept in the recovery scores, is counted by the aggregation loop and
    counts as a day below 50.  On three days of recovery 0 with HRV 0, 40
    and 60 the two recovery rules fire and the HRV rule does not; with HRV
    1 in place of 0 the HRV rule fires too. *)
Theorem zero_hrv_absent_zero_recovery_present :
  (forall before r after q,
      Recovery.hrv_rmssd_milli (Recovery.scoreOf r) = Some q -> q == 0 ->
      Recovery.hrvValues (before ++ r :: after)
      = Recovery.hrvValues (before ++ after))
  /\ (forall before r after q,
      Recovery.recovery_score (Recovery.scoreOf r) = Some q -> q == 0 ->
      Recovery.recScores (before ++ r :: after)
      = Recovery.recScores before ++ q :: Recovery.recScores after
      /\ Recovery.count
           (fold_left Recovery.accumulate (before ++ r :: after) Recovery.initTotals)
         = S (Recovery.count
                (fold_left Recovery.accumulate (before ++ after) Recovery.initTotals))
      /\ Recovery.lowDays (Recovery.recScores (before ++ r :: after))
         = S (Recovery.lowDays (Recovery.recScores (before ++ after))))
  /\ Recovery.hrvValues zeroHrvWindow = [40; 60]
  /\ Recovery.recScores zeroHrvWindow = [0; 0; 0]
  /\ Recovery.patternsOf (Recovery.trend zeroHrvWindow)
     = [Recovery.LowRecoveryDays 3 3; Recovery.ConsecutiveLow 3]
  /\ Recovery.hrvValues lowHrvWindow = [1; 40; 60]
  /\ existsb isHrvDown (Recovery.patternsOf (Recovery.trend lowHrvWindow)) = true.
Proof.
  split; [|split; [|repeat split]].
  - intros before r after q H Z.
    unfold Recovery.hrvValues at 1 2. rewrite !filterMap_app. f_equal.
    fold (Recovery.hrvValues (r :: after)). fold (Recovery.hrvValues after).
    rewrite recovery_hrvValues_cons, H. simpl.
    apply Qeq_bool_iff in Z. rewrite Z. reflexivity.
  - intros before r after q H Z.
    assert (E : Recovery.recScores (before ++ r :: after)
                = Recovery.recScores before ++ q :: Recovery.recScores after).
    { unfold Recovery.recScores at 1 2. rewrite filterMap_app. f_equal.
      fold (Recovery.recScores (r :: after)). fold (Recovery.recScores after).
      rewrite recovery_recScores_cons, H. reflexivity. }
    assert (F : Recovery.recScores (before ++ after)
                = Recovery.recScores before ++ Recovery.recScores after).
    { unfold Recovery.recScores. apply filterMap_app. }
    split; [exact E|]. rewrite !recovery_count, E, F. split.
    + rewrite !length_app. simpl. lia.
    + unfold Recovery.lowDays. rewrite !filter_app, !length_app. simpl.
      assert (L : Recovery.isLow q = true).
      { apply Qltb_lt. rewrite Z. reflexivity. }
      rewrite L. simpl. lia.
Qed.

Lemma zero_hrv_absent_zero_recovery_present_witness :
  Recovery.hrvValues zeroHrvWindow = Recovery.hrvValues (tl zeroHrvWindow)
  /\ Recovery.recScores zeroHrvWindow = 0 :: Recovery.recScores (tl zeroHrvWindow).
Proof.
  destruct zero_hrv_absent_zero_recovery_present as (H & R & _).
  split.
  - apply (H [] (Recovery.scoredDay 0 0) (tl zeroHrvWindow) 0); reflexivity.
  - apply (R [] (Recovery.scoredDay 0 0) (tl zeroHrvWindow) 0); reflexivity.
Defined.

(* ------------------------------------------------------------------ *)
(** ** The averages of a window *)




Lemma scored_nights_nonempty (records : list Sleep.DailyRecord) :
  scoredNights records <> [] ->
  Sleep.perfs records <> [] /\ List.length (Sleep.perfs records) <> O.
Proof.
  intro H. pose proof (sleep_perfs_length records) as L.
  destruct (scoredNights records); [contradiction|].
  destruct (Sleep.perfs records); [discriminate|].
  split; discriminate.
Qed.





(* ------------------------------------------------------------------ *)
(** ** The deep-sleep share of a window *)






(* ------------------------------------------------------------------ *)
(** ** The HRV trend *)









(* ------------------------------------------------------------------ *)
(** ** The stage percentages of a single night *)

Lemma stagePct_value (stage : option Q) (denominator : Q) :
  ~ denominator == 0 ->
  Sleep.stagePct stage denominator
  = Num (roundQ (orElse stage 0 / denominator * 100)).
Proof.
  intro H. unfold Sleep.stagePct, div.
  apply Qeq_bool_false in H. rewrite H. reflexivity.
Qed.







(* ------------------------------------------------------------------ *)
(** ** Further properties of the window *)

(** X1. The number of scored days of a window, as the aggregation loop
    counts it and as the rules see it, never exceeds the number of records
    of the window. *)
Theorem scored_count_at_most_window :
  (forall records,
      Recovery.count (fold_left Recovery.accumulate records Recovery.initTotals)
      = List.length (Recovery.recScores records)
      /\ (List.length (Recovery.recScores records) <= List.length records)%nat
      /\ (List.length (Recovery.hrvValues records) <= List.length records)%nat)
  /\ (forall records,
      Sleep.count (fold_left Sleep.accumulate records Sleep.initTotals)
      = List.length (Sleep.perfs records)
      /\ (List.length (Sleep.perfs records) <= List.length records)%nat)
  /\ (forall cycles,
      Strain.count (fold_left Strain.accumulate cycles Strain.initTotals)
      = List.length (Strain.strains cycles)
      /\ (List.length (Strain.strains cycles) <= List.length cycles)%nat).
Proof.
  split; [|split].
  - intro records. split; [apply recovery_count|].
    split; apply filterMap_length_le.
  - intro records. split; [apply sleep_count | apply filterMap_length_le].
  - intro cycles. split; [apply strain_count | apply filterMap_length_le].
Qed.

(** X2. The two streak rules do not depend on the direction in which the
    series is read: the loops run over the newest-first series and find the
    longest run of the chronological one. *)
Theorem streak_rules_direction_independent :
  (forall scores,
      Recovery.maxConsecLow (rev scores) = Recovery.maxConsecLow scores
      /\ Recovery.consecutiveLowRule (rev scores)
         = Recovery.consecutiveLowRule scores)
  /\ (forall strains,
      Strain.maxConsecHigh (rev strains) = Strain.maxConsecHigh strains
      /\ Strain.highStrainRule (rev strains) = Strain.highStrainRule strains).
Proof.
  split.
  - intro scores.
    assert (E : Recovery.maxConsecLow (rev scores) = Recovery.maxConsecLow scores)
      by apply maxStreak_rev.
    split; [exact E|]. unfold Recovery.consecutiveLowRule. rewrite E. reflexivity.
  - intro strains.
    assert (E : Strain.maxConsecHigh (rev strains) = Strain.maxConsecHigh strains)
      by apply maxStreak_rev.
    split; [exact E|]. unfold Strain.highStrainRule. rewrite E. reflexivity.
Qed.

(* ------------------------------------------------------------------ *)
(** ** Rounding *)

Lemma Qfloor_unique (x : Q) (n : Z) :
  inject_Z n <= x -> x < inject_Z (n + 1) -> Qfloor x = n.
Proof.
  intros L U.
  pose proof (Qfloor_le x) as F. pose proof (Qlt_floor x) as G.
  assert (A : (n < Qfloor x + 1)%Z).
  { rewrite Zlt_Qlt. apply Qle_lt_trans with x; assumption. }
  assert (B : (Qfloor x < n + 1)%Z).
  { rewrite Zlt_Qlt. apply Qle_lt_trans with x; assumption. }
  lia.
Qed.

Lemma roundZ_bounds (x : Q) :
  x - (1 # 2) < inject_Z (Helpers.roundZ x)
  /\ inject_Z (Helpers.roundZ x) <= x + (1 # 2).
Proof.
  unfold Helpers.roundZ.
  pose proof (Qfloor_le (x + (1 # 2))) as F.
  pose proof (Qlt_floor (x + (1 # 2))) as G.
  rewrite inject_Z_plus in G. split; [|exact F].
  change (inject_Z 1) with 1 in G. lra.
Qed.

Lemma roundZ_comp (x y : Q) : x == y -> Helpers.roundZ x = Helpers.roundZ y.
Proof.
  intro E. unfold Helpers.roundZ. apply Qfloor_comp. rewrite E. reflexivity.
Qed.

Lemma roundZ_mono (x y : Q) : x <= y -> (Helpers.roundZ x <= Helpers.roundZ y)%Z.
Proof.
  intro H. unfold Helpers.roundZ. apply Qfloor_resp_le. lra.
Qed.

Lemma roundZ_shift (n : Z) (x : Q) :
  Helpers.roundZ (inject_Z n + x) = (n + Helpers.roundZ x)%Z.
Proof.
  destruct (roundZ_bounds x) as [L U].
  unfold Helpers.roundZ at 1. apply Qfloor_unique.
  - rewrite inject_Z_plus. lra.
  - pose proof (Qlt_floor (x + (1 # 2))) as G.
    fold (Helpers.roundZ x) in G.
    rewrite !inject_Z_plus in *. change (inject_Z 1) with 1 in *. lra.
Qed.

Lemma roundQ_roundZ (x : Q) : roundQ x = inject_Z (Helpers.roundZ x).
Proof. reflexivity. Qed.

(* ------------------------------------------------------------------ *)
(** ** Durations *)

Lemma truncZ_nonneg (x : Q) : 0 <= x -> Helpers.truncZ x = Qfloor x.
Proof.
  intro H. unfold Helpers.truncZ.
  assert (E : Qltb x 0 = false) by (apply Qltb_ge; exact H).
  rewrite E. reflexivity.
Qed.

(** The part of a non-negative duration that [ms % 3600000] leaves. *)
Lemma remQ_hour (ms : Q) :
  0 <= ms ->
  Helpers.remQ ms 3600000 == ms - 3600000 * inject_Z (Helpers.hoursField ms)
  /\ 0 <= Helpers.remQ ms 3600000
  /\ Helpers.remQ ms 3600000 < 3600000.
Proof.
  intro H. unfold Helpers.remQ, Helpers.hoursField.
  assert (P : 0 <= ms / 3600000).
  { apply Qle_shift_div_l; [reflexivity | lra]. }
  rewrite (truncZ_nonneg _ P). split; [reflexivity|].
  pose proof (Qfloor_le (ms / 3600000)) as F.
  pose proof (Qlt_floor (ms / 3600000)) as G.
  rewrite inject_Z_plus in G. change (inject_Z 1) with 1 in G.
  set (h := inject_Z (Qfloor (ms / 3600000))) in *.
  assert (E : ms == 3600000 * (ms / 3600000)) by (field).
  split; lra.
Qed.

(** X3. For a duration of at least 0 ms, [msToHours] prints an hour field
    of at least 0 and a minute field between 0 and 60, and 60 times the
    hours plus the minutes is the duration rounded to the nearest minute.
    The minute field is 60, not carried into the hours, exactly when the
    part of the duration beyond the full hours is at least 59.5 minutes:
    3599999 ms is printed as 0:60. *)
Theorem msToHours_rounds_to_the_minute :
  forall ms,
    0 <= ms ->
    (0 <= Helpers.hoursField ms)%Z
    /\ (0 <= Helpers.minutesField ms <= 60)%Z
    /\ (60 * Helpers.hoursField ms + Helpers.minutesField ms
        = Helpers.roundZ (ms / 60000))%Z
    /\ (Helpers.minutesField ms = 60%Z
        <-> 3570000 <= ms - 3600000 * inject_Z (Helpers.hoursField ms))
    /\ Helpers.msToHours ms
       = (Helpers.showZ (Helpers.hoursField ms) ++ ":"
          ++ Helpers.padStart2 "0" (Helpers.showZ (Helpers.minutesField ms)))%string.
Proof.
  intros ms H.
  destruct (remQ_hour ms H) as (E & L & U).
  set (h := Helpers.hoursField ms) in *.
  set (r := Helpers.remQ ms 3600000) in *.
  assert (Hh : (0 <= h)%Z).
  { assert (P : 0 <= ms / 3600000).
    { apply Qle_shift_div_l; [reflexivity | lra]. }
    apply Qfloor_resp_le in P. exact P. }
  destruct (roundZ_bounds (r / 60000)) as [Rl Ru].
  change (Helpers.roundZ (r / 60000)) with (Helpers.minutesField ms) in Rl, Ru.
  set (m := Helpers.minutesField ms) in *.
  assert (D : r / 60000 * 60000 == r) by field.
  assert (Hm0 : (0 <= m)%Z).
  { assert (A : -1 < inject_Z m) by lra.
    change (-1) with (inject_Z (-1)) in A. rewrite <- Zlt_Qlt in A. lia. }
  assert (Hm60 : (m <= 60)%Z).
  { assert (A : inject_Z m < 61) by lra.
    change 61 with (inject_Z 61) in A. rewrite <- Zlt_Qlt in A. lia. }
  split; [exact Hh|]. split; [split; assumption|]. split; [|split].
  - rewrite (roundZ_comp (ms / 60000) (inject_Z (60 * h) + r / 60000)).
    + rewrite roundZ_shift. reflexivity.
    + rewrite inject_Z_mult. change (inject_Z 60) with 60. rewrite E. field.
  - rewrite <- E. split.
    + intro M. rewrite M in Ru. change (inject_Z 60) with 60 in Ru. lra.
    + intro G.
      assert (A : 59 < inject_Z m).
      { apply Qle_lt_trans with (r / 60000 - (1 # 2)); [|exact Rl]. lra. }
      change 59 with (inject_Z 59) in A. rewrite <- Zlt_Qlt in A. lia.
  - reflexivity.
Qed.

Lemma msToHours_rounds_to_the_minute_witness :
  Helpers.minutesField 3599999 = 60%Z
  /\ Helpers.hoursField 3599999 = 0%Z
  /\ Helpers.msToHours 3599999 = "0:60"%string
  /\ Helpers.msToHours 27000000 = "7:30"%string.
Proof.
  destruct (msToHours_rounds_to_the_minute 3599999) as (_ & _ & _ & M & _).
  - discriminate.
  - split; [apply M; discriminate|]. repeat split.
Defined.

(** X4. The decimal-hours form of a duration is a multiple of one tenth
    that differs from the exact number of hours by at most one twentieth,
    and it never decreases when the duration grows. *)
Theorem msToHoursDecimal_within_a_twentieth :
  (forall ms,
      Sleep.msToHoursDecimal (Num ms) = Num (Helpers.msToHoursDecimal ms)
      /\ Helpers.msToHoursDecimal ms * 10
         == inject_Z (Helpers.roundZ (ms / 3600000 * 10))
      /\ ms / 3600000 - (1 # 20) < Helpers.msToHoursDecimal ms
      /\ Helpers.msToHoursDecimal ms <= ms / 3600000 + (1 # 20))
  /\ (forall ms ms',
      ms <= ms' -> Helpers.msToHoursDecimal ms <= Helpers.msToHoursDecimal ms').
Proof.
  split.
  - intro ms. split; [reflexivity|].
    unfold Helpers.msToHoursDecimal. rewrite roundQ_roundZ.
    destruct (roundZ_bounds (ms / 3600000 * 10)) as [L U].
    set (k := inject_Z (Helpers.roundZ (ms / 3600000 * 10))) in *.
    split; [field|]. split.
    + apply Qlt_shift_div_l; [reflexivity|]. lra.
    + apply Qle_shift_div_r; [reflexivity|]. lra.
  - intros ms ms' H. unfold Helpers.msToHoursDecimal. rewrite !roundQ_roundZ.
    assert (M : ms / 3600000 * 10 <= ms' / 3600000 * 10).
    { unfold Qdiv. apply Qmult_le_compat_r; [|discriminate].
      apply Qmult_le_compat_r; [exact H|discriminate]. }
    apply roundZ_mono in M. rewrite Zle_Qle in M.
    apply Qle_shift_div_l; [reflexivity|].
    set (a := inject_Z (Helpers.roundZ (ms / 3600000 * 10))) in *.
    set (b := inject_Z (Helpers.roundZ (ms' / 3600000 * 10))) in *.
    assert (E : a / 10 * 10 == a) by field. lra.
Qed.

Lemma msToHoursDecimal_within_a_twentieth_witness :
  Helpers.msToHoursDecimal 27000000 <= Helpers.msToHoursDecimal 27180000.
Proof.
  destruct msToHoursDecimal_within_a_twentieth as (_ & M).
  apply (M 27000000 27180000). discriminate.
Defined.

(* ------------------------------------------------------------------ *)
(** ** Recovery bands and the trend arrow *)

Lemma atLeast_spec (score : option Q) (k : Q) :
  Helpers.atLeast score k = true <-> exists s, score = Some s /\ k <= s.
Proof.
  destruct score as [s|]; simpl.
  - rewrite Qle_bool_iff. split.
    + intro H. exists s. auto.
    + intros (s' & E & H). injection E as <-. exact H.
  - split; [discriminate|]. intros (s & E & _). discriminate.
Qed.

(** X5. The colour word and the emoji of a recovery score name the same
    band: green from 67, yellow from 34 up to 67 excluded, red below 34
    and for a missing score.  The band is decided on the score as stored
    while the printed percentage is rounded, so a score from 66.5 up to 67
    excluded is printed as 67% in the yellow band. *)
Theorem recovery_bands_agree :
  (forall score,
      (Helpers.recoveryColor score = "green"%string
       <-> exists s, score = Some s /\ 67 <= s)
      /\ (Helpers.recoveryColor score = "yellow"%string
          <-> exists s, score = Some s /\ 34 <= s /\ s < 67)
      /\ (Helpers.recoveryColor score = "red"%string
          <-> score = None \/ exists s, score = Some s /\ s < 34)
      /\ (Helpers.recoveryEmoji score = "🟢"%string
          <-> Helpers.recoveryColor score = "green"%string)
      /\ (Helpers.recoveryEmoji score = "🟡"%string
          <-> Helpers.recoveryColor score = "yellow"%string)
      /\ (Helpers.recoveryEmoji score = "🔴"%string
          <-> Helpers.recoveryColor score = "red"%string))
  /\ (forall s,
      Helpers.pct (Some s) = (Helpers.showZ (Helpers.roundZ s) ++ "%")%string
      /\ ((67 <= Helpers.roundZ s)%Z <-> 133 # 2 <= s))
  /\ Helpers.pct (Some (133 # 2)) = "67%"%string
  /\ Helpers.recoveryColor (Some (133 # 2)) = "yellow"%string
  /\ Helpers.pct None = "—"%string
  /\ Helpers.recoveryColor None = "red"%string.
Proof.
  split; [|split; [|repeat split]].
  - intro score. unfold Helpers.recoveryColor, Helpers.recoveryEmoji.
    destruct (Helpers.atLeast score 67) eqn:G.
    + apply atLeast_spec in G. destruct G as (s & -> & G).
      repeat split; try discriminate; try reflexivity.
      * intros _. exists s. auto.
      * intros (s' & E & _ & U). injection E as <-.
        exfalso. exact (Qlt_not_le _ _ U G).
      * intros [E | (s' & E & U)]; [discriminate|]. injection E as <-.
        exfalso. apply (Qlt_not_le _ _ U). lra.
    + assert (N67 : ~ exists s, score = Some s /\ 67 <= s).
      { intro C. apply atLeast_spec in C. congruence. }
      destruct (Helpers.atLeast score 34) eqn:Y.
      * apply atLeast_spec in Y. destruct Y as (s & -> & Y).
        repeat split; try discriminate; try reflexivity.
        -- intro C. contradiction.
        -- intros _. exists s. split; [reflexivity|]. split; [exact Y|].
           apply Qnot_le_lt. intro C. apply N67. exists s. auto.
        -- intros [E | (s' & E & U)]; [discriminate|]. injection E as <-.
           exfalso. exact (Qlt_not_le _ _ U Y).
      * assert (N34 : ~ exists s, score = Some s /\ 34 <= s).
        { intro C. apply atLeast_spec in C. congruence. }
        repeat split; try discriminate; try reflexivity.
        -- intro C. contradiction.
        -- intros (s & E & L & _). exfalso. apply N34. exists s. auto.
        -- intros _. destruct score as [s|]; [right|left; reflexivity].
           exists s. split; [reflexivity|].
           apply Qnot_le_lt. intro C. apply N34. exists s. auto.
  - intro s. split; [reflexivity|].
    destruct (roundZ_bounds s) as [L U]. split; intro H.
    + rewrite Zle_Qle in H. change (inject_Z 67) with 67 in H.
      assert (A : 66 < inject_Z (Helpers.roundZ s)) by lra.
      assert (B : 133 # 2 <= s \/ s < 133 # 2).
      { destruct (Qlt_le_dec s (133 # 2)); auto. }
      destruct B as [B|B]; [exact B|]. exfalso.
      assert (C : inject_Z (Helpers.roundZ s) < 67) by lra.
      change 67 with (inject_Z 67) in C. rewrite <- Zlt_Qlt in C.
      change 67 with (inject_Z 67) in H. rewrite <- Zle_Qle in H. lia.
    + assert (A : 66 < inject_Z (Helpers.roundZ s)) by lra.
      change 66 with (inject_Z 66) in A. rewrite <- Zlt_Qlt in A. lia.
Qed.




(* ------------------------------------------------------------------ *)
(** ** Percentages of a whole *)

(** Three rounded shares of a whole add up to 100 give or take 1. *)
Lemma rounded_shares_sum (x y z : Q) :
  x + y + z == 100 ->
  (99 <= Helpers.roundZ x + Helpers.roundZ y + Helpers.roundZ z <= 101)%Z.
Proof.
  intro E.
  destruct (roundZ_bounds x) as [Lx Ux].
  destruct (roundZ_bounds y) as [Ly Uy].
  destruct (roundZ_bounds z) as [Lz Uz].
  set (a := Helpers.roundZ x) in *. set (b := Helpers.roundZ y) in *.
  set (c := Helpers.roundZ z) in *.
  assert (A : inject_Z 98 < inject_Z (a + b + c)).
  { rewrite !inject_Z_plus. change (inject_Z 98) with 98. lra. }
  assert (B : inject_Z (a + b + c) < inject_Z 102).
  { rewrite !inject_Z_plus. change (inject_Z 102) with 102. lra. }
  rewrite <- Zlt_Qlt in A, B. lia.
Qed.

Lemma shares_of_whole (a b c t : Q) :
  ~ t == 0 -> a + b + c == t -> a / t * 100 + b / t * 100 + c / t * 100 == 100.
Proof.
  intros N E. rewrite <- E. field. rewrite E. exact N.
Qed.





(* ------------------------------------------------------------------ *)
(** ** Sleep stages as shares of the sleep *)

Lemma sleep_loop_stages (records : list Sleep.DailyRecord) :
  (forall r, In r (scoredNights records) -> stagesAddUp r) ->
  forall t,
    let t' := fold_left Sleep.accumulate records t in
    Sleep.totalLightMs t' + Sleep.totalDeepMs t' + Sleep.totalRemMs t'
    - Sleep.totalSleepMs t'
    == Sleep.totalLightMs t + Sleep.totalDeepMs t + Sleep.totalRemMs t
       - Sleep.totalSleepMs t.
Proof.
  induction records as [|r rs IH]; intros H t; [reflexivity|].
  cbn zeta. cbn [fold_left].
  rewrite sleep_scoredNights_cons in H.
  unfold Sleep.accumulate at 2 4 6 8.
  destruct (Sleep.sleep_performance_percentage (Sleep.scoreOf r)) as [v|];
    cbn [isNull].
  - cbv zeta in IH. rewrite IH by (intros r' Hr'; apply H; right; exact Hr').
    cbn [Sleep.totalLightMs Sleep.totalDeepMs Sleep.totalRemMs Sleep.totalSleepMs].
    pose proof (H r (or_introl eq_refl)) as A. unfold stagesAddUp in A.
    cbv zeta in A. rewrite A. ring.
  - apply IH. exact H.
Qed.

Lemma windowPct_positive (x s : Q) :
  0 < s -> Sleep.windowPct x s = Num (inject_Z (Helpers.roundZ (x / s * 100))).
Proof.
  intro P. unfold Sleep.windowPct.
  assert (L : Qltb 0 s = true) by (apply Qltb_lt; exact P).
  assert (Z : Qeq_bool s 0 = false).
  { apply Qeq_bool_false. intro E. rewrite E in P. exact (Qlt_irrefl _ P). }
  rewrite L. unfold div. rewrite Z. reflexivity.
Qed.

(** X8. When the time in bed of a night is the sum of its awake time and
    its light, deep and REM sleep, and the night has some sleep, the three
    stage percentages of the single-night report are whole numbers that add
    up to 99, 100 or 101.  The same holds for the three average stage
    percentages of a multi-day report when every scored night is such a
    night and the total sleep is positive. *)
Theorem stage_percentages_add_up :
  (forall rec,
      stagesAddUp rec ->
      ~ Sleep.totalSleep rec == 0 ->
      exists a b c,
        Sleep.lightPct (Sleep.formatSingleDay rec) = Num (inject_Z a)
        /\ Sleep.deepPct (Sleep.formatSingleDay rec) = Num (inject_Z b)
        /\ Sleep.remPct (Sleep.formatSingleDay rec) = Num (inject_Z c)
        /\ (99 <= a + b + c <= 101)%Z)
  /\ (forall records,
      scoredNights records <> [] ->
      (forall r, In r (scoredNights records) -> stagesAddUp r) ->
      0 < sum (sleepMsPerNight records) ->
      exists rep a b c,
        Sleep.trend records = Trend rep
        /\ Sleep.avgLightPct rep = Num (inject_Z a)
        /\ Sleep.avgDeepPct rep = Num (inject_Z b)
        /\ Sleep.avgRemPct rep = Num (inject_Z c)
        /\ (99 <= a + b + c <= 101)%Z).
Proof.
  split.
  - intros rec A N.
    assert (T : Sleep.totalMs rec = Sleep.totalSleep rec).
    { unfold Sleep.totalMs. simpl. pose proof N as N'.
      apply Qeq_bool_false in N'. rewrite N'. reflexivity. }
    unfold Sleep.formatSingleDay.
    cbn [Sleep.lightPct Sleep.deepPct Sleep.remPct]. rewrite T.
    set (st := Sleep.stagesOf (Sleep.scoreOf rec)) in *.
    do 3 eexists. rewrite !stagePct_value by exact N.
    split; [reflexivity|]. split; [reflexivity|]. split; [reflexivity|].
    apply rounded_shares_sum. apply shares_of_whole; [exact N|].
    unfold stagesAddUp in A. cbv zeta in A. fold st in A.
    unfold Sleep.totalSleep. fold st. symmetry. exact A.
  - intros records H A P.
    destruct (scored_nights_nonempty records H) as [N L].
    destruct (sleep_trend_cases records)
      as [[E T] | [(_ & E & T) | (_ & o & n & T)]]; try contradiction.
    { subst records. contradiction. }
    destruct (sleep_loop records Sleep.initTotals) as (_ & _ & _ & _ & _ & Hs).
    pose proof (sleep_loop_stages records A Sleep.initTotals) as B.
    cbv zeta in Hs, B.
    set (t := fold_left Sleep.accumulate records Sleep.initTotals) in *.
    simpl Sleep.totalSleepMs in Hs. rewrite Qplus_0_l in Hs.
    cbn [Sleep.initTotals Sleep.totalLightMs Sleep.totalDeepMs Sleep.totalRemMs
         Sleep.totalSleepMs] in B.
    assert (P' : 0 < Sleep.totalSleepMs t) by (rewrite Hs; exact P).
    assert (N' : ~ Sleep.totalSleepMs t == 0).
    { intro E. rewrite E in P'. exact (Qlt_irrefl _ P'). }
    exists (Sleep.summarize records t o n). do 3 eexists.
    split; [exact T|]. unfold Sleep.summarize.
    cbn [Sleep.avgLightPct Sleep.avgDeepPct Sleep.avgRemPct].
    rewrite !windowPct_positive by exact P'.
    split; [reflexivity|]. split; [reflexivity|]. split; [reflexivity|].
    apply rounded_shares_sum. apply shares_of_whole; [exact N'|]. lra.
Qed.

Lemma stage_percentages_add_up_witness :
  (exists a b c,
      Sleep.lightPct (Sleep.formatSingleDay typicalNight) = Num (inject_Z a)
      /\ Sleep.deepPct (Sleep.formatSingleDay typicalNight) = Num (inject_Z b)
      /\ Sleep.remPct (Sleep.formatSingleDay typicalNight) = Num (inject_Z c)
      /\ (99 <= a + b + c <= 101)%Z)
  /\ (exists rep a b c,
        Sleep.trend [typicalNight; shortNight] = Trend rep
        /\ Sleep.avgLightPct rep = Num (inject_Z a)
        /\ Sleep.avgDeepPct rep = Num (inject_Z b)
        /\ Sleep.avgRemPct rep = Num (inject_Z c)
        /\ (99 <= a + b + c <= 101)%Z).
Proof.
  destruct stage_percentages_add_up as (S1 & S2).
  split.
  - apply (S1 typicalNight); [reflexivity|discriminate].
  - apply (S2 [typicalNight; shortNight]).
    + discriminate.
    + intros r [<- | [<- | []]]; reflexivity.
    + reflexivity.
Defined.

(* ------------------------------------------------------------------ *)
(** ** The range of a window and its average *)











(* ------------------------------------------------------------------ *)
(** ** The paginated fetch *)

Section PaginatedFetch.

Local Open Scope nat_scope.

Variable T : Type.
Variable serve : nat -> Client.Request -> Client.Reply T.

Lemma firstn_app_more (limit : nat) (all more : list T) :
  List.length (firstn limit (all ++ more)) <= limit.
Proof.
  rewrite length_firstn. lia.
Qed.

(** One run of the loop from any of its states, with enough fuel. *)
Lemma fetchLoop_run :
  forall fuel limit sent all token,
    limit - List.length all <= fuel ->
    exists out new,
      Client.fetchLoop serve fuel limit sent all token = (out, sent ++ new)
      /\ out <> Client.OutOfFuel
      /\ List.length new <= limit - List.length all
      /\ Forall (fun r => 1 <= Client.batchSize r <= 25
                          /\ Client.batchSize r <= limit - List.length all) new
      /\ Client.chained serve (List.length sent) token new
      /\ (forall items,
            out = Client.Returned items ->
            List.length items <= limit
            /\ exists more, items = firstn limit (all ++ more)).
Proof.
  induction fuel as [|fuel IH]; intros limit sent all token F.
  - exists (Client.Returned (firstn limit all)), [].
    assert (E : (limit <=? List.length all) = true) by (apply Nat.leb_le; lia).
    simpl. rewrite E, app_nil_r.
    repeat split; try discriminate; simpl; auto; try lia.
    + injection H as <-. rewrite length_firstn. lia.
    + injection H as <-. exists []. rewrite app_nil_r. reflexivity.
  - cbn [Client.fetchLoop].
    destruct (limit <=? List.length all) eqn:E.
    + exists (Client.Returned (firstn limit all)), []. rewrite app_nil_r.
      repeat split; try discriminate; simpl; auto; try lia.
      * injection H as <-. rewrite length_firstn. lia.
      * injection H as <-. exists []. rewrite app_nil_r. reflexivity.
    + apply Nat.leb_gt in E. cbv zeta.
      set (req := {| Client.batchSize := Nat.min (limit - List.length all) 25;
                     Client.nextToken :=
                       if Client.truthyString token then token else None |}).
      assert (B : 1 <= Client.batchSize req <= 25
                  /\ Client.batchSize req <= limit - List.length all).
      { simpl. lia. }
      assert (One : forall out,
                out <> Client.OutOfFuel ->
                (forall items, out = Client.Returned items ->
                   List.length items <= limit
                   /\ exists more, items = firstn limit (all ++ more)) ->
                exists out' new,
                  (out, sent ++ [req]) = (out', sent ++ new)
                  /\ out' <> Client.OutOfFuel
                  /\ List.length new <= limit - List.length all
                  /\ Forall (fun r => 1 <= Client.batchSize r <= 25
                                      /\ Client.batchSize r <= limit - List.length all) new
                  /\ Client.chained serve (List.length sent) token new
                  /\ (forall items, out' = Client.Returned items ->
                        List.length items <= limit
                        /\ exists more, items = firstn limit (all ++ more))).
      { intros out N R. exists out, [req].
        split; [reflexivity|]. split; [exact N|]. split; [simpl; lia|].
        split; [constructor; [exact B|constructor]|].
        split; [simpl; auto|exact R]. }
      destruct (serve (List.length sent) req) as [data|msg] eqn:Sv.
      * destruct (negb (Client.truthyString (Client.next_token data))) eqn:Tk.
        { apply One; [discriminate|]. intros items H. injection H as <-.
          split; [apply firstn_app_more|]. exists (Client.recordsOf data). reflexivity. }
        apply negb_false_iff in Tk.
        destruct (Client.records data) as [rs|] eqn:Rs.
        2:{ apply One; [discriminate|]. intros items H. discriminate. }
        destruct (List.length rs =? 0) eqn:Z.
        { apply One; [discriminate|]. intros items H. injection H as <-.
          split; [apply firstn_app_more|]. exists (Client.recordsOf data). reflexivity. }
        apply Nat.eqb_neq in Z.
        assert (Ro : Client.recordsOf data = rs).
        { unfold Client.recordsOf. rewrite Rs. reflexivity. }
        rewrite Ro.
        destruct (IH limit (sent ++ [req]) (all ++ rs) (Client.next_token data))
          as (out & new & Eq & N & Ln & Fa & Ch & R).
        { rewrite length_app. lia. }
        exists out, (req :: new).
        rewrite Eq, <- app_assoc. split; [reflexivity|]. split; [exact N|].
        rewrite length_app in Ln, Fa.
        split; [simpl; lia|]. split; [|split].
        -- constructor; [exact B|].
           eapply Forall_impl; [|exact Fa]. intros r Hr. simpl in Hr. lia.
        -- simpl. split; [reflexivity|]. right. exists data.
           split; [exact Sv|]. split; [exact Tk|].
           rewrite length_app in Ch. simpl in Ch.
           replace (S (List.length sent)) with (List.length sent + 1) by lia.
           exact Ch.
        -- intros items H. destruct (R items H) as (Li & more & Em).
           split; [exact Li|]. exists (rs ++ more). rewrite app_assoc. exact Em.
      * exists (Client.Threw msg), [req].
        split; [reflexivity|]. split; [discriminate|]. split; [simpl; lia|].
        split; [constructor; [exact B|constructor]|].
        split; [simpl; auto|]. intros items H. discriminate.
Qed.

(** Fuel beyond what the loop needs does not change the run. *)
Lemma fetchLoop_fuel :
  forall fuel extra limit sent all token,
    limit - List.length all <= fuel ->
    Client.fetchLoop serve (fuel + extra) limit sent all token
    = Client.fetchLoop serve fuel limit sent all token.
Proof.
  induction fuel as [|fuel IH]; intros extra limit sent all token F.
  - assert (E : (limit <=? List.length all) = true) by (apply Nat.leb_le; lia).
    destruct extra; simpl; rewrite E; reflexivity.
  - cbn [Nat.add Client.fetchLoop].
    destruct (limit <=? List.length all) eqn:E; [reflexivity|].
    apply Nat.leb_gt in E. cbv zeta.
    destruct (serve _ _) as [data|msg]; [|reflexivity].
    destruct (negb _); [reflexivity|].
    destruct (Client.records data) as [rs|] eqn:Rs; [|reflexivity].
    destruct (List.length rs =? 0) eqn:Z; [reflexivity|].
    apply Nat.eqb_neq in Z. apply IH.
    unfold Client.recordsOf. rewrite Rs, length_app. lia.
Qed.

(** The run against a server that honours the batch size. *)
Lemma fetchLoop_full_pages :
  Client.honoursBatchSize serve ->
  forall fuel limit sent all token,
    limit - List.length all <= fuel ->
    List.length all <= limit ->
    exists more new,
      Client.fetchLoop serve fuel limit sent all token
      = (Client.Returned (all ++ more), sent ++ new)
      /\ List.length (all ++ more) = limit
      /\ List.length new = (limit - List.length all + 24) / 25
      /\ Forall (fun r => Client.batchSize r = 25
                          \/ Client.batchSize r = (limit - List.length all) mod 25) new.
Proof.
  intro Hon. induction fuel as [|fuel IH]; intros limit sent all token F L.
  - assert (E : (limit <=? List.length all) = true) by (apply Nat.leb_le; lia).
    exists [], []. simpl. rewrite E, !app_nil_r.
    assert (El : List.length all = limit) by lia.
    rewrite <- El, firstn_all, Nat.sub_diag. repeat split; auto.
  - cbn [Client.fetchLoop].
    destruct (limit <=? List.length all) eqn:E.
    + apply Nat.leb_le in E. exists [], []. rewrite !app_nil_r.
      assert (El : List.length all = limit) by lia.
      rewrite <- El, firstn_all, Nat.sub_diag. repeat split; auto.
    + apply Nat.leb_gt in E. cbv zeta.
      set (req := {| Client.batchSize := Nat.min (limit - List.length all) 25;
                     Client.nextToken :=
                       if Client.truthyString token then token else None |}).
      destruct (Hon (List.length sent) req) as (rs & tok & Sv & Lr & Tk).
      rewrite Sv. cbn [Client.next_token Client.records]. rewrite Tk.
      cbn [negb]. unfold Client.recordsOf. cbn [Client.records].
      assert (Z : (List.length rs =? 0) = false).
      { apply Nat.eqb_neq. rewrite Lr. simpl. lia. }
      rewrite Z.
      destruct (IH limit (sent ++ [req]) (all ++ rs) (Some tok))
        as (more & new & Eq & Lm & Ln & Fa).
      { rewrite length_app, Lr. simpl. lia. }
      { rewrite length_app, Lr. simpl. lia. }
      exists (rs ++ more), (req :: new).
      rewrite Eq, <- !app_assoc. split; [reflexivity|].
      rewrite <- app_assoc in Lm. split; [exact Lm|].
      rewrite length_app, Lr in Ln, Fa. simpl Client.batchSize in Ln, Fa.
      set (R := limit - List.length all) in *.
      assert (Rpos : 1 <= R) by (unfold R; lia).
      assert (Rest : limit - (List.length all + Nat.min R 25) = R - Nat.min R 25)
        by (unfold R; lia).
      rewrite Rest in Ln, Fa.
      split.
      * cbn [List.length]. rewrite Ln.
        destruct (Nat.le_gt_cases R 25) as [Small|Big].
        -- rewrite Nat.min_l by exact Small. rewrite Nat.sub_diag.
           change ((0 + 24) / 25) with 0.
           pose proof (Nat.div_mod_eq (R + 24) 25) as Q1.
           pose proof (Nat.mod_upper_bound (R + 24) 25 ltac:(discriminate)) as Q2.
           lia.
        -- rewrite Nat.min_r by lia.
           pose proof (Nat.div_mod_eq (R + 24) 25) as Q1.
           pose proof (Nat.mod_upper_bound (R + 24) 25 ltac:(discriminate)) as Q2.
           pose proof (Nat.div_mod_eq (R - 25 + 24) 25) as Q3.
           pose proof (Nat.mod_upper_bound (R - 25 + 24) 25 ltac:(discriminate)) as Q4.
           lia.
      * constructor.
        -- unfold req. cbn [Client.batchSize].
           destruct (Nat.le_gt_cases 25 R) as [Big|Small].
           ++ left. lia.
           ++ right. rewrite Nat.min_l by lia. symmetry. apply Nat.mod_small. lia.
        -- destruct (Nat.le_gt_cases R 25) as [Small|Big].
           ++ rewrite Nat.min_l, Nat.sub_diag in Ln by exact Small.
              change ((0 + 24) / 25) with 0 in Ln.
              destruct new; [constructor|discriminate].
           ++ eapply Forall_impl; [|exact Fa].
              intros r [H|H]; [left; exact H|]. right. rewrite H.
              rewrite Nat.min_r by lia.
              pose proof (Nat.div_mod_eq R 25) as Q1.
              pose proof (Nat.mod_upper_bound R 25 ltac:(discriminate)) as Q2.
              pose proof (Nat.div_mod_eq (R - 25) 25) as Q3.
              pose proof (Nat.mod_upper_bound (R - 25) 25 ltac:(discriminate)) as Q4.
              lia.
Qed.

End PaginatedFetch.

(** X11. For every server and every limit, [fetchPaginated] stops after at
    most [limit] requests (more fuel than [limit] changes nothing), never
    asks for fewer than 1 or more than 25 records at a time, sends the
    first request without a token and every later one with the token of the
    answer before, and, when it returns, returns at most [limit] records.
    With a limit of 0 it sends nothing and returns no record. *)
Theorem fetchPaginated_bounded :
  forall (T : Type) (serve : nat -> Client.Request -> Client.Reply T) (limit : nat),
    exists out reqs,
      Client.fetchPaginated serve limit = (out, reqs)
      /\ out <> Client.OutOfFuel
      /\ (List.length reqs <= limit)%nat
      /\ Forall (fun r => (1 <= Client.batchSize r <= 25)%nat
                          /\ (Client.batchSize r <= limit)%nat) reqs
      /\ Client.chained serve 0 None reqs
      /\ (forall items, out = Client.Returned items ->
            (List.length items <= limit)%nat)
      /\ (forall extra,
            Client.fetchLoop serve (limit + extra) limit [] [] None
            = Client.fetchPaginated serve limit)
      /\ (limit = O -> out = Client.Returned [] /\ reqs = []).
Proof.
  intros T serve limit.
  destruct (fetchLoop_run T serve limit limit [] [] None)
    as (out & new & E & N & L & F & C & R).
  { simpl. lia. }
  exists out, new. simpl in *. rewrite Nat.sub_0_r in L, F.
  split; [exact E|]. split; [exact N|]. split; [exact L|]. split; [exact F|].
  split; [exact C|]. split; [|split].
  - intros items H. apply R. exact H.
  - intro extra. apply fetchLoop_fuel. simpl. lia.
  - intros ->. unfold Client.fetchPaginated in E. simpl in E.
    injection E as <- <-. auto.
Qed.

(** X12. Against a server that answers every request with exactly as many
    records as asked for and a token for the next page, [fetchPaginated]
    returns exactly [limit] records, nothing cut off, after
    [ceil(limit / 25)] requests, each for 25 records but possibly one for
    the remainder. *)
Theorem fetchPaginated_full_pages :
  forall (T : Type) (serve : nat -> Client.Request -> Client.Reply T) (limit : nat),
    Client.honoursBatchSize serve ->
    exists items reqs,
      Client.fetchPaginated serve limit = (Client.Returned items, reqs)
      /\ List.length items = limit
      /\ List.length reqs = ((limit + 24) / 25)%nat
      /\ Forall (fun r => Client.batchSize r = 25%nat
                          \/ Client.batchSize r = (limit mod 25)%nat) reqs.
Proof.
  intros T serve limit Hon.
  destruct (fetchLoop_full_pages T serve Hon limit limit [] [] None)
    as (more & new & E & Lm & Ln & Fa).
  { simpl. lia. }
  { simpl. lia. }
  simpl in *. rewrite Nat.sub_0_r in Ln, Fa.
  exists more, new. auto.
Qed.

Lemma fetchPaginated_full_pages_witness :
  exists items reqs,
    Client.fetchPaginated Client.fullPages 30 = (Client.Returned items, reqs)
    /\ List.length items = 30%nat
    /\ List.length reqs = 2%nat.
Proof.
  destruct (fetchPaginated_full_pages nat Client.fullPages 30)
    as (items & reqs & E & Li & Lr & _).
  - intros n req. unfold Client.fullPages. do 2 eexists.
    split; [reflexivity|]. split; [apply repeat_length|reflexivity].
  - exists items, reqs. auto.
Defined.

(** X13. What the first answer does to [fetchPaginated] for a limit above
    0: an error of the request is thrown on, with no record returned; an
    answer without token ends the fetch after one request with the first
    [limit] of its records, none if [records] is missing; an answer with a
    token and without [records] throws. *)
Theorem fetchPaginated_first_answer :
  forall (T : Type) (serve : nat -> Client.Request -> Client.Reply T) (limit : nat),
    (0 < limit)%nat ->
    let first := {| Client.batchSize := Nat.min limit 25;
                    Client.nextToken := None |} in
    (forall msg,
        serve O first = Client.Throws msg ->
        Client.fetchPaginated serve limit = (Client.Threw msg, [first]))
    /\ (forall data,
        serve O first = Client.Body data ->
        Client.truthyString (Client.next_token data) = false ->
        Client.fetchPaginated serve limit
        = (Client.Returned (firstn limit (Client.recordsOf data)), [first]))
    /\ (forall data,
        serve O first = Client.Body data ->
        Client.truthyString (Client.next_token data) = true ->
        Client.records data = None ->
        exists msg, Client.fetchPaginated serve limit = (Client.Threw msg, [first])).
Proof.
  intros T serve limit P first.
  assert (U : forall k,
            Client.fetchLoop serve (S k) limit [] [] None
            = match serve O first with
              | Client.Throws msg => (Client.Threw msg, [first])
              | Client.Body data =>
                  if negb (Client.truthyString (Client.next_token data))
                  then (Client.Returned (firstn limit (Client.recordsOf data)), [first])
                  else
                    match Client.records data with
                    | None =>
                        (Client.Threw
                           "Cannot read properties of undefined (reading 'length')",
                         [first])
                    | Some rs =>
                        if (List.length rs =? 0)%nat
                        then (Client.Returned (firstn limit (Client.recordsOf data)),
                              [first])
                        else Client.fetchLoop serve k limit [first]
                               (Client.recordsOf data) (Client.next_token data)
                    end
              end).
  { intro k. cbn [Client.fetchLoop].
    assert (E : (limit <=? List.length (@nil T))%nat = false)
      by (apply Nat.leb_gt; simpl; lia).
    rewrite E. cbv zeta. cbn [List.length app Client.truthyString].
    rewrite Nat.sub_0_r. fold first. reflexivity. }
  unfold Client.fetchPaginated.
  destruct limit as [|k]; [lia|]. rewrite U.
  split; [|split].
  - intros msg E. rewrite E. reflexivity.
  - intros data E Tk. rewrite E, Tk. reflexivity.
  - intros data E Tk R. rewrite E, Tk, R. eexists. reflexivity.
Qed.

Lemma fetchPaginated_first_answer_witness :
  Client.fetchPaginated Handlers.threeDays 7
  = (Client.Returned [Recovery.scoredDay 40 50; Recovery.scoredDay 55 48;
                      Recovery.scoredDay 70 61],
     [{| Client.batchSize := 7; Client.nextToken := None |}]).
Proof.
  destruct (fetchPaginated_first_answer _ Handlers.threeDays 7) as (_ & B & _).
  - lia.
  - apply (B _ eq_refl eq_refl).
Defined.

(** X14. A multi-day recovery or sleep handler asked for [n] days, [n] at
    least 2, answers an error exactly when the fetch threw, and then with
    the message of the fetch; otherwise it answers what the trend makes of
    the fetched records, and a report never covers more than [n] days. *)
Theorem handler_reports_at_most_the_days_asked :
  forall n,
    (2 <= n)%nat ->
    (forall serve,
        (forall msg,
            Handlers.recovery serve n = ToolError msg
            <-> fst (Client.fetchPaginated serve n) = Client.Threw msg)
        /\ (forall records,
              fst (Client.fetchPaginated serve n) = Client.Returned records ->
              Handlers.recovery serve n = Recovery.trend records)
        /\ (forall rep,
              Handlers.recovery serve n = Trend rep -> (Recovery.days rep <= n)%nat))
    /\ (forall serve,
        (forall msg,
            Handlers.sleep serve n = ToolError msg
            <-> fst (Client.fetchPaginated serve n) = Client.Threw msg)
        /\ (forall records,
              fst (Client.fetchPaginated serve n) = Client.Returned records ->
              Handlers.sleep serve n = Sleep.trend records)
        /\ (forall rep,
              Handlers.sleep serve n = Trend rep -> (Sleep.days rep <= n)%nat)).
Proof.
  intros n _. split.
  - intros serve.
    destruct (fetchPaginated_bounded _ serve n)
      as (out & reqs & E & N & _ & _ & _ & L & _).
    unfold Handlers.recovery, Handlers.onRecords. rewrite E. cbn [fst].
    destruct out as [records|m|]; [| |contradiction].
    + specialize (L records eq_refl).
      split; [|split; [intros r H; injection H as <-; reflexivity|]];
      destruct (recovery_trend_cases records)
        as [[Em Tr] | [(_ & Em & Tr) | (Ne & o & nw & Tr)]]; rewrite Tr;
        try (intro msg; split; discriminate); try (intros rep H; discriminate).
      intros rep H. injection H as <-. unfold Recovery.summarize.
      cbn [Recovery.days]. rewrite recovery_count.
      pose proof (filterMap_length_le
                    (fun r => match Recovery.score r with
                              | Some s => Recovery.recovery_score s
                              | None => None
                              end) records) as Le.
      fold (Recovery.recScores records) in Le. lia.
    + split; [|split; intros r H; discriminate].
      intro msg. split; intro H; injection H as <-; reflexivity.
  - intros serve.
    destruct (fetchPaginated_bounded _ serve n)
      as (out & reqs & E & N & _ & _ & _ & L & _).
    unfold Handlers.sleep, Handlers.onRecords. rewrite E. cbn [fst].
    destruct out as [records|m|]; [| |contradiction].
    + specialize (L records eq_refl).
      split; [|split; [intros r H; injection H as <-; reflexivity|]];
      destruct (sleep_trend_cases records)
        as [[Em Tr] | [(_ & Em & Tr) | (Ne & o & nw & Tr)]]; rewrite Tr;
        try (intro msg; split; discriminate); try (intros rep H; discriminate).
      intros rep H. injection H as <-. unfold Sleep.summarize.
      cbn [Sleep.days]. rewrite sleep_count.
      pose proof (filterMap_length_le
                    (fun r => match Sleep.score r with
                              | Some s => Sleep.sleep_performance_percentage s
                              | None => None
                              end) records) as Le.
      fold (Sleep.perfs records) in Le. lia.
    + split; [|split; intros r H; discriminate].
      intro msg. split; intro H; injection H as <-; reflexivity.
Qed.

Lemma handler_reports_at_most_the_days_asked_witness :
  exists rep,
    Handlers.recovery Handlers.threeDays 7 = Trend rep
    /\ (Recovery.days rep <= 7)%nat.
Proof.
  destruct (handler_reports_at_most_the_days_asked 7) as (R & _).
  - lia.
  - destruct (R Handlers.threeDays) as (_ & _ & D).
    eexists. split; [reflexivity|]. apply D. reflexivity.
Defined.

(* ------------------------------------------------------------------ *)
(** ** The grid of the calendar *)

Section CalendarGrid.

Local Open Scope nat_scope.

Variable dayMap : Calendar.DayMap.
Variable daysInMonth : nat.

Lemma mod7_next (i : nat) :
  (i mod 7 = 6 -> S i mod 7 = 0) /\ (i mod 7 <> 6 -> S i mod 7 = S (i mod 7)).
Proof.
  pose proof (Nat.div_mod_eq i 7) as A.
  pose proof (Nat.mod_upper_bound i 7 ltac:(discriminate)) as B.
  pose proof (Nat.div_mod_eq (S i) 7) as C.
  pose proof (Nat.mod_upper_bound (S i) 7 ltac:(discriminate)) as D.
  split; intro H; lia.
Qed.

(** What one turn of the loop makes of the state. *)
Lemma gridLoop_step (remaining i dayNum : nat) (g : Calendar.Grid) :
  Calendar.gridLoop dayMap daysInMonth (S remaining) i dayNum g
  = Calendar.gridLoop dayMap daysInMonth remaining (S i) (S dayNum)
      (let line := Calendar.weekLine g ++ [Calendar.cellOf dayMap dayNum] in
       let stats :=
         match dayMap (Z.of_nat dayNum) with
         | Some d => Calendar.updateAt (i mod 7) (Calendar.countDay (Calendar.state d))
                       (Calendar.weekdayStats g)
         | None => Calendar.weekdayStats g
         end in
       if (i mod 7 =? 6) || (daysInMonth <? S dayNum)
       then {| Calendar.weekLine := [];
               Calendar.lines := Calendar.lines g ++ [line];
               Calendar.weekdayStats := stats |}
       else {| Calendar.weekLine := line;
               Calendar.lines := Calendar.lines g;
               Calendar.weekdayStats := stats |}).
Proof.
  cbn [Calendar.gridLoop]. cbv zeta. unfold Calendar.cellOf.
  destruct (dayMap (Z.of_nat dayNum)) as [d|];
    destruct ((i mod 7 =? 6) || (daysInMonth <? S dayNum)); reflexivity.
Qed.

(** The rows the loop adds, from any of its states. *)
Lemma gridLoop_rows :
  forall remaining i dayNum g,
    dayNum + remaining = S daysInMonth ->
    List.length (Calendar.weekLine g) = i mod 7 ->
    exists newRows,
      Calendar.lines (Calendar.gridLoop dayMap daysInMonth remaining i dayNum g)
      = Calendar.lines g ++ newRows
      /\ List.concat newRows
         ++ Calendar.weekLine (Calendar.gridLoop dayMap daysInMonth remaining i dayNum g)
         = Calendar.weekLine g ++ map (Calendar.cellOf dayMap) (seq dayNum remaining)
      /\ (0 < remaining ->
          Calendar.weekLine (Calendar.gridLoop dayMap daysInMonth remaining i dayNum g)
          = [])
      /\ Forall (fun r => List.length r = 7) (removelast newRows)
      /\ Forall (fun r => 1 <= List.length r <= 7) newRows.
Proof.
  induction remaining as [|remaining IH]; intros i dayNum g Hn Hw.
  - exists []. simpl. rewrite !app_nil_r. repeat split; auto; lia.
  - rewrite gridLoop_step. cbv zeta.
    pose proof (Nat.mod_upper_bound i 7 ltac:(discriminate)) as Hi.
    destruct (mod7_next i) as [Next6 Next].
    destruct ((i mod 7 =? 6) || (daysInMonth <? S dayNum)) eqn:Brk.
    + set (line := Calendar.weekLine g ++ [Calendar.cellOf dayMap dayNum]).
      assert (Ll : List.length line = S (i mod 7)).
      { unfold line. rewrite length_app, Hw. cbn [List.length]. lia. }
      destruct remaining as [|remaining'].
      * exists [line]. simpl. rewrite !app_nil_r.
        repeat split; auto.
        constructor; [lia|constructor].
      * assert (I6 : i mod 7 = 6).
        { apply orb_true_iff in Brk. destruct Brk as [B|B].
          - apply Nat.eqb_eq in B. exact B.
          - apply Nat.ltb_lt in B. lia. }
        destruct (IH (S i) (S dayNum)
                    {| Calendar.weekLine := [];
                       Calendar.lines := Calendar.lines g ++ [line];
                       Calendar.weekdayStats :=
                         match dayMap (Z.of_nat dayNum) with
                         | Some d => Calendar.updateAt (i mod 7)
                                       (Calendar.countDay (Calendar.state d))
                                       (Calendar.weekdayStats g)
                         | None => Calendar.weekdayStats g
                         end |})
          as (rest & El & Ec & Ew & F7 & F17).
        { lia. }
        { cbn [Calendar.weekLine List.length]. symmetry. apply Next6. exact I6. }
        cbn [Calendar.lines Calendar.weekLine] in El, Ec.
        exists (line :: rest). rewrite El, <- app_assoc.
        split; [reflexivity|]. split; [|split; [|split]].
        -- cbn [List.concat]. rewrite <- app_assoc, Ec. unfold line.
           rewrite <- app_assoc. reflexivity.
        -- intros _. apply Ew. lia.
        -- destruct rest as [|r rest'].
           ++ constructor.
           ++ change (removelast (line :: r :: rest'))
                with (line :: removelast (r :: rest')).
              constructor; [lia|exact F7].
        -- constructor; [lia|exact F17].
    + apply orb_false_iff in Brk. destruct Brk as [B6 Bend].
      apply Nat.eqb_neq in B6. apply Nat.ltb_ge in Bend.
      destruct (IH (S i) (S dayNum)
                  {| Calendar.weekLine :=
                       Calendar.weekLine g ++ [Calendar.cellOf dayMap dayNum];
                     Calendar.lines := Calendar.lines g;
                     Calendar.weekdayStats :=
                       match dayMap (Z.of_nat dayNum) with
                       | Some d => Calendar.updateAt (i mod 7)
                                     (Calendar.countDay (Calendar.state d))
                                     (Calendar.weekdayStats g)
                       | None => Calendar.weekdayStats g
                       end |})
        as (rest & El & Ec & Ew & F7 & F17).
      { lia. }
      { cbn [Calendar.weekLine]. rewrite length_app, Hw, (Next B6).
        cbn [List.length]. lia. }
      cbn [Calendar.lines Calendar.weekLine] in El, Ec.
      exists rest. split; [exact El|]. split; [|split; [|split]].
      * rewrite Ec, <- app_assoc. reflexivity.
      * intros _. apply Ew. lia.
      * exact F7.
      * exact F17.
Qed.

End CalendarGrid.

(** Rows that are full but for the last one determine their number. *)
Lemma rows_count (A : Type) (rows : list (list A)) :
  Forall (fun r => List.length r = 7%nat) (removelast rows) ->
  Forall (fun r => (1 <= List.length r <= 7)%nat) rows ->
  List.length rows = ((List.length (List.concat rows) + 6) / 7)%nat.
Proof.
  induction rows as [|r rest IH]; intros F7 F17.
  - reflexivity.
  - inversion F17 as [|? ? Hr Hrest]; subst.
    destruct rest as [|r' rest'].
    + cbn [List.concat List.length]. rewrite app_nil_r.
      pose proof (Nat.div_mod_eq (List.length r + 6) 7) as A1.
      pose proof (Nat.mod_upper_bound (List.length r + 6) 7 ltac:(discriminate)) as A2.
      lia.
    + change (removelast (r :: r' :: rest')) with (r :: removelast (r' :: rest')) in F7.
      inversion F7 as [|? ? H7 F7']; subst.
      specialize (IH F7' Hrest).
      change (List.concat (r :: r' :: rest'))
        with (r ++ List.concat (r' :: rest')).
      rewrite length_app, H7.
      change (List.length (r :: r' :: rest')) with (S (List.length (r' :: rest'))).
      rewrite IH.
      set (n := List.length (List.concat (r' :: rest'))).
      pose proof (Nat.div_mod_eq (n + 6) 7) as A1.
      pose proof (Nat.mod_upper_bound (n + 6) 7 ltac:(discriminate)) as A2.
      pose proof (Nat.div_mod_eq (7 + n + 6) 7) as A3.
      pose proof (Nat.mod_upper_bound (7 + n + 6) 7 ltac:(discriminate)) as A4.
      lia.
Qed.

(** X15. The week lines of the calendar, read one after the other, are the
    blanks before the first day (as many as days lie between Monday and the
    weekday of the 1st) followed by the days 1 to the last of the month, each
    once and in order, marked when the day has data.  Every line but the
    last has 7 cells and the last has 1 to 7, so there are
    [ceil((blanks + days) / 7)] lines.  A month of 0 days prints no line. *)
Theorem calendar_grid_layout :
  forall parseInt days daysInMonth firstDayOfWeek,
    (firstDayOfWeek < 7)%nat ->
    let rep := Calendar.calendar parseInt days daysInMonth firstDayOfWeek in
    let blanks := Calendar.monBased firstDayOfWeek in
    let dayMap := Calendar.buildDayMap parseInt days in
    blanks = ((firstDayOfWeek + 6) mod 7)%nat
    /\ (daysInMonth = O -> Calendar.rows rep = [])
    /\ ((0 < daysInMonth)%nat ->
        List.concat (Calendar.rows rep)
        = repeat Calendar.Pad blanks
          ++ map (Calendar.cellOf dayMap) (seq 1 daysInMonth))
    /\ Forall (fun r => List.length r = 7%nat) (removelast (Calendar.rows rep))
    /\ Forall (fun r => (1 <= List.length r <= 7)%nat) (Calendar.rows rep)
    /\ ((0 < daysInMonth)%nat ->
        List.length (Calendar.rows rep) = ((blanks + daysInMonth + 6) / 7)%nat).
Proof.
  intros parseInt days n fdow Hf rep blanks dayMap.
  assert (Hb : (blanks < 7)%nat /\ blanks = ((fdow + 6) mod 7)%nat).
  { unfold blanks, Calendar.monBased.
    do 7 (destruct fdow as [|fdow]; [split; [lia|reflexivity]|]). lia. }
  destruct Hb as [Hb Eb].
  destruct (gridLoop_rows dayMap n n blanks 1
              {| Calendar.weekLine := repeat Calendar.Pad blanks;
                 Calendar.lines := [];
                 Calendar.weekdayStats := repeat Calendar.emptyStat 7 |})
    as (rows & El & Ec & Ew & F7 & F17).
  { lia. }
  { cbn [Calendar.weekLine]. rewrite repeat_length.
    symmetry. apply Nat.mod_small. exact Hb. }
  cbn [Calendar.lines Calendar.weekLine app] in El, Ec.
  assert (Er : Calendar.rows rep = rows) by exact El.
  rewrite Er.
  split; [exact Eb|]. split; [|split; [|split; [|split]]].
  - intros ->. simpl in El. rewrite <- Er. reflexivity.
  - intro P. rewrite (Ew P), app_nil_r in Ec. exact Ec.
  - exact F7.
  - exact F17.
  - intro P. rewrite (rows_count _ rows F7 F17).
    rewrite (Ew P), app_nil_r in Ec. rewrite Ec.
    rewrite length_app, repeat_length, length_map, length_seq. reflexivity.
Qed.

Lemma calendar_grid_layout_witness :
  List.concat (Calendar.rows (Calendar.calendar Calendar.parseDay Calendar.sampleDays 30 4))
  = repeat Calendar.Pad 3
    ++ map (Calendar.cellOf (Calendar.buildDayMap Calendar.parseDay Calendar.sampleDays))
           (seq 1 30)
  /\ List.length
       (Calendar.rows (Calendar.calendar Calendar.parseDay Calendar.sampleDays 30 4))
     = 5%nat.
Proof.
  destruct (calendar_grid_layout Calendar.parseDay Calendar.sampleDays 30 4)
    as (_ & _ & C & _ & _ & L).
  - lia.
  - split; [apply C; lia | apply L; lia].
Defined.

(* ------------------------------------------------------------------ *)
(** ** The weekday statistics of the calendar *)

Lemma updateAt_length {A : Type} (idx : nat) (f : A -> A) (xs : list A) :
  List.length (Calendar.updateAt idx f xs) = List.length xs.
Proof.
  revert idx. induction xs as [|x xs IH]; intros [|k]; simpl; auto.
Qed.

Lemma updateAt_nth {A : Type} (idx w : nat) (f : A -> A) (xs : list A) (d : A) :
  (idx < List.length xs)%nat ->
  nth w (Calendar.updateAt idx f xs) d
  = if (w =? idx)%nat then f (nth w xs d) else nth w xs d.
Proof.
  revert idx w. induction xs as [|x xs IH]; intros idx w H.
  - simpl in H. lia.
  - destruct idx as [|k]; destruct w as [|w']; simpl; auto.
    apply IH. simpl in H. lia.
Qed.

Lemma updateAt_Forall {A : Type} (P : A -> Prop) (idx : nat) (f : A -> A)
    (xs : list A) :
  (forall x, P x -> P (f x)) -> Forall P xs -> Forall P (Calendar.updateAt idx f xs).
Proof.
  intros Hf. revert idx. induction xs as [|x xs IH]; intros idx H.
  - destruct idx; constructor.
  - inversion H; subst. destruct idx as [|k]; simpl; constructor; auto.
Qed.

Lemma filter_filter {A : Type} (p q : A -> bool) (xs : list A) :
  filter q (filter p xs) = filter (fun x => p x && q x) xs.
Proof.
  induction xs as [|x xs IH]; simpl; [reflexivity|].
  destruct (p x); simpl; [destruct (q x)|]; rewrite IH; reflexivity.
Qed.

Lemma flag_sum (st : string) :
  (Calendar.flag st "HIGH_RECOVERY" + Calendar.flag st "MEDIUM_RECOVERY"
   + Calendar.flag st "LOW_RECOVERY" <= 1)%nat.
Proof.
  unfold Calendar.flag.
  destruct (String.eqb st "HIGH_RECOVERY") eqn:H;
    destruct (String.eqb st "MEDIUM_RECOVERY") eqn:M;
    destruct (String.eqb st "LOW_RECOVERY") eqn:L; try lia;
    repeat match goal with
           | E : String.eqb _ _ = true |- _ => apply String.eqb_eq in E
           end; subst; discriminate.
Qed.

Section CalendarStats.

Local Open Scope nat_scope.

Variable dayMap : Calendar.DayMap.
Variable daysInMonth : nat.
Variable blanks : nat.

(** A counter of [weekdayStats] and the states it counts. *)
Variable counter : Calendar.Stat -> nat.
Variable counts : string -> bool.
Hypothesis counter_step :
  forall st ws,
    counter (Calendar.countDay st ws)
    = counter ws + (if counts st then 1 else 0).

Lemma gridLoop_tally :
  forall remaining i dayNum g,
    1 <= dayNum ->
    i = blanks + dayNum - 1 ->
    List.length (Calendar.weekdayStats g) = 7 ->
    let final := Calendar.gridLoop dayMap daysInMonth remaining i dayNum g in
    List.length (Calendar.weekdayStats final) = 7
    /\ forall w,
         counter (nth w (Calendar.weekdayStats final) Calendar.emptyStat)
         = counter (nth w (Calendar.weekdayStats g) Calendar.emptyStat)
           + List.length (filter (Calendar.tallied dayMap blanks counts w) (seq dayNum remaining)).
Proof.
  induction remaining as [|remaining IH]; intros i dayNum g Hd Hi Hl.
  - simpl. split; [exact Hl|]. intro w. lia.
  - rewrite gridLoop_step. cbv zeta.
    pose proof (Nat.mod_upper_bound i 7 ltac:(discriminate)) as Hm.
    set (stats1 := match dayMap (Z.of_nat dayNum) with
                   | Some d => Calendar.updateAt (i mod 7)
                                 (Calendar.countDay (Calendar.state d))
                                 (Calendar.weekdayStats g)
                   | None => Calendar.weekdayStats g
                   end).
    assert (L1 : List.length stats1 = 7).
    { unfold stats1. destruct (dayMap (Z.of_nat dayNum));
        [rewrite updateAt_length|]; exact Hl. }
    assert (N1 : forall w,
               counter (nth w stats1 Calendar.emptyStat)
               = counter (nth w (Calendar.weekdayStats g) Calendar.emptyStat)
                 + (if Calendar.tallied dayMap blanks counts w dayNum then 1 else 0)).
    { intro w. unfold stats1, Calendar.tallied, Calendar.weekdayOf.
      rewrite <- Hi.
      destruct (dayMap (Z.of_nat dayNum)) as [e|]; [|lia].
      rewrite updateAt_nth by lia. rewrite (Nat.eqb_sym (i mod 7) w).
      destruct (w =? i mod 7); [|simpl; lia].
      rewrite counter_step. simpl. reflexivity. }
    set (g2 := if (i mod 7 =? 6) || (daysInMonth <? S dayNum) then _ else _).
    assert (S2 : Calendar.weekdayStats g2 = stats1).
    { unfold g2. destruct ((i mod 7 =? 6) || (daysInMonth <? S dayNum)); reflexivity. }
    destruct (IH (S i) (S dayNum) g2) as [Lf Nf].
    { lia. }
    { lia. }
    { rewrite S2. exact L1. }
    split; [exact Lf|]. intro w. rewrite Nf, S2, N1.
    cbn [seq filter]. destruct (Calendar.tallied dayMap blanks counts w dayNum); cbn [List.length]; lia.
Qed.

End CalendarStats.

(** The counters of every weekday stay consistent. *)
Lemma gridLoop_consistent (dayMap : Calendar.DayMap) (daysInMonth : nat) :
  forall remaining i dayNum g,
    Forall (fun ws => (Calendar.high ws + Calendar.medium ws + Calendar.low ws
                       <= Calendar.count ws)%nat
                      /\ Calendar.total ws = O) (Calendar.weekdayStats g) ->
    Forall (fun ws => (Calendar.high ws + Calendar.medium ws + Calendar.low ws
                       <= Calendar.count ws)%nat
                      /\ Calendar.total ws = O)
           (Calendar.weekdayStats
              (Calendar.gridLoop dayMap daysInMonth remaining i dayNum g)).
Proof.
  induction remaining as [|remaining IH]; intros i dayNum g H; [exact H|].
  rewrite gridLoop_step. cbv zeta. apply IH.
  destruct ((i mod 7 =? 6) || (daysInMonth <? S dayNum))%nat;
    cbn [Calendar.weekdayStats];
    (destruct (dayMap (Z.of_nat dayNum)) as [e|]; [|exact H]);
    (apply updateAt_Forall; [|exact H]);
    intros ws [A B]; unfold Calendar.countDay; simpl;
    pose proof (flag_sum (Calendar.state e)); split; lia.
Qed.

Lemma weekdayScore_range (ws : Calendar.Stat) :
  (Calendar.high ws + Calendar.medium ws + Calendar.low ws <= Calendar.count ws)%nat ->
  Calendar.count ws <> O ->
  (0 <= Calendar.weekdayScore ws <= 100)%Z.
Proof.
  intros H N. unfold Calendar.weekdayScore.
  set (h := Calendar.high ws) in *. set (m := Calendar.medium ws) in *.
  set (l := Calendar.low ws) in *. set (c := Calendar.count ws) in *.
  assert (Pc : 0 < ofNat c) by (apply ofNat_pos; exact N).
  assert (Nn : forall k, 0 <= ofNat k).
  { intro k. unfold ofNat. change 0 with (inject_Z 0). rewrite <- Zle_Qle. lia. }
  pose proof (Nn h) as Ph. pose proof (Nn m) as Pm. pose proof (Nn l) as Pl.
  assert (Le : ofNat h + ofNat m + ofNat l <= ofNat c).
  { unfold ofNat. rewrite <- !inject_Z_plus, <- Zle_Qle. lia. }
  set (x := (ofNat h * 100 + ofNat m * 50 + ofNat l * 17) / ofNat c).
  assert (X0 : 0 <= x).
  { unfold x. apply Qle_shift_div_l; [exact Pc|]. lra. }
  assert (X100 : x <= 100).
  { unfold x. apply Qle_shift_div_r; [exact Pc|]. lra. }
  split.
  - apply (roundZ_mono 0 x X0).
  - apply (roundZ_mono x 100 X100).
Qed.

(** X16. After the loop over the month, the entry of each weekday counts
    the days of the month that have data and fall on that weekday, day [d]
    falling on weekday [(blanks + d - 1) mod 7] counted from Monday; its
    high, medium and low counters count those of these days in the
    respective state, so together they never exceed the count, and the
    weekday score of a weekday with data lies between 0 and 100. *)
Theorem calendar_weekday_stats :
  forall parseInt days daysInMonth firstDayOfWeek w,
    (firstDayOfWeek < 7)%nat ->
    (w < 7)%nat ->
    let rep := Calendar.calendar parseInt days daysInMonth firstDayOfWeek in
    let blanks := Calendar.monBased firstDayOfWeek in
    let dayMap := Calendar.buildDayMap parseInt days in
    let ws := nth w (Calendar.stats rep) Calendar.emptyStat in
    List.length (Calendar.stats rep) = 7%nat
    /\ Calendar.count ws
       = List.length (Calendar.daysOnWeekday dayMap daysInMonth blanks w)
    /\ Calendar.high ws
       = List.length (Calendar.daysInState dayMap daysInMonth blanks w "HIGH_RECOVERY")
    /\ Calendar.medium ws
       = List.length (Calendar.daysInState dayMap daysInMonth blanks w "MEDIUM_RECOVERY")
    /\ Calendar.low ws
       = List.length (Calendar.daysInState dayMap daysInMonth blanks w "LOW_RECOVERY")
    /\ (Calendar.high ws + Calendar.medium ws + Calendar.low ws
        <= Calendar.count ws)%nat
    /\ (Calendar.count ws <> O -> (0 <= Calendar.weekdayScore ws <= 100)%Z).
Proof.
  intros parseInt days n fdow w Hf Hw rep blanks dayMap ws.
  set (g0 := {| Calendar.weekLine := repeat Calendar.Pad blanks;
                Calendar.lines := [];
                Calendar.weekdayStats := repeat Calendar.emptyStat 7 |}).
  assert (Stats : Calendar.stats rep
                  = Calendar.weekdayStats
                      (Calendar.gridLoop dayMap n n blanks 1 g0)) by reflexivity.
  assert (Tally : forall (counter : Calendar.Stat -> nat) (counts : string -> bool),
            (forall st s, counter (Calendar.countDay st s)
                          = (counter s + (if counts st then 1 else 0))%nat) ->
            counter Calendar.emptyStat = O ->
            counter ws
            = List.length (filter (Calendar.tallied dayMap blanks counts w) (seq 1 n))).
  { intros counter counts Hstep H0.
    destruct (gridLoop_tally dayMap n blanks counter counts Hstep n blanks 1 g0)
      as [_ T]; try lia; [reflexivity|].
    unfold ws. rewrite Stats, T. cbn [g0 Calendar.weekdayStats].
    rewrite nth_repeat, H0. reflexivity. }
  assert (InState : forall st,
            List.length (Calendar.daysInState dayMap n blanks w st)
            = List.length (filter (Calendar.tallied dayMap blanks (String.eqb st) w) (seq 1 n))).
  { intro st. unfold Calendar.daysInState, Calendar.daysOnWeekday,
      Calendar.daysWithData. rewrite !filter_filter. f_equal.
    apply filter_ext. intro d. unfold Calendar.tallied.
    destruct (dayMap (Z.of_nat d)) as [e|]; simpl; [|reflexivity].
    rewrite (String.eqb_sym st). reflexivity. }
  assert (Flag : forall st name,
            Calendar.flag st name = if String.eqb name st then 1%nat else O).
  { intros st name. unfold Calendar.flag. rewrite (String.eqb_sym name).
    reflexivity. }
  split; [|split; [|split; [|split; [|split; [|split]]]]].
  - rewrite Stats.
    destruct (gridLoop_tally dayMap n blanks Calendar.count (fun _ => true)
                ltac:(intros; simpl; lia) n blanks 1 g0) as [L _];
      [lia|lia|reflexivity|exact L].
  - rewrite (Tally Calendar.count (fun _ => true)); [|intros; simpl; lia|reflexivity].
    unfold Calendar.daysOnWeekday, Calendar.daysWithData. rewrite filter_filter.
    f_equal. apply filter_ext. intro d. unfold Calendar.tallied.
    destruct (dayMap (Z.of_nat d)); simpl; [|reflexivity].
    rewrite andb_true_r. reflexivity.
  - rewrite InState. apply Tally; [|reflexivity].
    intros st s. simpl. rewrite Flag. reflexivity.
  - rewrite InState. apply Tally; [|reflexivity].
    intros st s. simpl. rewrite Flag. reflexivity.
  - rewrite InState. apply Tally; [|reflexivity].
    intros st s. simpl. rewrite Flag. reflexivity.
  - pose proof (gridLoop_consistent dayMap n n blanks 1 g0) as C.
    rewrite <- Stats in C.
    assert (C0 : Forall (fun s => (Calendar.high s + Calendar.medium s + Calendar.low s
                                   <= Calendar.count s)%nat /\ Calendar.total s = O)
                        (Calendar.weekdayStats g0)).
    { cbn [g0 Calendar.weekdayStats]. apply Forall_forall. intros s Hs.
      apply repeat_spec in Hs. subst s. simpl. split; lia. }
    specialize (C C0). rewrite Forall_forall in C.
    destruct (nth_in_or_default w (Calendar.stats rep) Calendar.emptyStat) as [I|D].
    + apply (C _ I).
    + unfold ws. rewrite D. simpl. lia.
  - intro N. apply weekdayScore_range; [|exact N].
    pose proof (gridLoop_consistent dayMap n n blanks 1 g0) as C.
    rewrite <- Stats in C.
    assert (C0 : Forall (fun s => (Calendar.high s + Calendar.medium s + Calendar.low s
                                   <= Calendar.count s)%nat /\ Calendar.total s = O)
                        (Calendar.weekdayStats g0)).
    { cbn [g0 Calendar.weekdayStats]. apply Forall_forall. intros s Hs.
      apply repeat_spec in Hs. subst s. simpl. split; lia. }
    specialize (C C0). rewrite Forall_forall in C.
    destruct (nth_in_or_default w (Calendar.stats rep) Calendar.emptyStat) as [I|D].
    + apply (C _ I).
    + unfold ws. rewrite D. simpl. lia.
Qed.

Lemma calendar_weekday_stats_witness :
  Calendar.count
    (nth 3 (Calendar.stats (Calendar.calendar Calendar.parseDay Calendar.sampleDays 30 4))
         Calendar.emptyStat)
  = List.length
      (Calendar.daysOnWeekday
         (Calendar.buildDayMap Calendar.parseDay Calendar.sampleDays) 30 3 3).
Proof.
  destruct (calendar_weekday_stats Calendar.parseDay Calendar.sampleDays 30 4 3)
    as (_ & C & _); [lia|lia|exact C].
Defined.

(* ------------------------------------------------------------------ *)
(** ** The day map and the summary of the calendar *)

Lemma summarize_loop (days : list Calendar.Day) :
  forall sm,
    let sm' := fold_left Calendar.summaryStep days sm in
    Calendar.totalDays sm'
    = (Calendar.totalDays sm + List.length (filter Calendar.has_data days))%nat
    /\ Calendar.greenCount sm'
       = (Calendar.greenCount sm
          + List.length (Calendar.withState "HIGH_RECOVERY" days))%nat
    /\ Calendar.yellowCount sm'
       = (Calendar.yellowCount sm
          + List.length (Calendar.withState "MEDIUM_RECOVERY" days))%nat
    /\ Calendar.redCount sm'
       = (Calendar.redCount sm
          + List.length (Calendar.withState "LOW_RECOVERY" days))%nat
    /\ ((Calendar.greenCount sm + Calendar.yellowCount sm + Calendar.redCount sm
         <= Calendar.totalDays sm)%nat ->
        (Calendar.greenCount sm' + Calendar.yellowCount sm' + Calendar.redCount sm'
         <= Calendar.totalDays sm')%nat).
Proof.
  induction days as [|day days IH]; intro sm.
  - simpl. repeat split; lia.
  - cbn zeta. cbn [fold_left].
    destruct (IH (Calendar.summaryStep sm day)) as (T & G & Y & R & C).
    rewrite T, G, Y, R. unfold Calendar.withState, Calendar.summaryStep in *.
    cbn [filter].
    pose proof (flag_sum (Calendar.day_state day)) as F.
    unfold Calendar.flag in *.
    destruct (Calendar.has_data day);
      cbn [Calendar.totalDays Calendar.greenCount Calendar.yellowCount
           Calendar.redCount andb] in *.
    + destruct (String.eqb (Calendar.day_state day) "HIGH_RECOVERY");
        destruct (String.eqb (Calendar.day_state day) "MEDIUM_RECOVERY");
        destruct (String.eqb (Calendar.day_state day) "LOW_RECOVERY");
        cbn [List.length]; repeat split; try lia; try (intro H; apply C; lia).
    + repeat split; try lia; try exact C.
Qed.

Section CalendarMap.

Variable parseInt : string -> option Z.

Lemma mapStep_lookup (m : Calendar.DayMap) (day : Calendar.Day) (k : Z) :
  Calendar.mapStep parseInt m day k
  = if Calendar.has_data day
    then match parseInt (Calendar.date_value_display day) with
         | Some num =>
             if (k =? num)%Z
             then Some {| Calendar.state := Calendar.day_state day;
                          Calendar.cycleId := Calendar.cycle_id day |}
             else m k
         | None => m k
         end
    else m k.
Proof.
  unfold Calendar.mapStep, Calendar.setDay.
  destruct (parseInt (Calendar.date_value_display day));
    destruct (Calendar.has_data day); reflexivity.
Qed.

(** The entry under [k] after the loop: that of the last day that feeds
    [k], or the one the map had. *)
Lemma buildDayMap_loop (days : list Calendar.Day) (k : Z) :
  forall m,
    ((forall day, In day days -> ~ Calendar.feeds parseInt k day)
     /\ fold_left (Calendar.mapStep parseInt) days m k = m k)
    \/ (exists before day after,
          days = before ++ day :: after
          /\ Calendar.feeds parseInt k day
          /\ (forall later, In later after -> ~ Calendar.feeds parseInt k later)
          /\ fold_left (Calendar.mapStep parseInt) days m k
             = Some {| Calendar.state := Calendar.day_state day;
                       Calendar.cycleId := Calendar.cycle_id day |}).
Proof.
  induction days as [|day days IH]; intro m.
  - left. split; [intros d []|reflexivity].
  - cbn [fold_left].
    destruct (IH (Calendar.mapStep parseInt m day))
      as [[No Eq] | (before & d & after & E & F & L & Eq)].
    + rewrite Eq, mapStep_lookup.
      destruct (Calendar.has_data day) eqn:H.
      * destruct (parseInt (Calendar.date_value_display day)) as [num|] eqn:P.
        -- destruct (k =? num)%Z eqn:K.
           ++ apply Z.eqb_eq in K. subst num. right.
              exists [], day, days. repeat split; auto.
           ++ apply Z.eqb_neq in K. left. split; [|reflexivity].
              intros d [<- | Hd]; [|apply No; exact Hd].
              intros [_ Q]. rewrite P in Q. injection Q as Q. congruence.
        -- left. split; [|reflexivity].
           intros d [<- | Hd]; [|apply No; exact Hd].
           intros [_ Q]. congruence.
      * left. split; [|reflexivity].
        intros d [<- | Hd]; [|apply No; exact Hd].
        intros [Q _]. congruence.
    + right. exists (day :: before), d, after. subst days. repeat split; auto.
      apply F. apply F.
Qed.

Lemma matches_at_most_once (k : Z) (ds : list nat) :
  NoDup ds ->
  (List.length (filter (fun d => (Z.of_nat d =? k)%Z) ds) <= 1)%nat.
Proof.
  induction ds as [|d ds IH]; intro N; [simpl; lia|].
  inversion N as [|? ? Nd Nds]; subst. cbn [filter].
  destruct (Z.of_nat d =? k)%Z eqn:E; [|apply IH; exact Nds].
  apply Z.eqb_eq in E.
  destruct (filter (fun d' => (Z.of_nat d' =? k)%Z) ds) as [|x xs] eqn:Fl;
    [simpl; lia|].
  exfalso. assert (I : In x (filter (fun d' => (Z.of_nat d' =? k)%Z) ds))
    by (rewrite Fl; left; reflexivity).
  apply filter_In in I. destruct I as [I K]. apply Z.eqb_eq in K.
  assert (x = d) by lia. subst x. contradiction.
Qed.

(** One [set] marks at most one more day of the month. *)
Lemma setDay_marks_one (m : Calendar.DayMap) (k : Z) (v : Calendar.Entry)
    (ds : list nat) :
  (List.length (filter (Calendar.hasEntry (Calendar.setDay m k v)) ds)
   <= List.length (filter (Calendar.hasEntry m) ds)
      + List.length (filter (fun d => (Z.of_nat d =? k)%Z) ds))%nat.
Proof.
  assert (A : forall d,
            Calendar.hasEntry (Calendar.setDay m k v) d
            = ((Z.of_nat d =? k)%Z || Calendar.hasEntry m d)%bool).
  { intro d. unfold Calendar.hasEntry, Calendar.setDay.
    destruct (Z.of_nat d =? k)%Z; reflexivity. }
  induction ds as [|d ds IH]; [simpl; lia|].
  cbn [filter]. rewrite A.
  destruct (Z.of_nat d =? k)%Z; destruct (Calendar.hasEntry m d);
    cbn [orb List.length]; lia.
Qed.

Lemma buildDayMap_marks (days : list Calendar.Day) (ds : list nat) :
  NoDup ds ->
  forall m,
    (List.length (filter (Calendar.hasEntry (fold_left (Calendar.mapStep parseInt) days m)) ds)
     <= List.length (filter (Calendar.hasEntry m) ds)
        + List.length (filter Calendar.has_data days))%nat.
Proof.
  intro N. induction days as [|day days IH]; intro m; [simpl; lia|].
  cbn [fold_left filter]. specialize (IH (Calendar.mapStep parseInt m day)).
  unfold Calendar.mapStep in *.
  destruct (parseInt (Calendar.date_value_display day)) as [num|];
    destruct (Calendar.has_data day); cbn [List.length]; try lia.
  pose proof (setDay_marks_one m num
                {| Calendar.state := Calendar.day_state day;
                   Calendar.cycleId := Calendar.cycle_id day |} ds) as A.
  pose proof (matches_at_most_once num ds N) as B. lia.
Qed.

End CalendarMap.

(** X17. The summary line counts the entries of the answer that have data,
    and among them those in the green, yellow and red state, which together
    never exceed the total.  The grid looks a day up in a map that keeps,
    for each day number, the last entry with data whose display parses to
    it; so the days the grid marks are never more than the total of the
    summary, and fewer when two entries share a day number or an entry
    parses to no day of the month. *)
Theorem calendar_summary_and_map :
  forall parseInt days daysInMonth firstDayOfWeek,
    let rep := Calendar.calendar parseInt days daysInMonth firstDayOfWeek in
    let sm := Calendar.summary rep in
    let dayMap := Calendar.buildDayMap parseInt days in
    Calendar.totalDays sm = List.length (filter Calendar.has_data days)
    /\ Calendar.greenCount sm = List.length (Calendar.withState "HIGH_RECOVERY" days)
    /\ Calendar.yellowCount sm = List.length (Calendar.withState "MEDIUM_RECOVERY" days)
    /\ Calendar.redCount sm = List.length (Calendar.withState "LOW_RECOVERY" days)
    /\ (Calendar.greenCount sm + Calendar.yellowCount sm + Calendar.redCount sm
        <= Calendar.totalDays sm)%nat
    /\ (forall k,
          dayMap k = None
          <-> forall day, In day days -> ~ Calendar.feeds parseInt k day)
    /\ (forall k e,
          dayMap k = Some e
          <-> exists before day after,
                days = before ++ day :: after
                /\ Calendar.feeds parseInt k day
                /\ (forall later, In later after -> ~ Calendar.feeds parseInt k later)
                /\ e = {| Calendar.state := Calendar.day_state day;
                          Calendar.cycleId := Calendar.cycle_id day |})
    /\ (List.length (Calendar.daysWithData dayMap daysInMonth)
        <= Calendar.totalDays sm)%nat.
Proof.
  intros parseInt days n fdow rep sm dayMap.
  destruct (summarize_loop days
              {| Calendar.greenCount := O; Calendar.yellowCount := O;
                 Calendar.redCount := O; Calendar.totalDays := O |})
    as (T & G & Y & R & C).
  cbv zeta in T, G, Y, R, C. simpl in T, G, Y, R.
  change (fold_left Calendar.summaryStep days _) with sm in T, G, Y, R, C.
  split; [exact T|]. split; [exact G|]. split; [exact Y|]. split; [exact R|].
  split; [apply C; simpl; lia|].
  assert (Look : forall k,
            ((forall day, In day days -> ~ Calendar.feeds parseInt k day)
             /\ dayMap k = None)
            \/ (exists before day after,
                  days = before ++ day :: after
                  /\ Calendar.feeds parseInt k day
                  /\ (forall later, In later after -> ~ Calendar.feeds parseInt k later)
                  /\ dayMap k
                     = Some {| Calendar.state := Calendar.day_state day;
                               Calendar.cycleId := Calendar.cycle_id day |})).
  { intro k. apply (buildDayMap_loop parseInt days k Calendar.emptyMap). }
  split; [|split].
  - intro k. destruct (Look k) as [[No E] | (b & d & a & E & F & L & Eq)].
    + split; auto.
    + rewrite Eq. split; [discriminate|]. intro No. exfalso.
      apply (No d); [|exact F]. subst days. apply in_or_app. right. left. reflexivity.
  - intros k e. destruct (Look k) as [[No E] | (b & d & a & E & F & L & Eq)].
    + rewrite E. split; [discriminate|].
      intros (b & d & a & Ed & F & _). exfalso.
      apply (No d); [|exact F]. subst days. apply in_or_app. right. left. reflexivity.
    + rewrite Eq. split.
      * intro H. injection H as <-. exists b, d, a. auto.
      * intros (b' & d' & a' & E' & F' & L' & ->).
        assert (Same : d' = d).
        { clear - E E' F F' L L'. subst days. revert b' E'.
          induction b as [|x b IH]; intros [|y b'] E'.
          - injection E' as E1 _. symmetry. exact E1.
          - simpl in E'. injection E' as <- ->. exfalso.
            apply (L d'); [|exact F']. apply in_or_app. right. left. reflexivity.
          - simpl in E'. injection E' as -> <-. exfalso.
            apply (L' d); [|exact F]. apply in_or_app. right. left. reflexivity.
          - simpl in E'. injection E' as _ E'. apply (IH b' E'). }
        subst d'. reflexivity.
  - rewrite T. unfold Calendar.daysWithData.
    pose proof (buildDayMap_marks parseInt days (seq 1 n) (seq_NoDup n 1)
                  Calendar.emptyMap) as M.
    assert (Z0 : forall ds, filter (Calendar.hasEntry Calendar.emptyMap) ds = []).
    { intro ds. induction ds; [reflexivity|simpl; assumption]. }
    rewrite Z0 in M. exact M.
Qed.

(* ------------------------------------------------------------------ *)
(** ** The best and the worst weekday *)

Section WeekdayPattern.

Local Open Scope Z_scope.

Lemma insertByScore_In (x z : Calendar.WeekdayScore) (s : list Calendar.WeekdayScore) :
  In z (Calendar.insertByScore x s) <-> z = x \/ In z s.
Proof.
  induction s as [|y s IH]; simpl.
  - intuition.
  - destruct (Calendar.score x <=? Calendar.score y); simpl; [intuition|].
    rewrite IH. intuition.
Qed.

Lemma sortByScore_In (z : Calendar.WeekdayScore) (l : list Calendar.WeekdayScore) :
  In z (Calendar.sortByScore l) <-> In z l.
Proof.
  induction l as [|x l IH]; simpl; [reflexivity|].
  rewrite insertByScore_In, IH. intuition.
Qed.

Lemma insertByScore_length (x : Calendar.WeekdayScore) (s : list Calendar.WeekdayScore) :
  List.length (Calendar.insertByScore x s) = S (List.length s).
Proof.
  induction s as [|y s IH]; simpl; [reflexivity|].
  destruct (Calendar.score x <=? Calendar.score y); simpl; [reflexivity|].
  rewrite IH. reflexivity.
Qed.

Lemma sortByScore_length (l : list Calendar.WeekdayScore) :
  List.length (Calendar.sortByScore l) = List.length l.
Proof.
  induction l as [|x l IH]; simpl; [reflexivity|].
  rewrite insertByScore_length, IH. reflexivity.
Qed.

Lemma insertByScore_head (x d : Calendar.WeekdayScore) (s : list Calendar.WeekdayScore) :
  hd d (Calendar.insertByScore x s)
  = match s with
    | [] => x
    | y :: _ => if Calendar.score x <=? Calendar.score y then x else y
    end.
Proof.
  destruct s as [|y s]; simpl; [reflexivity|].
  destruct (Calendar.score x <=? Calendar.score y); reflexivity.
Qed.

Lemma insertByScore_last_new (x d : Calendar.WeekdayScore)
    (s : list Calendar.WeekdayScore) :
  (forall y, In y s -> Calendar.score y < Calendar.score x) ->
  last (Calendar.insertByScore x s) d = x.
Proof.
  induction s as [|y s IH]; intro H; [reflexivity|].
  cbn [Calendar.insertByScore].
  assert (Hy : Calendar.score y < Calendar.score x) by (apply H; left; reflexivity).
  assert (E : (Calendar.score x <=? Calendar.score y) = false)
    by (apply Z.leb_gt; exact Hy).
  rewrite E.
  assert (N : Calendar.insertByScore x s <> []).
  { intro C. apply (f_equal (@List.length _)) in C.
    rewrite insertByScore_length in C. discriminate. }
  destruct (Calendar.insertByScore x s) as [|z zs] eqn:I; [contradiction|].
  change (last (y :: z :: zs) d) with (last (z :: zs) d).
  apply IH. intros y' Hy'. apply H. right. exact Hy'.
Qed.

Lemma insertByScore_last_old (x d : Calendar.WeekdayScore)
    (s : list Calendar.WeekdayScore) :
  (exists y, In y s /\ Calendar.score x <= Calendar.score y) ->
  last (Calendar.insertByScore x s) d = last s d.
Proof.
  induction s as [|y s IH]; intros (y0 & I & L); [destruct I|].
  cbn [Calendar.insertByScore].
  destruct (Calendar.score x <=? Calendar.score y) eqn:E.
  - reflexivity.
  - apply Z.leb_gt in E.
    destruct I as [<- | I]; [lia|].
    assert (N : Calendar.insertByScore x s <> []).
    { intro C. apply (f_equal (@List.length _)) in C.
      rewrite insertByScore_length in C. discriminate. }
    destruct (Calendar.insertByScore x s) as [|z zs] eqn:Ins; [contradiction|].
    destruct s as [|s0 s']; [destruct I|].
    change (last (y :: z :: zs) d) with (last (z :: zs) d).
    change (last (y :: s0 :: s') d) with (last (s0 :: s') d).
    apply IH. exists y0. split; assumption.
Qed.

Lemma firstMin_worst (x : Calendar.WeekdayScore) (l : list Calendar.WeekdayScore) :
  Calendar.isWorst (x :: l) (Calendar.firstMin x l).
Proof.
  revert x. induction l as [|y l IH]; intro x.
  - exists [], []. simpl. intuition.
  - cbn [Calendar.firstMin]. cbv zeta.
    destruct (IH y) as (before & after & E & B & A).
    set (m := Calendar.firstMin y l) in *.
    destruct (Calendar.score x <=? Calendar.score m) eqn:C.
    + apply Z.leb_le in C. exists [], (y :: l). split; [reflexivity|].
      split; [intros z []|].
      intros z Hz. rewrite E in Hz. apply in_app_or in Hz.
      destruct Hz as [Hz | [<- | Hz]].
      * specialize (B z Hz). lia.
      * exact C.
      * specialize (A z Hz). lia.
    + apply Z.leb_gt in C. exists (x :: before), after. rewrite E.
      split; [reflexivity|]. split; [|exact A].
      intros z [<- | Hz]; [exact C | apply B; exact Hz].
Qed.

Lemma lastMax_best (x : Calendar.WeekdayScore) (l : list Calendar.WeekdayScore) :
  Calendar.isBest (x :: l) (Calendar.lastMax x l).
Proof.
  revert x. induction l as [|y l IH]; intro x.
  - exists [], []. simpl. intuition.
  - cbn [Calendar.lastMax]. cbv zeta.
    destruct (IH y) as (before & after & E & B & A).
    set (m := Calendar.lastMax y l) in *.
    destruct (Calendar.score m <? Calendar.score x) eqn:C.
    + apply Z.ltb_lt in C. exists [], (y :: l). split; [reflexivity|].
      split; [intros z []|].
      intros z Hz. rewrite E in Hz. apply in_app_or in Hz.
      destruct Hz as [Hz | [<- | Hz]].
      * specialize (B z Hz). lia.
      * exact C.
      * specialize (A z Hz). lia.
    + apply Z.ltb_ge in C. exists (x :: before), after. rewrite E.
      split; [reflexivity|]. split; [|exact A].
      intros z [<- | Hz]; [exact C | apply B; exact Hz].
Qed.

Lemma isBest_bounds (l : list Calendar.WeekdayScore) (b : Calendar.WeekdayScore) :
  Calendar.isBest l b ->
  In b l /\ forall y, In y l -> Calendar.score y <= Calendar.score b.
Proof.
  intros (before & after & E & B & A). subst l. split.
  - apply in_or_app. right. left. reflexivity.
  - intros y Hy. apply in_app_or in Hy. destruct Hy as [Hy | [<- | Hy]].
    + apply B. exact Hy.
    + lia.
    + specialize (A y Hy). lia.
Qed.

Lemma isWorst_bounds (l : list Calendar.WeekdayScore) (w : Calendar.WeekdayScore) :
  Calendar.isWorst l w ->
  In w l /\ forall y, In y l -> Calendar.score w <= Calendar.score y.
Proof.
  intros (before & after & E & B & A). subst l. split.
  - apply in_or_app. right. left. reflexivity.
  - intros y Hy. apply in_app_or in Hy. destruct Hy as [Hy | [<- | Hy]].
    + specialize (B y Hy). lia.
    + lia.
    + apply A. exact Hy.
Qed.

(** The first and the last entry of the sorted list. *)
Lemma sortByScore_ends (x d : Calendar.WeekdayScore) (l : list Calendar.WeekdayScore) :
  hd d (Calendar.sortByScore (x :: l)) = Calendar.firstMin x l
  /\ last (Calendar.sortByScore (x :: l)) d = Calendar.lastMax x l.
Proof.
  revert x. induction l as [|y l IH]; intro x; [split; reflexivity|].
  destruct (IH y) as [Hh Hl].
  change (Calendar.sortByScore (x :: y :: l))
    with (Calendar.insertByScore x (Calendar.sortByScore (y :: l))).
  cbn [Calendar.firstMin Calendar.lastMax]. cbv zeta. split.
  - rewrite insertByScore_head.
    destruct (Calendar.sortByScore (y :: l)) as [|z zs] eqn:S0.
    + exfalso. apply (f_equal (@List.length _)) in S0.
      rewrite sortByScore_length in S0. discriminate.
    + simpl in Hh. rewrite Hh. reflexivity.
  - destruct (isBest_bounds _ _ (lastMax_best y l)) as [Im Mx].
    destruct (Calendar.score (Calendar.lastMax y l) <? Calendar.score x) eqn:C.
    + apply Z.ltb_lt in C. apply insertByScore_last_new.
      intros z Hz. apply (proj1 (sortByScore_In _ _)) in Hz.
      specialize (Mx z Hz). lia.
    + apply Z.ltb_ge in C. rewrite insertByScore_last_old; [exact Hl|].
      exists (Calendar.lastMax y l). split; [|exact C].
      apply sortByScore_In. exact Im.
Qed.

Lemma nth_error_ends (d : Calendar.WeekdayScore) (s : list Calendar.WeekdayScore) :
  s <> [] ->
  nth_error s 0 = Some (hd d s)
  /\ nth_error s (List.length s - 1) = Some (last s d).
Proof.
  intro N. destruct s as [|x s]; [contradiction|]. split; [reflexivity|].
  clear N. revert x. induction s as [|y s IH]; intro x; [reflexivity|].
  change (last (x :: y :: s) d) with (last (y :: s) d).
  rewrite <- (IH y). simpl. rewrite Nat.sub_0_r. reflexivity.
Qed.

Lemma isWorst_unique (l : list Calendar.WeekdayScore) (w w' : Calendar.WeekdayScore) :
  Calendar.isWorst l w -> Calendar.isWorst l w' -> w = w'.
Proof.
  intros (b & a & E & B & A) (b' & a' & E' & B' & A'). subst l.
  revert b' E' B'. induction b as [|x b IH]; intros [|y b'] E' B'.
  - injection E' as E1 _. exact E1.
  - simpl in E'. injection E' as <- ->.
    assert (H1 : Calendar.score w' < Calendar.score w) by (apply B'; left; reflexivity).
    assert (H2 : Calendar.score w <= Calendar.score w').
    { apply A. apply in_or_app. right. left. reflexivity. }
    lia.
  - simpl in E'. injection E' as -> <-.
    assert (H1 : Calendar.score w < Calendar.score w') by (apply B; left; reflexivity).
    assert (H2 : Calendar.score w' <= Calendar.score w).
    { apply A'. apply in_or_app. right. left. reflexivity. }
    lia.
  - simpl in E'. injection E' as _ E'. apply (IH ltac:(intros z Hz; apply B; right; exact Hz) b' E').
    intros z Hz. apply B'. right. exact Hz.
Qed.

Lemma isBest_unique (l : list Calendar.WeekdayScore) (b0 b1 : Calendar.WeekdayScore) :
  Calendar.isBest l b0 -> Calendar.isBest l b1 -> b0 = b1.
Proof.
  intros (b & a & E & B & A) (b' & a' & E' & B' & A'). subst l.
  revert b' E' B'. induction b as [|x b IH]; intros [|y b'] E' B'.
  - injection E' as E1 _. exact E1.
  - simpl in E'. injection E' as <- ->.
    assert (H1 : Calendar.score b0 <= Calendar.score b1) by (apply B'; left; reflexivity).
    assert (H2 : Calendar.score b1 < Calendar.score b0).
    { apply A. apply in_or_app. right. left. reflexivity. }
    lia.
  - simpl in E'. injection E' as -> <-.
    assert (H1 : Calendar.score b1 <= Calendar.score b0) by (apply B; left; reflexivity).
    assert (H2 : Calendar.score b0 < Calendar.score b1).
    { apply A'. apply in_or_app. right. left. reflexivity. }
    lia.
  - simpl in E'. injection E' as _ E'. apply (IH ltac:(intros z Hz; apply B; right; exact Hz) b' E').
    intros z Hz. apply B'. right. exact Hz.
Qed.

(** What [weekdayPattern] answers on a list that is not empty. *)
Lemma weekdayPattern_cons (x : Calendar.WeekdayScore) (l : list Calendar.WeekdayScore) :
  Calendar.weekdayPattern (x :: l)
  = if (5 <=? List.length (x :: l))%nat
    then if 15 <? Calendar.score (Calendar.lastMax x l)
                  - Calendar.score (Calendar.firstMin x l)
         then Some {| Calendar.best := Calendar.lastMax x l;
                      Calendar.worst := Calendar.firstMin x l |}
         else None
    else None.
Proof.
  unfold Calendar.weekdayPattern.
  destruct (5 <=? List.length (x :: l))%nat; [|reflexivity]. cbv zeta.
  assert (N : Calendar.sortByScore (x :: l) <> []).
  { intro C. apply (f_equal (@List.length _)) in C.
    rewrite sortByScore_length in C. discriminate. }
  destruct (nth_error_ends x _ N) as [H0 H1]. rewrite H0, H1.
  destruct (sortByScore_ends x x l) as [Eh El]. rewrite Eh, El. reflexivity.
Qed.

End WeekdayPattern.

Lemma scoresFrom_In (stats : list Calendar.Stat) :
  forall i s,
    In s (Calendar.scoresFrom i stats)
    <-> exists w,
          (w < List.length stats)%nat
          /\ Calendar.count (nth w stats Calendar.emptyStat) <> O
          /\ s = Calendar.scoreEntry (i + w) (nth w stats Calendar.emptyStat).
Proof.
  induction stats as [|ws stats IH]; intros i s.
  - simpl. split; [intros []|]. intros (w & H & _). lia.
  - cbn [Calendar.scoresFrom].
    assert (Shift : (exists w, (w < List.length stats)%nat
                       /\ Calendar.count (nth w stats Calendar.emptyStat) <> O
                       /\ s = Calendar.scoreEntry (S i + w) (nth w stats Calendar.emptyStat))
                    <-> (exists w, (0 < w < List.length (ws :: stats))%nat
                           /\ Calendar.count (nth w (ws :: stats) Calendar.emptyStat) <> O
                           /\ s = Calendar.scoreEntry (i + w)
                                    (nth w (ws :: stats) Calendar.emptyStat))).
    { split.
      - intros (w & L & C & E). exists (S w). cbn [nth List.length].
        split; [lia|]. split; [exact C|].
        rewrite E. f_equal. lia.
      - intros ([|w] & L & C & E); [lia|]. exists w. cbn [nth List.length] in *.
        split; [lia|]. split; [exact C|]. rewrite E. f_equal. lia. }
    destruct (Calendar.count ws =? 0)%nat eqn:Z.
    + apply Nat.eqb_eq in Z. rewrite IH, Shift. split.
      * intros (w & L & C & E). exists w. split; [lia|]. auto.
      * intros ([|w] & L & C & E); [simpl in C; contradiction|].
        exists (S w). split; [cbn [List.length] in *; lia|]. auto.
    + apply Nat.eqb_neq in Z. cbn [In]. rewrite IH, Shift. split.
      * intros [<- | (w & L & C & E)].
        -- exists O. cbn [nth List.length]. split; [lia|]. split; [exact Z|].
           unfold Calendar.scoreEntry. rewrite Nat.add_0_r. reflexivity.
        -- exists w. split; [lia|]. auto.
      * intros ([|w] & L & C & E).
        -- left. rewrite E. cbn [nth]. unfold Calendar.scoreEntry.
           rewrite Nat.add_0_r. reflexivity.
        -- right. exists (S w). split; [cbn [List.length] in *; lia|]. auto.
Qed.

(** X18. The lines "Best" and "Worst" are printed exactly when at least 5
    weekdays have data and the highest weekday score exceeds the lowest by
    more than 15.  The worst weekday is then the first, from Monday, with
    the lowest score and the best the last with the highest score.  The
    weekdays that enter are those with data, each with the rounded average
    of 100 per green day, 50 per yellow day and 17 per red day. *)
Theorem calendar_best_and_worst_weekday :
  (forall scores p,
      Calendar.weekdayPattern scores = Some p
      <-> (5 <= List.length scores)%nat
          /\ Calendar.isWorst scores (Calendar.worst p)
          /\ Calendar.isBest scores (Calendar.best p)
          /\ (15 < Calendar.score (Calendar.best p)
                   - Calendar.score (Calendar.worst p))%Z)
  /\ (forall scores,
      Calendar.weekdayPattern scores = None
      <-> (List.length scores < 5)%nat
          \/ forall w b,
               Calendar.isWorst scores w -> Calendar.isBest scores b ->
               (Calendar.score b - Calendar.score w <= 15)%Z)
  /\ (forall parseInt days daysInMonth firstDayOfWeek s,
      let rep := Calendar.calendar parseInt days daysInMonth firstDayOfWeek in
      Calendar.pattern rep
      = Calendar.weekdayPattern (Calendar.scoresFrom 0 (Calendar.stats rep))
      /\ (In s (Calendar.scoresFrom 0 (Calendar.stats rep))
          <-> exists w,
                (w < List.length (Calendar.stats rep))%nat
                /\ Calendar.count (nth w (Calendar.stats rep) Calendar.emptyStat) <> O
                /\ s = Calendar.scoreEntry w
                         (nth w (Calendar.stats rep) Calendar.emptyStat))).
Proof.
  split; [|split].
  - intros scores p. destruct scores as [|x l].
    + split; [discriminate|]. intros (L & _). simpl in L. lia.
    + rewrite weekdayPattern_cons.
      pose proof (firstMin_worst x l) as W. pose proof (lastMax_best x l) as B.
      destruct (5 <=? List.length (x :: l))%nat eqn:L5.
      * apply Nat.leb_le in L5.
        destruct (15 <? Calendar.score (Calendar.lastMax x l)
                        - Calendar.score (Calendar.firstMin x l))%Z eqn:D.
        -- apply Z.ltb_lt in D. split.
           ++ intro H. injection H as <-. simpl. auto.
           ++ intros (_ & Hw & Hb & _).
              rewrite (isWorst_unique _ _ _ W Hw), (isBest_unique _ _ _ B Hb).
              destruct p; reflexivity.
        -- apply Z.ltb_ge in D. split; [discriminate|].
           intros (_ & Hw & Hb & G).
           rewrite <- (isWorst_unique _ _ _ W Hw), <- (isBest_unique _ _ _ B Hb) in G.
           lia.
      * apply Nat.leb_gt in L5. split; [discriminate|]. intros (L & _). lia.
  - intros scores. destruct scores as [|x l].
    + split; [intros _; left; simpl; lia | reflexivity].
    + rewrite weekdayPattern_cons.
      pose proof (firstMin_worst x l) as W. pose proof (lastMax_best x l) as B.
      destruct (5 <=? List.length (x :: l))%nat eqn:L5.
      * apply Nat.leb_le in L5.
        destruct (15 <? Calendar.score (Calendar.lastMax x l)
                        - Calendar.score (Calendar.firstMin x l))%Z eqn:D.
        -- apply Z.ltb_lt in D. split; [discriminate|].
           intros [L | H]; [lia|]. specialize (H _ _ W B). lia.
        -- apply Z.ltb_ge in D. split; [|reflexivity]. intros _. right.
           intros w b Hw Hb.
           rewrite <- (isWorst_unique _ _ _ W Hw), <- (isBest_unique _ _ _ B Hb).
           exact D.
      * apply Nat.leb_gt in L5. split; [|reflexivity]. intros _. left. exact L5.
  - intros parseInt days n fdow s rep. split; [reflexivity|].
    rewrite scoresFrom_In. reflexivity.
Qed.

(* ------------------------------------------------------------------ *)
(** ** The journal tool *)

Section JournalLists.

Local Open Scope nat_scope.

Lemma cardStep_loop (cards : list Journal.Card) :
  forall acc,
    let r := fold_left Journal.cardStep cards acc in
    Journal.positive r
    = Journal.positive acc
      ++ map Journal.impactLine (filter (Journal.signed "+") cards)
    /\ Journal.negative r
       = Journal.negative acc
         ++ map Journal.impactLine
              (filter (fun c => negb (Journal.signed "+" c) && Journal.signed "-" c)
                 cards)
    /\ Journal.insufficient r = Journal.insufficient acc.
Proof.
  induction cards as [|c cards IH]; intro acc; cbn zeta.
  - simpl. rewrite !app_nil_r. auto.
  - cbn [fold_left filter].
    destruct (IH (Journal.cardStep acc c)) as (P & N & I). cbn zeta in P, N, I.
    rewrite P, N, I. unfold Journal.cardStep, Journal.signed.
    destruct (Journal.startsWith "+" (Journal.pctDisplay c)); cbn [negb andb].
    + cbn [Journal.positive Journal.negative Journal.insufficient map].
      rewrite <- app_assoc. auto.
    + destruct (Journal.startsWith "-" (Journal.pctDisplay c)).
      * cbn [Journal.positive Journal.negative Journal.insufficient map].
        rewrite <- app_assoc. auto.
      * auto.
Qed.

Lemma insufficientStep_loop (cards : list Journal.Card) :
  forall acc,
    let r := fold_left Journal.insufficientStep cards acc in
    Journal.positive r = Journal.positive acc
    /\ Journal.negative r = Journal.negative acc
    /\ Journal.insufficient r
       = Journal.insufficient acc ++ map Journal.cardName cards.
Proof.
  induction cards as [|c cards IH]; intro acc; cbn zeta.
  - simpl. rewrite app_nil_r. auto.
  - cbn [fold_left map].
    destruct (IH (Journal.insufficientStep acc c)) as (P & N & I).
    cbn zeta in P, N, I. rewrite P, N, I.
    cbn [Journal.insufficientStep Journal.positive Journal.negative
         Journal.insufficient].
    rewrite <- app_assoc. auto.
Qed.

Lemma isImpact_not_insufficient (t : Journal.Tile) :
  Journal.isImpact t = true -> Journal.isInsufficient t = false.
Proof.
  unfold Journal.isImpact, Journal.isInsufficient. intro H.
  apply String.eqb_eq in H. rewrite H. reflexivity.
Qed.

Lemma tileStep_loop (tiles : list Journal.Tile) :
  forall acc,
    let r := fold_left Journal.tileStep tiles acc in
    let cards := flat_map Journal.cardsOf (filter Journal.isImpact tiles) in
    Journal.positive r
    = Journal.positive acc
      ++ map Journal.impactLine (filter (Journal.signed "+") cards)
    /\ Journal.negative r
       = Journal.negative acc
         ++ map Journal.impactLine
              (filter (fun c => negb (Journal.signed "+" c) && Journal.signed "-" c)
                 cards)
    /\ Journal.insufficient r
       = Journal.insufficient acc
         ++ map Journal.cardName
              (flat_map Journal.cardsOf (filter Journal.isInsufficient tiles)).
Proof.
  induction tiles as [|t tiles IH]; intro acc; cbn zeta.
  - simpl. rewrite !app_nil_r. auto.
  - cbn [fold_left filter].
    destruct (IH (Journal.tileStep acc t)) as (P & N & I). cbn zeta in P, N, I.
    rewrite P, N, I. unfold Journal.tileStep.
    destruct (Journal.isImpact t) eqn:A.
    + rewrite (isImpact_not_insufficient t A).
      destruct (cardStep_loop (Journal.cardsOf t) acc) as (P1 & N1 & I1).
      cbn zeta in P1, N1, I1. rewrite P1, N1, I1.
      cbn [flat_map]. rewrite !filter_app, !map_app, !app_assoc. auto.
    + destruct (Journal.isInsufficient t).
      * destruct (insufficientStep_loop (Journal.cardsOf t) acc) as (P1 & N1 & I1).
        cbn zeta in P1, N1, I1. rewrite P1, N1, I1.
        cbn [flat_map]. rewrite map_app, app_assoc. auto.
      * auto.
Qed.

Lemma signed_exclusive (c : Journal.Card) :
  Journal.signed "+" c = true -> Journal.signed "-" c = false.
Proof.
  unfold Journal.signed, Journal.startsWith.
  destruct (Journal.pctDisplay c) as [|a rest]; [discriminate|].
  intro H. apply Ascii.eqb_eq in H. rewrite H. reflexivity.
Qed.

Lemma filter_minus (cards : list Journal.Card) :
  filter (fun c => negb (Journal.signed "+" c) && Journal.signed "-" c) cards
  = filter (Journal.signed "-") cards.
Proof.
  apply filter_ext. intro c.
  destruct (Journal.signed "+" c) eqn:P.
  - rewrite (signed_exclusive c P). reflexivity.
  - reflexivity.
Qed.

Lemma signed_split_length (cards : list Journal.Card) :
  List.length (filter (Journal.signed "+") cards)
  + List.length (filter (Journal.signed "-") cards)
  + List.length (filter (fun c => negb (Journal.signed "+" c)
                                  && negb (Journal.signed "-" c)) cards)
  = List.length cards.
Proof.
  induction cards as [|c cards IH]; [reflexivity|].
  cbn [filter].
  destruct (Journal.signed "+" c) eqn:P.
  - rewrite (signed_exclusive c P). cbn [negb andb List.length]. lia.
  - destruct (Journal.signed "-" c); cbn [negb andb List.length]; lia.
Qed.

Lemma filter_nil_iff {A : Type} (f : A -> bool) (l : list A) :
  filter f l = [] <-> forall x, In x l -> f x = false.
Proof.
  induction l as [|a l IH]; simpl.
  - split; [intros _ x [] | reflexivity].
  - destruct (f a) eqn:Fa.
    + split; [discriminate|]. intro H. specialize (H a (or_introl eq_refl)).
      congruence.
    + rewrite IH. split.
      * intros H x [<- | Hx]; [exact Fa | apply H; exact Hx].
      * intros H x Hx. apply H. right. exact Hx.
Qed.

End JournalLists.

(** X19. The journal tool lists, in the order of the reply, the cards of
    the impact tiles whose percentage starts with "+" under "Helps
    recovery" and those whose percentage starts with "-" under "Hurts
    recovery"; no card is in both lists and a card with any other
    percentage (absent, empty, unsigned) is in neither.  The cards of the
    tiles without enough data give the names after "Need more data".  The
    line "Not enough journal data yet ..." is in the answer exactly when
    no card of an impact tile has a signed percentage. *)
Theorem journal_cards_by_sign :
  forall (refresh : option string) (tiles : option (list Journal.Tile)),
    let l := Journal.classify tiles in
    let cards := Journal.impactCards tiles in
    Journal.positive l
    = map Journal.impactLine (filter (Journal.signed "+") cards)
    /\ Journal.negative l
       = map Journal.impactLine (filter (Journal.signed "-") cards)
    /\ Journal.insufficient l
       = map Journal.cardName (Journal.insufficientCards tiles)
    /\ (forall c, Journal.signed "+" c && Journal.signed "-" c = false)
    /\ (List.length (Journal.positive l) + List.length (Journal.negative l)
        + List.length (filter (fun c => negb (Journal.signed "+" c)
                                        && negb (Journal.signed "-" c)) cards)
        = List.length cards)%nat
    /\ (In Journal.notEnough (Journal.report refresh tiles)
        <-> forall c, In c cards ->
              Journal.signed "+" c = false /\ Journal.signed "-" c = false).
Proof.
  intros refresh tiles l cards.
  destruct (tileStep_loop (match tiles with Some ts => ts | None => [] end)
              Journal.emptyLists) as (P & N & I).
  cbn zeta in P, N, I. rewrite filter_minus in N.
  change (fold_left Journal.tileStep _ Journal.emptyLists) with l in P, N, I.
  change (flat_map Journal.cardsOf (filter Journal.isImpact _)) with cards in P, N.
  change (flat_map Journal.cardsOf (filter Journal.isInsufficient _))
    with (Journal.insufficientCards tiles) in I.
  cbn [Journal.emptyLists Journal.positive Journal.negative Journal.insufficient
       app] in P, N, I.
  split; [exact P|]. split; [exact N|]. split; [exact I|]. split.
  { intro c. destruct (Journal.signed "+" c) eqn:S1; [|reflexivity].
    rewrite (signed_exclusive c S1). reflexivity. }
  split.
  { rewrite P, N, !length_map. apply signed_split_length. }
  assert (Items : forall x, In x (Journal.positive l) \/ In x (Journal.negative l) ->
                    x <> Journal.notEnough).
  { intros x Hx.
    assert (E : exists c, x = Journal.impactLine c).
    { destruct Hx as [Hx | Hx]; [rewrite P in Hx | rewrite N in Hx];
        apply in_map_iff in Hx; destruct Hx as (c & <- & _); exists c; reflexivity. }
    destruct E as (c & ->). unfold Journal.impactLine, Journal.notEnough. simpl.
    discriminate. }
  assert (Empty : (Journal.positive l = [] /\ Journal.negative l = [])
                  <-> forall c, In c cards ->
                        Journal.signed "+" c = false /\ Journal.signed "-" c = false).
  { rewrite P, N. split.
    - intros [E1 E2] c Hc.
      apply map_eq_nil in E1. apply map_eq_nil in E2.
      split; [exact (proj1 (filter_nil_iff _ _) E1 c Hc)
             | exact (proj1 (filter_nil_iff _ _) E2 c Hc)].
    - intro H. split.
      + replace (filter (Journal.signed "+") cards) with (@nil Journal.Card);
          [reflexivity|].
        symmetry. apply filter_nil_iff. intros c Hc. apply (H c Hc).
      + replace (filter (Journal.signed "-") cards) with (@nil Journal.Card);
          [reflexivity|].
        symmetry. apply filter_nil_iff. intros c Hc. apply (H c Hc). }
  rewrite <- Empty. unfold Journal.report. fold l. cbv zeta.
  split.
  - intro H.
    assert (NE : Journal.nonEmpty (Journal.positive l) = true
                 \/ Journal.nonEmpty (Journal.negative l) = true -> False).
    { intro C.
      assert (B : negb (Journal.nonEmpty (Journal.positive l))
                  && negb (Journal.nonEmpty (Journal.negative l)) = false).
      { destruct C as [C | C]; rewrite C; [reflexivity | apply andb_false_r]. }
      rewrite B in H. rewrite !in_app_iff in H.
      unfold Journal.notEnough in H, Items.
      destruct H as [H | [H | [H | [H | H]]]].
      - cbn [In] in H. destruct H as [H | [H | [H | []]]];
          simpl in H; discriminate H.
      - destruct (Journal.nonEmpty (Journal.positive l)); [|destruct H].
        cbn [app In] in H. destruct H as [H | H]; [discriminate H|].
        apply in_app_or in H. destruct H as [H | [H | []]]; [|discriminate H].
        exact (Items _ (or_introl H) eq_refl).
      - destruct (Journal.nonEmpty (Journal.negative l)); [|destruct H].
        cbn [app In] in H. destruct H as [H | H]; [discriminate H|].
        apply in_app_or in H. destruct H as [H | [H | []]]; [|discriminate H].
        exact (Items _ (or_intror H) eq_refl).
      - destruct (Journal.nonEmpty (Journal.insufficient l)); [|destruct H].
        destruct H as [H | []]. simpl in H. discriminate H.
      - destruct H. }
    destruct (Journal.positive l) as [|p ps].
    + destruct (Journal.negative l) as [|q qs]; [auto|].
      exfalso. apply NE. right. reflexivity.
    + exfalso. apply NE. left. reflexivity.
  - intros [E1 E2]. rewrite E1, E2. cbn [Journal.nonEmpty negb andb app].
    do 3 right. apply in_or_app. right. left. reflexivity.
Qed.
